(** * FFBP/vis_utils.py: the layer viewer, embedded and verified

    The module is notebook glue: it lists pickled run logs, lays out one
    grid of images per layer, builds five widgets and redraws the images
    from a snapshot of the selected log.  The embedding keeps the Python
    structure: dictionaries whose iteration order is observed are
    insertion-ordered association lists, the dictionaries of a loaded
    snapshot are objects on a heap (so that aliases are visible), images
    are objects of the figure, and every function runs in a state and
    exception monad. *)

From Stdlib Require Import ZArith Lia Ascii.
From Stdlib Require QArith_base DecimalString.
From stdpp Require Import base tactics option list gmap strings.

Local Open Scope Z_scope.
Local Open Scope nat_scope.

(* ===================================================================== *)
(** * Python values shared by all functions *)
(* ===================================================================== *)

Module Py.

(** Exceptions that the modelled code can meet.  [HostError] stands for
    anything raised inside the host (os, pickle, the log utilities). *)
Inductive pykey : Type :=
  | StrKey (s : string)
  | IntKey (z : Z).

Inductive exn : Type :=
  | IndexError
  | KeyError (key : pykey)
  | TypeError
  | AttributeError
  | AxisError
  | HostError (name : string).

Inductive outcome (A : Type) : Type :=
  | Ok (a : A)
  | Raise (e : exn).
Arguments Ok {A} a.
Arguments Raise {A} e.

(** [seq[i]] for a Python int [i] on a sequence of length [n]: negative
    indices count from the end. *)
Definition norm_index (i : Z) (n : nat) : option nat :=
  if ((0 <=? i) && (i <? Z.of_nat n))%Z then Some (Z.to_nat i)
  else if ((- Z.of_nat n <=? i) && (i <? 0))%Z then Some (Z.to_nat (Z.of_nat n + i))
  else None.

Definition getitem_list {A : Type} (l : list A) (i : Z) : outcome A :=
  match norm_index i (length l) with
  | Some j => match l !! j with Some x => Ok x | None => Raise IndexError end
  | None => Raise IndexError
  end.

(** [l[:-1]] *)
Definition all_but_last {A : Type} (l : list A) : list A :=
  take (length l - 1) l.

(** [enumerate(l)] *)
Definition enumerate {A : Type} (l : list A) : list (nat * A) :=
  zip (seq 0 (length l)) l.

(** ** Strings *)

(** [s.startswith(p)] *)
Fixpoint starts_with (p s : string) : bool :=
  match p, s with
  | EmptyString, _ => true
  | String a p', String b s' => if decide (a = b) then starts_with p' s' else false
  | String _ _, EmptyString => false
  end.

(** [needle in hay] *)
Fixpoint str_in (needle hay : string) : bool :=
  starts_with needle hay ||
  match hay with
  | EmptyString => false
  | String _ hay' => str_in needle hay'
  end.

(** [s.endswith('/')] *)
Fixpoint ends_with_sep (s : string) : bool :=
  match s with
  | EmptyString => false
  | String a EmptyString => if decide (a = "/"%char) then true else false
  | String _ s' => ends_with_sep s'
  end.

(** [os.path.join(a, b)] of posixpath, for two components. *)
Definition joinp (a b : string) : string :=
  if starts_with "/" b then b
  else if decide (a = "") then a +:+ b
  else if ends_with_sep a then a +:+ b
  else a +:+ "/" +:+ b.

(** [s.upper()] on ASCII letters and [s.replace('_', ' ')]. *)
Definition upper_char (c : ascii) : ascii :=
  let n := nat_of_ascii c in
  if (97 <=? n) && (n <=? 122) then ascii_of_nat (n - 32) else c.

Fixpoint str_map (f : ascii -> ascii) (s : string) : string :=
  match s with
  | EmptyString => EmptyString
  | String c s' => String (f c) (str_map f s')
  end.

Definition str_upper (s : string) : string := str_map upper_char s.

Definition underscores_to_spaces (s : string) : string :=
  str_map (fun c => if decide (c = "_"%char) then " "%char else c) s.

(** [sorted(l)] on strings (code-point order); insertion sort is stable. *)
Fixpoint insert_sorted (s : string) (l : list string) : list string :=
  match l with
  | [] => [s]
  | x :: l' => if String.ltb s x then s :: l else x :: insert_sorted s l'
  end.

Definition py_sorted (l : list string) : list string :=
  foldr insert_sorted [] (reverse l).

(** ** Insertion-ordered dictionaries with string keys

    [d[k] = v] keeps the position of a key that is already present and
    appends a new key at the end; [d.items()] is the list itself. *)
Abbreviation odict V := (list (string * V)).

Fixpoint od_set {V : Type} (k : string) (v : V) (d : odict V) : odict V :=
  match d with
  | [] => [(k, v)]
  | (k', v') :: d' =>
      if decide (k' = k) then (k', v) :: d' else (k', v') :: od_set k v d'
  end.

Fixpoint od_get {V : Type} (k : string) (d : odict V) : option V :=
  match d with
  | [] => None
  | (k', v') :: d' => if decide (k' = k) then Some v' else od_get k d'
  end.

Definition od_keys {V : Type} (d : odict V) : list string := d.*1.

Definition getitem_od {V : Type} (d : odict V) (k : string) : outcome V :=
  match od_get k d with
  | Some v => Ok v
  | None => Raise (KeyError (StrKey k))
  end.

Definition getitem_map {V : Type} (d : gmap string V) (k : string) : outcome V :=
  match d !! k with
  | Some v => Ok v
  | None => Raise (KeyError (StrKey k))
  end.

End Py.
Export Py.

(* ===================================================================== *)
(** * numpy arrays as strided views of a buffer *)
(* ===================================================================== *)

Module Np.

(** An array is a window on a flat buffer: a start offset and, per axis,
    its length and its stride.  [.T], [expand_dims] and integer indexing
    only rewrite the window; none of them touches the buffer. *)
Record ndarray (A : Type) : Type := NdArray {
  nd_buf : list A;
  nd_offset : nat;
  nd_axes : list (nat * nat)
}.
Arguments NdArray {A} nd_buf nd_offset nd_axes.
Arguments nd_buf {A} _.
Arguments nd_offset {A} _.
Arguments nd_axes {A} _.

Definition shape {A : Type} (a : ndarray A) : list nat := (nd_axes a).*1.
Definition ndim {A : Type} (a : ndarray A) : nat := length (nd_axes a).

Definition prod_list (s : list nat) : nat := foldr Nat.mul 1 s.

(** Row-major strides of a fresh array. *)
Fixpoint c_axes (s : list nat) : list (nat * nat) :=
  match s with
  | [] => []
  | n :: s' => (n, prod_list s') :: c_axes s'
  end.

(** [np.zeros(shape)] *)
Definition zeros {A : Type} (z : A) (s : list nat) : ndarray A :=
  NdArray (replicate (prod_list s) z) 0 (c_axes s).

(** [a.T]: the axes in reverse order. *)
Definition transpose {A : Type} (a : ndarray A) : ndarray A :=
  NdArray (nd_buf a) (nd_offset a) (reverse (nd_axes a)).

(** [np.expand_dims(a, axis=1)]: a new axis of length 1 in second
    position; an array without any axis has no position 1. *)
Definition expand_dims1 {A : Type} (a : ndarray A) : outcome (ndarray A) :=
  match nd_axes a with
  | [] => Raise AxisError
  | ax :: axes => Ok (NdArray (nd_buf a) (nd_offset a) (ax :: (1, 0) :: axes))
  end.

(** [a[i]] for an integer [i]: the first axis is consumed. *)
Definition getitem {A : Type} (a : ndarray A) (i : Z) : outcome (ndarray A) :=
  match nd_axes a with
  | [] => Raise IndexError
  | (n, t) :: axes =>
      match norm_index i n with
      | Some j => Ok (NdArray (nd_buf a) (nd_offset a + j * t) axes)
      | None => Raise IndexError
      end
  end.

(** Reading one element by a full index, used to state what the views
    show. *)
Fixpoint address (axes : list (nat * nat)) (idx : list nat) : option nat :=
  match axes, idx with
  | [], [] => Some 0
  | (n, t) :: axes', i :: idx' =>
      if decide (i < n) then
        match address axes' idx' with
        | Some r => Some (i * t + r)
        | None => None
        end
      else None
  | _, _ => None
  end.

Definition nd_get {A : Type} (a : ndarray A) (idx : list nat) : option A :=
  match address (nd_axes a) idx with
  | Some r => nd_buf a !! (nd_offset a + r)
  | None => None
  end.

End Np.
Export Np.

(* ===================================================================== *)
(** * The world the module runs in *)
(* ===================================================================== *)

(** The element type of the tensors.  The program never computes with an
    element: it only needs the zero that [np.zeros] writes. *)
Class Numeric : Type := {
  scalar : Type;
  zero : scalar
}.

(** What a loaded run log contains: tensors (numbers are tensors without
    axes), references to dictionaries on the heap, and anything else. *)
Inductive value `{Numeric} : Type :=
  | VArr (a : ndarray scalar)
  | VRef (l : nat)
  | VOther (repr : string).

(** A dictionary of a snapshot and the heap of such dictionaries. *)
Abbreviation pydict := (gmap string value).
Abbreviation pyheap := (gmap nat (gmap string value)).

(** The collaborators of the module: [os.listdir] and the functions that
    [vis_utils] imports from [.utils], whose source is not part of the
    module.  They read the file system; [load_test_data] unpickles, so it
    may also allocate dictionaries on the heap. *)
Class Environment `{Numeric} : Type := {
  FS : Type;
  listdir : FS -> string -> outcome (list string);
  load_test_data : FS -> string -> pyheap -> outcome (list value) * pyheap;
  get_epochs : FS -> string -> outcome (list Z);
  get_layer_names : FS -> string -> outcome (list string);
  get_layer_dims : FS -> string -> list string -> outcome (gmap string (list nat));
  get_pattern_options : FS -> string -> Z -> outcome (list string)
}.

(** A matplotlib [AxesImage]: the array it shows, its colormap and the
    limits of its norm; [None] is the default that [imshow] leaves. *)
Record image `{Numeric} : Type := Image {
  img_data : ndarray scalar;
  img_cmap : option string;
  img_vmin : option Z;
  img_vmax : option Z
}.
Arguments Image {_} img_data img_cmap img_vmin img_vmax.

(** ** Widgets, as the constructor calls of [view_layers] build them *)

Record Layout : Type := { width : string }.

Record Dropdown : Type := {
  dd_options : odict string;      (* label -> value *)
  dd_description : string;
  dd_value : string;
  dd_layout : Layout
}.

Record IntRangeSlider : Type := {
  rs_value : Z * Z;
  rs_min : Z;
  rs_max : Z;
  rs_step : QArith_base.Q;
  rs_description : string;
  rs_continuous_update : bool;
  rs_layout : Layout
}.

Record IntSlider : Type := {
  is_value : Z;
  is_min : Z;
  is_max : Z;
  is_step : Z;
  is_description : string;
  is_continuous_update : bool;
  is_layout : Layout
}.

Record Select : Type := {
  sel_options : odict Z;          (* label -> value *)
  sel_value : Z;
  sel_rows : Z;
  sel_description : string;
  sel_layout : Layout
}.

Inductive widget : Type :=
  | WDropdown (d : Dropdown)
  | WIntRangeSlider (r : IntRangeSlider)
  | WIntSlider (s : IntSlider)
  | WSelect (s : Select).

(** A value that travels through [interactive_output] as a keyword
    argument. *)
Inductive pyarg : Type :=
  | AStr (s : string)
  | AInt (z : Z)
  | ARange (r : Z * Z)
  | AImgs (d : list (odict nat))
  | ANames (n : list string).

(** An entry of the controls dictionary: a widget or [widgets.fixed]. *)
Inductive control : Type :=
  | Interactive (w : widget)
  | Fixed (v : pyarg).

Record BoxLayout : Type := {
  bl_display : string;
  bl_flex_flow : string;
  bl_justify_content : string;
  bl_border : string;
  bl_align_items : string;
  bl_width : string
}.

(** A [widgets.Box]: children and layout.  The control panel is a box
    of row boxes. *)
Record Box (A : Type) : Type := {
  children : list A;
  box_layout : BoxLayout
}.
Arguments children {A} _.
Arguments box_layout {A} _.

(** ** State *)

Record world `{Environment} : Type := World {
  fs : FS;                         (* the file system, only ever read *)
  heap : pyheap;                   (* dictionaries of the loaded logs *)
  images : list image;             (* the images of the figure *)
  stdout : list (value * value);   (* 'epoch {}, loss = {:.5f}' lines *)
  tracebacks : list exn;           (* shown by the Output widget *)
  displayed : list (Box (Box control))   (* what [display] was given *)
}.
Arguments World {_ _} fs heap images stdout tracebacks displayed.

(* ===================================================================== *)
(** * The state and exception monad *)
(* ===================================================================== *)

Section Monad.
Context `{Environment}.

Definition M (A : Type) : Type := world -> outcome A * world.

Definition ret {A : Type} (a : A) : M A := fun w => (Ok a, w).

Definition raise {A : Type} (e : exn) : M A := fun w => (Raise e, w).

Definition bind {A B : Type} (m : M A) (k : A -> M B) : M B :=
  fun w =>
    match m w with
    | (Ok a, w') => k a w'
    | (Raise e, w') => (Raise e, w')
    end.

(** A pure computation that may raise. *)
Definition lift {A : Type} (o : outcome A) : M A := fun w => (o, w).

(** A collaborator that reads the file system. *)
Definition read_fs {A : Type} (f : FS -> outcome A) : M A :=
  fun w => (f (fs w), w).

End Monad.

Declare Scope py_scope.
Delimit Scope py_scope with py.
Notation "'let*' x ':=' m 'in' k" := (bind m (fun x => k))
  (at level 10, x pattern, m at level 100, k at level 200) : py_scope.
Notation "m ';;' k" := (bind m (fun _ => k))
  (at level 100, k at level 200, right associativity) : py_scope.
Local Open Scope py_scope.

Section Loops.
Context `{Environment}.

(** [for x in l: body(x)] *)
Fixpoint for_each {A : Type} (l : list A) (body : A -> M unit) : M unit :=
  match l with
  | [] => ret tt
  | x :: l' => body x ;; for_each l' body
  end.

(** [for x in l: s = body(s, x)], for loops that rebuild a local. *)
Fixpoint for_fold {A S : Type} (l : list A) (s : S) (body : S -> A -> M S) : M S :=
  match l with
  | [] => ret s
  | x :: l' => let* s' := body s x in for_fold l' s' body
  end.

End Loops.

(* ===================================================================== *)
(** * The functions of vis_utils.py *)
(* ===================================================================== *)

Section Program.
Context `{Environment}.

(** ** Field updates of the world *)

Definition with_heap (h : pyheap) (w : world) : world :=
  World (fs w) h (images w) (stdout w) (tracebacks w) (displayed w).

Definition with_images (i : list image) (w : world) : world :=
  World (fs w) (heap w) i (stdout w) (tracebacks w) (displayed w).

Definition with_stdout (o : list (value * value)) (w : world) : world :=
  World (fs w) (heap w) (images w) o (tracebacks w) (displayed w).

Definition with_tracebacks (t : list exn) (w : world) : world :=
  World (fs w) (heap w) (images w) (stdout w) t (displayed w).

Definition with_displayed (d : list (Box (Box control))) (w : world) : world :=
  World (fs w) (heap w) (images w) (stdout w) (tracebacks w) d.

(** ** Operations on loaded values *)

(** [v[k]] for a string key, read in the heap [h]. *)
Definition lookup_str (h : pyheap) (v : value) (k : string) : outcome value :=
  match v with
  | VRef l =>
      match h !! l with
      | Some d => getitem_map d k
      | None => Raise (HostError "dangling reference")
      end
  | VArr _ => Raise IndexError
  | VOther _ => Raise TypeError
  end.

Definition getitem_str (v : value) (k : string) : M value :=
  fun w => (lookup_str (heap w) v k, w).

(** [v[k] = x] for a string key: the dictionary that [v] refers to is
    updated in place. *)
Definition setitem_str (v : value) (k : string) (x : value) : M unit :=
  fun w =>
    match v with
    | VRef l =>
        match heap w !! l with
        | Some d => (Ok tt, with_heap (<[l := <[k := x]> d]> (heap w)) w)
        | None => (Raise (HostError "dangling reference"), w)
        end
    | VArr _ => (Raise IndexError, w)
    | VOther _ => (Raise TypeError, w)
    end.

(** [v[i]] for an integer. *)
Definition getitem_int (v : value) (i : Z) : outcome value :=
  match v with
  | VArr a =>
      match getitem a i with
      | Ok a' => Ok (VArr a')
      | Raise e => Raise e
      end
  | VRef _ => Raise (KeyError (IntKey i))
  | VOther _ => Raise TypeError
  end.

(** [v.T] *)
Definition attr_T (v : value) : outcome value :=
  match v with
  | VArr a => Ok (VArr (transpose a))
  | _ => Raise AttributeError
  end.

(** [np.expand_dims(v, axis=1)]; what is not an array is taken by numpy
    as an array without axes. *)
Definition np_expand_dims1 (v : value) : outcome value :=
  match v with
  | VArr a =>
      match expand_dims1 a with
      | Ok a' => Ok (VArr a')
      | Raise e => Raise e
      end
  | _ => Raise AxisError
  end.

(** [v.ndim] *)
Definition attr_ndim (v : value) : outcome nat :=
  match v with
  | VArr a => Ok (ndim a)
  | _ => Raise AttributeError
  end.

(** [load_test_data(runlog_path=runlog_path)] *)
Definition call_load_test_data (runlog_path : string) : M (list value) :=
  fun w =>
    let '(o, h) := load_test_data (fs w) runlog_path (heap w) in
    (o, with_heap h w).

(** [print('epoch {}, loss = {:.5f}'.format(enum, loss))]: the second
    field needs a number. *)
Definition print_epoch_loss (enum loss : value) : M unit :=
  fun w =>
    match loss with
    | VArr a =>
        if decide (ndim a = 0)
        then (Ok tt, with_stdout (stdout w ++ [(enum, loss)]) w)
        else (Raise TypeError, w)
    | _ => (Raise TypeError, w)
    end.

(** ** Images of the figure *)

(** [ax.imshow(data)]: a new image, identified by its position. *)
Definition imshow (data : ndarray scalar) : M nat :=
  fun w =>
    (Ok (length (images w)),
     with_images (images w ++ [Image data None None None]) w).

(** An attribute of the image [img] is assigned.  An identifier always
    denotes an image of the figure; on any other number the assignment
    does nothing. *)
Definition update_image (img : nat) (f : image -> image) : M unit :=
  fun w => (Ok tt, with_images (alter f img (images w)) w).

(** [img.set_data(data)]: the image shows [data] from now on.  What
    matplotlib itself asks of the shape of [data] is not part of the
    model. *)
Definition set_data (img : nat) (data : value) : M unit :=
  match data with
  | VArr a =>
      update_image img
        (fun i => Image a (img_cmap i) (img_vmin i) (img_vmax i))
  | _ => raise TypeError
  end.

(** [img.cmap = get_cmap(colormap)]; the colormap is kept by name. *)
Definition set_cmap (img : nat) (colormap : string) : M unit :=
  update_image img
    (fun i => Image (img_data i) (Some colormap) (img_vmin i) (img_vmax i)).

(** [img.norm.vmin = v] *)
Definition set_vmin (img : nat) (v : Z) : M unit :=
  update_image img
    (fun i => Image (img_data i) (img_cmap i) (Some v) (img_vmax i)).

(** [img.norm.vmax = v] *)
Definition set_vmax (img : nat) (v : Z) : M unit :=
  update_image img
    (fun i => Image (img_data i) (img_cmap i) (img_vmin i) (Some v)).

(** ** [_make_logs_widget] (lines 45-56) *)

Definition _make_logs_widget (log_path : string) (layout : Layout) : M Dropdown :=
  let* names := read_fs (fun f => listdir f log_path) in
  let filenames := List.filter (fun filename => str_in ".pkl" filename) names in
  let runlogs :=
    fold_left
      (fun runlogs filename => od_set filename (joinp log_path filename) runlogs)
      filenames [] in
  let* first := lift (getitem_list filenames 0) in
  let* value := lift (getitem_od runlogs first) in
  ret {| dd_options := runlogs;
         dd_description := "Run log: ";
         dd_value := value;
         dd_layout := layout |}.

(** ** [_make_axes_grid] (lines 69-142)

    The divider, the ghost axis, the tick settings and the [Observer] lay
    out and label the axes; the returned dictionary and the images do not
    depend on them, so only the grid table and the image loop are kept.
    [mpl_figure] is the figure of the world. *)

Definition ax_param : Type := (nat * nat) * (nat * nat) * string.

Definition _make_axes_grid (N subplot_ind : nat) (layer_name : string)
    (inp_size layer_size : nat) (mode : Z) (target : bool) : M (odict nat) :=
  let t := if target then 1 else 0 in
  let ax_params : odict ax_param :=
    [ ("input_", ((0, 0), (1, inp_size), "input"));
      ("weights", ((0, 2), (layer_size, inp_size), "W"));
      ("biases", ((2, 2), (layer_size, 1), "b"));
      ("net_input", ((4, 2), (layer_size, 1), "net"));
      ("output", ((6, 2), (layer_size, 1), "a")) ] in
  let ax_params :=
    if decide (t <> 0)
    then od_set "targets" ((8, 2), (layer_size, 1), "t") ax_params
    else ax_params in
  let ax_params :=
    if (mode >? 0)%Z then
      let gax_params : odict ax_param :=
        [ ("gweights", ((9 + 2 * t, 2), (layer_size, inp_size), "W'"));
          ("gbiases", ((11 + 2 * t, 2), (layer_size, 1), "b'"));
          ("gnet_input", ((13 + 2 * t, 2), (layer_size, 1), "net'"));
          ("goutput", ((15 + 2 * t, 2), (layer_size, 1), "a'")) ] in
      let ax_params :=
        fold_left (fun acc kv => od_set kv.1 kv.2 acc) gax_params ax_params in
      if (mode >? 1)%Z then
        let ax_params :=
          od_set "sgweights" ((17 + 2 * t, 2), (layer_size, inp_size), "sW'") ax_params in
        od_set "sgbiases" ((19 + 2 * t, 2), (layer_size, 1), "sb'") ax_params
      else ax_params
    else ax_params in
  for_fold ax_params []
    (fun img_dict '(k, (ax_coords, img_dims, ax_title)) =>
       let* img := imshow (zeros zero [img_dims.1; img_dims.2]) in
       ret (od_set k img img_dict)).

(** ** [_draw_layers] (lines 145-177) *)

Definition _draw_layers (runlog_path : string) (img_dicts : list (odict nat))
    (layer_names : list string) (colormap : string) (vrange : Z * Z)
    (tind pind : Z) : M unit :=
  let* logs := call_load_test_data runlog_path in
  let* snap := lift (getitem_list logs tind) in
  let* enum := getitem_str snap "enum" in
  let* losses := getitem_str snap "loss" in
  let* loss := lift (getitem_int losses pind) in
  let* targ := getitem_str snap "target" in
  let* snap_ldicts :=
    for_fold layer_names (∅ : gmap string value)
      (fun snap_ldicts layer_name =>
         let* ldict := getitem_str snap layer_name in
         let snap_ldicts := <[layer_name := ldict]> snap_ldicts in
         let* ldict := lift (getitem_map snap_ldicts layer_name) in
         setitem_str ldict "targets" targ ;;
         ret snap_ldicts) in
  print_epoch_loss enum loss ;;
  for_each (zip img_dicts layer_names)
    (fun '(img_dict, layer_name) =>
       for_each img_dict
         (fun '(k, img) =>
            let* ldict := lift (getitem_map snap_ldicts layer_name) in
            let* data := getitem_str ldict k in
            let* data := lift (if decide (k = "weights") then attr_T data else Ok data) in
            let* data := lift (if str_in "biases" k then np_expand_dims1 data else Ok data) in
            let* nd := lift (attr_ndim data) in
            let* data :=
              if decide (2 < nd) then
                let* data := lift (getitem_int data pind) in
                lift (if decide (k <> "input_") then attr_T data else Ok data)
              else ret data in
            set_data img data ;;
            set_cmap img colormap ;;
            set_vmin img vrange.1 ;;
            set_vmax img vrange.2)).

End Program.

(* ===================================================================== *)
(** * The widget host and [view_layers] *)
(* ===================================================================== *)

Section View.
Context `{Environment}.

(** The parameters of [_draw_layers], in the order of its [def]. *)
Definition _draw_layers_params : list string :=
  ["runlog_path"; "img_dicts"; "layer_names"; "colormap"; "vrange"; "tind"; "pind"].

(** [_draw_layers] called with a dictionary of keywords: every keyword
    must name a parameter and every parameter must be given; an argument
    of another kind than the body can use ends in a [TypeError]. *)
Definition call_draw_layers (kwargs : odict pyarg) : M unit :=
  if forallb (fun k => bool_decide (k ∈ _draw_layers_params)) (od_keys kwargs) then
    match od_get "runlog_path" kwargs, od_get "img_dicts" kwargs,
          od_get "layer_names" kwargs, od_get "colormap" kwargs,
          od_get "vrange" kwargs, od_get "tind" kwargs, od_get "pind" kwargs with
    | Some (AStr runlog_path), Some (AImgs img_dicts), Some (ANames layer_names),
      Some (AStr colormap), Some (ARange vrange), Some (AInt tind), Some (AInt pind) =>
        _draw_layers runlog_path img_dicts layer_names colormap vrange tind pind
    | _, _, _, _, _, _, _ => raise TypeError
    end
  else raise TypeError.

(** [w.value] of an [IntSlider]: ipywidgets caps and floors the value to
    the range of the slider. *)
Definition IntSlider_value (s : IntSlider) : Z :=
  let v := is_value s in
  let v := if (is_max s <? v)%Z then is_max s else v in
  if (v <? is_min s)%Z then is_min s else v.

Definition widget_value (w : widget) : pyarg :=
  match w with
  | WDropdown d => AStr (dd_value d)
  | WIntRangeSlider r => ARange (rs_value r)
  | WIntSlider s => AInt (IntSlider_value s)
  | WSelect s => AInt (sel_value s)
  end.

Definition control_value (c : control) : pyarg :=
  match c with
  | Interactive w => widget_value w
  | Fixed v => v
  end.

(** [with out: ...] of the Output widget of ipywidgets: an exception
    raised inside is shown as a traceback and is not passed on. *)
Definition captured (m : M unit) : M unit :=
  fun w =>
    match m w with
    | (Ok _, w') => (Ok tt, w')
    | (Raise e, w') => (Ok tt, with_tracebacks (tracebacks w' ++ [e]) w')
    end.

(** The observer that [widgets.interactive_output(f, controls)] installs
    on every control, with [f = _draw_layers]: it reads the current value
    of every control and calls [f] with them inside the Output widget. *)
Definition observer (controls : odict control) : M unit :=
  let kwargs := (fun kc : string * control => (kc.1, control_value kc.2)) <$> controls in
  captured (call_draw_layers kwargs).

(** [widgets.interactive_output(f=_draw_layers, controls=controls)]: the
    observer is installed and run once. *)
Definition interactive_output (controls : odict control) : M unit :=
  observer controls.



(** [display(panel)] *)
Definition display (panel : Box (Box control)) : M unit :=
  fun w => (Ok tt, with_displayed (displayed w ++ [panel]) w).

(** The locals of [view_layers] that stay reachable from the notebook
    once it has run (the function itself returns [None]). *)
Record view : Type := {
  epochs : list Z;
  layer_names : list string;
  axes_dicts : list (odict nat);
  run_widget : Dropdown;
  cmap_widget : Dropdown;
  vrange_widget : IntRangeSlider;
  step_widget : IntSlider;
  pattern_options : list string;
  pattern_widget : Select;
  controls_dict : odict control;
  controls_panel : Box (Box control)
}.

(** [[False for l in layer_names[:-1]] + [True]] *)
Definition disp_targs_of (layer_names : list string) : list bool :=
  ((fun _ => false) <$> all_but_last layer_names) ++ [true].

(** The loop of lines 248-250. *)
Definition options_map_of (pattern_options : list string) : odict Z :=
  fold_left (fun options_map ip => od_set ip.2 (Z.of_nat ip.1) options_map)
    (enumerate pattern_options) [].

(** ** [view_layers] (lines 180-294) *)

Definition view_layers (log_path : string) (mode : Z) : M view :=
  let _widget_layout := {| width := "100%" |} in
  let* run_widget := _make_logs_widget log_path _widget_layout in
  let runlog_path := dd_value run_widget in
  let* epochs := read_fs (fun f => get_epochs f runlog_path) in
  let* layer_names := read_fs (fun f => get_layer_names f runlog_path) in
  let* layer_dims := read_fs (fun f => get_layer_dims f runlog_path layer_names) in
  let num_layers := length layer_names in
  let disp_targs := disp_targs_of layer_names in
  let* axes_dicts :=
    for_fold (enumerate (zip layer_names disp_targs)) []
      (fun axes_dicts '(i, (layer_name, disp_targ)) =>
         let* dims := lift (getitem_map layer_dims layer_name) in
         let* inp_size := lift (getitem_list dims 0) in
         let* dims := lift (getitem_map layer_dims layer_name) in
         let* layer_size := lift (getitem_list dims 1) in
         let* grid :=
           _make_axes_grid num_layers i
             (underscores_to_spaces (str_upper layer_name))
             inp_size layer_size mode disp_targ in
         ret (axes_dicts ++ [grid])) in
  let cmap_widget :=
    {| dd_options :=
         (fun c => (c, c)) <$>
           py_sorted ["BrBG"; "bwr"; "coolwarm"; "PiYG"; "PRGn"; "PuOr"; "RdBu";
                      "RdGy"; "RdYlBu"; "RdYlGn"; "seismic"];
       dd_description := "Colors: ";
       dd_value := "coolwarm";
       dd_layout := _widget_layout |} in
  let vrange_widget :=
    {| rs_value := (-1, 1)%Z;
       rs_min := (-5)%Z;
       rs_max := 5%Z;
       rs_step := QArith_base.Qmake 1 2;
       rs_description := "V-range: ";
       rs_continuous_update := false;
       rs_layout := _widget_layout |} in
  let* first_epoch := lift (getitem_list epochs 0) in
  let step_widget :=
    {| is_value := first_epoch;
       is_min := 0%Z;
       is_max := (Z.of_nat (length epochs) - 1)%Z;
       is_step := 1%Z;
       is_description := "Step index: ";
       is_continuous_update := false;
       is_layout := _widget_layout |} in
  let* pattern_options :=
    read_fs (fun f => get_pattern_options f runlog_path (IntSlider_value step_widget)) in
  let options_map := options_map_of pattern_options in
  let pattern_widget :=
    {| sel_options := options_map;
       sel_value := 0%Z;
       sel_rows := Z.min 10 (Z.of_nat (length pattern_options));
       sel_description := "Pattern: ";
       sel_layout := _widget_layout |} in
  let controls_dict : odict control :=
    [ ("runlog_path", Interactive (WDropdown run_widget));
      ("img_dicts", Fixed (AImgs axes_dicts));
      ("layer_names", Fixed (ANames layer_names));
      ("colormap", Interactive (WDropdown cmap_widget));
      ("vrange", Interactive (WIntRangeSlider vrange_widget));
      ("tind", Interactive (WIntSlider step_widget));
      ("pind", Interactive (WSelect pattern_widget)) ] in
  let row_layout :=
    {| bl_display := "flex"; bl_flex_flow := "row"; bl_justify_content := "center";
       bl_border := ""; bl_align_items := ""; bl_width := "" |} in
  let* c_runlog_path := lift (getitem_od controls_dict "runlog_path") in
  let* c_pind := lift (getitem_od controls_dict "pind") in
  let* c_colormap := lift (getitem_od controls_dict "colormap") in
  let* c_vrange := lift (getitem_od controls_dict "vrange") in
  let* c_tind := lift (getitem_od controls_dict "tind") in
  let control_panel_rows :=
    [ {| children := [c_runlog_path; c_pind]; box_layout := row_layout |};
      {| children := [c_colormap; c_vrange]; box_layout := row_layout |};
      {| children := [c_tind]; box_layout := row_layout |} ] in
  let controls_panel :=
    {| children := control_panel_rows;
       box_layout :=
         {| bl_display := "flex"; bl_flex_flow := "column"; bl_justify_content := "";
            bl_border := "ridge 1px"; bl_align_items := "stretch"; bl_width := "65%" |} |} in
  interactive_output controls_dict ;;
  display controls_panel ;;
  ret {| epochs := epochs;
         layer_names := layer_names;
         axes_dicts := axes_dicts;
         run_widget := run_widget;
         cmap_widget := cmap_widget;
         vrange_widget := vrange_widget;
         step_widget := step_widget;
         pattern_options := pattern_options;
         pattern_widget := pattern_widget;
         controls_dict := controls_dict;
         controls_panel := controls_panel |}.

End View.

(* ===================================================================== *)
(** * Vocabulary of the statements *)
(* ===================================================================== *)

(** A zero matrix of [r] rows and [c] columns. *)
Definition zero_matrix {A : Type} (z : A) (r c : nat) (a : ndarray A) : Prop :=
  shape a = [r; c] /\
  forall i j, i < r -> j < c -> nd_get a [i; j] = Some z.

(** The panels of a layer grid, as the documentation of the viewing
    modes lists them. *)
Definition base_panels : list string :=
  ["input_"; "weights"; "biases"; "net_input"; "output"].
Definition gradient_panels : list string :=
  ["gweights"; "gbiases"; "gnet_input"; "goutput"].
Definition cumulative_panels : list string :=
  ["sgweights"; "sgbiases"].

Definition panels (mode : Z) (target : bool) : list string :=
  base_panels ++ (if target then ["targets"] else []) ++
  (if (mode >? 0)%Z then gradient_panels else []) ++
  (if (mode >? 1)%Z then cumulative_panels else []).

(** Rows and columns of the panel [k] of a layer with [inp_size] sending
    units and [layer_size] units: the input is a row, the three weight
    panels are matrices, every other panel is a column. *)
Definition declared_shape (inp_size layer_size : nat) (k : string) : nat * nat :=
  if decide (k = "input_") then (1, inp_size)
  else if bool_decide (k ∈ ["weights"; "gweights"; "sgweights"]) then (layer_size, inp_size)
  else (layer_size, 1).

(** What the pattern selector is said to be for a list of options: the
    label at position [i] stands for the index [i], the first pattern is
    selected, and the rows shown are the options, at most ten. *)
Definition selector_indexes (options : list string) (s : Select) : Prop :=
  (forall i label, options !! i = Some label ->
     od_get label (sel_options s) = Some (Z.of_nat i)) /\
  sel_value s = 0%Z /\
  sel_rows s = Z.min 10 (Z.of_nat (length options)) /\
  (sel_rows s <= 10)%Z.

(** The dictionary of run logs that [_make_logs_widget] fills. *)
Definition runlogs_of (log_path : string) (filenames : list string) : odict string :=
  fold_left
    (fun runlogs filename => od_set filename (joinp log_path filename) runlogs)
    filenames [].

Section SpecDefs.
Context `{Environment}.

(** The images that the loop of [_make_axes_grid] adds to the figure and
    the identifiers it files them under, starting at identifier [n]. *)
Definition grid_images (params : odict ax_param) : list image :=
  (fun p : string * ax_param => Image (zeros zero [p.2.1.2.1; p.2.1.2.2]) None None None)
    <$> params.

Fixpoint place (n : nat) (params : odict ax_param) (d : odict nat) : odict nat :=
  match params with
  | [] => d
  | p :: params' => place (S n) params' (od_set p.1 n d)
  end.


(** [wp m Q R w]: run from [w], the computation [m] either returns a
    value and a world that satisfy [Q], or raises an exception in a
    world that satisfies [R]. *)
Definition wp {A : Type} (m : M A) (Q : A -> world -> Prop)
    (R : exn -> world -> Prop) (w : world) : Prop :=
  match m w with
  | (Ok a, w') => Q a w'
  | (Raise e, w') => R e w'
  end.

(** ** The tensors that [_draw_layers] shows *)

(** The data steps of the loop body of [_draw_layers] (lines 166-173),
    read as one function of the tensor found under the key [k]. *)
Definition prepare (k : string) (pind : Z) (data : value) : outcome value :=
  match (if decide (k = "weights") then attr_T data else Ok data) with
  | Raise e => Raise e
  | Ok data =>
      match (if str_in "biases" k then np_expand_dims1 data else Ok data) with
      | Raise e => Raise e
      | Ok data =>
          match attr_ndim data with
          | Raise e => Raise e
          | Ok nd =>
              if decide (2 < nd) then
                match getitem_int data pind with
                | Raise e => Raise e
                | Ok data => if decide (k <> "input_") then attr_T data else Ok data
                end
              else Ok data
          end
      end
  end.

(** [view_of k pind d d']: the array [d'] is the tensor [d] seen through
    the permitted steps, in this order: transposed if the key is
    'weights'; given a second axis of length 1 if the key contains
    'biases'; and, if it then has more than two axes, indexed at [pind]
    and transposed unless the key is 'input_'. *)
Definition view_of (k : string) (pind : Z) (d d' : ndarray scalar) : Prop :=
  exists d1 d2,
    d1 = (if decide (k = "weights") then transpose d else d) /\
    (if str_in "biases" k then expand_dims1 d1 = Ok d2 else d2 = d1) /\
    (if decide (2 < ndim d2)
     then exists d3, getitem d2 pind = Ok d3 /\
            d' = (if decide (k <> "input_") then transpose d3 else d3)
     else d' = d2).

(** [d] is stored in the heap [h] under the key [k] of some dictionary;
    for the key 'targets' it may also be the 'target' of a snapshot. *)
Definition tensor_at (h : pyheap) (k : string) (d : ndarray scalar) : Prop :=
  exists l dict, h !! l = Some dict /\
    (dict !! k = Some (VArr d) \/ (k = "targets" /\ dict !! "target" = Some (VArr d))).

(** After a call that started with the images [before] and loaded the
    heap [h1], an array shown by the image [id] is either the one shown
    before or a view of a loaded tensor. *)
Definition shown_ok (h1 : pyheap) (pind : Z) (before : list image) (id : nat)
    (x : ndarray scalar) : Prop :=
  (exists im, before !! id = Some im /\ x = img_data im) \/
  (exists k d, tensor_at h1 k d /\ view_of k pind d x).

Definition images_ok (h1 : pyheap) (pind : Z) (before now : list image) : Prop :=
  forall id im, now !! id = Some im -> shown_ok h1 pind before id (img_data im).

(** ** The loaded log *)

(** [heap_rel h1 targ h]: the heap [h] has the dictionaries of [h1], each
    either as it was or with its 'targets' entry set to [targ]. *)
Definition heap_rel (h1 : pyheap) (targ : value) (h : pyheap) : Prop :=
  forall l,
    match h1 !! l, h !! l with
    | Some d, Some d' => d' = d \/ d' = <["targets" := targ]> d
    | None, None => True
    | _, _ => False
    end.

(** [targ] is the 'target' entry of a dictionary of the heap [h]. *)
Definition target_of (h : pyheap) (targ : value) : Prop :=
  exists l snap, h !! l = Some snap /\ snap !! "target" = Some targ.

(** What holds of the world [w'] at every point of a call of
    [_draw_layers] that started in [w] and loaded the heap [h1]. *)
Definition draw_inv (w : world) (h1 : pyheap) (pind : Z) (targ : value)
    (w' : world) : Prop :=
  fs w' = fs w /\
  heap_rel h1 targ (heap w') /\
  images_ok h1 pind (images w) (images w').

(** What holds of the world when a call of [_draw_layers] ends, in
    whatever way: the invariant for some [targ], which is the 'target'
    of a loaded dictionary unless the heap is still as loaded. *)
Definition draw_post (w : world) (h1 : pyheap) (pind : Z) (w' : world) : Prop :=
  exists targ, draw_inv w h1 pind targ w' /\ (heap w' = h1 \/ target_of h1 targ).


(** The keys that [_draw_layers] reads in a snapshot.  A layer that is
    itself called 'targets' is left out: that key is the one the function
    writes. *)
Definition expected_keys (layer_names : list string) : list string :=
  ["enum"; "loss"; "target"] ++ List.filter (fun n => bool_decide (n <> "targets")) layer_names.

(** ** The contract of the log loader *)





(** The inputs on which [_make_logs_widget] has no dropdown to build:
    the directory cannot be listed, or no listed name contains '.pkl'. *)
Inductive logs_fault (w : world) (log_path : string) : exn -> Prop :=
  | listing_fails (e : exn) :
      listdir (fs w) log_path = Raise e -> logs_fault w log_path e
  | no_pickle (names : list string) :
      listdir (fs w) log_path = Ok names ->
      List.filter (fun filename => str_in ".pkl" filename) names = [] ->
      logs_fault w log_path IndexError.

(** The loads on which [_draw_layers] cannot draw: [load_test_data]
    raised, or the snapshot at [tind] lacks a key that the function
    reads. *)
Inductive draw_fault (o : outcome (list value)) (h1 : pyheap)
    (layer_names : list string) (tind : Z) : Prop :=
  | load_fails (e : exn) :
      o = Raise e -> draw_fault o h1 layer_names tind
  | key_missing (logs : list value) (l : nat) (snap : gmap string value) (k : string) :
      o = Ok logs ->
      getitem_list logs tind = Ok (VRef l) ->
      h1 !! l = Some snap ->
      k ∈ expected_keys layer_names ->
      snap !! k = None ->
      draw_fault o h1 layer_names tind.

End SpecDefs.

(* ===================================================================== *)
(** * A small run log, used to exercise the statements below *)
(* ===================================================================== *)

Module Demo.

Definition Z_numeric : Numeric := {| scalar := Z; zero := 0%Z |}.
#[local] Existing Instance Z_numeric.

(** A fresh row-major array over the given buffer. *)
Definition arr (s : list nat) (b : list Z) : value := VArr (NdArray b 0 (c_axes s)).

(** The tensors of a layer with [inp] sending units and [size] units,
    tested on two patterns. *)
Definition layer_dict (inp size : nat) : gmap string value :=
  list_to_map
    [ ("input_", arr [2; 1; inp] (Z.of_nat <$> seq 100 (2 * inp)));
      ("weights", arr [inp; size] (Z.of_nat <$> seq 200 (inp * size)));
      ("biases", arr [size] (Z.of_nat <$> seq 300 size));
      ("net_input", arr [2; 1; size] (Z.of_nat <$> seq 400 (2 * size)));
      ("output", arr [2; 1; size] (Z.of_nat <$> seq 500 (2 * size))) ].

(** A snapshot at heap address [l]; its two layers live at [l + 1] and
    [l + 2]. *)
Definition snapshot (l : nat) (enum : Z) : gmap string value :=
  list_to_map
    [ ("enum", arr [] [enum]);
      ("loss", arr [2] [7; 9]%Z);
      ("target", arr [2; 1; 1] [1; 0]%Z);
      ("hidden_layer", VRef (l + 1));
      ("output_layer", VRef (l + 2)) ].

Definition snapshot_heap (l : nat) (enum : Z) : gmap nat (gmap string value) :=
  list_to_map
    [ (l, snapshot l enum); (l + 1, layer_dict 2 3); (l + 2, layer_dict 3 1) ].

(** The log directory and the collaborators: one directory ["logs"], and
    under ["logs/a.pkl"] a log with one snapshot per logged epoch, the
    snapshot of position [i] at heap address [10 * i]. *)
Definition env (names : list string) (logged_epochs : list Z)
    (options : list string) : Environment :=
  {| FS := unit;
     listdir := fun _ p =>
       if decide (p = "logs") then Ok names
       else Raise (HostError "FileNotFoundError");
     load_test_data := fun _ p h =>
       if decide (p = "logs/a.pkl") then
         (Ok ((fun i => VRef (10 * i)) <$> seq 0 (length logged_epochs)),
          foldr (fun ie acc => snapshot_heap (10 * ie.1) ie.2 ∪ acc) h
            (enumerate logged_epochs))
       else (Raise (HostError "FileNotFoundError"), h);
     get_epochs := fun _ _ => Ok logged_epochs;
     get_layer_names := fun _ _ => Ok ["hidden_layer"; "output_layer"];
     get_layer_dims := fun _ _ _ =>
       Ok (list_to_map [("hidden_layer", [2; 3]); ("output_layer", [3; 1])]);
     get_pattern_options := fun _ _ _ => Ok options |}.

Definition names : list string := ["a.pkl"; "notes.txt"; "b.pkl.bak"].

Definition env0 : Environment := env names [0; 1; 2]%Z ["p0"; "p1"].

(** The world before anything is loaded or drawn. *)
Definition start (names : list string) (logged_epochs : list Z)
    (options : list string) : @world _ (env names logged_epochs options) :=
  @World _ (env names logged_epochs options) tt ∅ [] [] [] [].

Definition start0 : @world _ env0 := start names [0; 1; 2]%Z ["p0"; "p1"].

(** A directory without any pickled log. *)
Definition other_names : list string := ["notes.txt"; "README"].

(** A figure with three blank images, and a grid of the hidden layer
    that files them under 'weights', 'biases' and 'input_'. *)
Definition blank : image := Image (zeros 0%Z [1; 1]) None None None.

Definition canvas : @world _ env0 := @World _ env0 tt ∅ [blank; blank; blank] [] [] [].

Definition small_grid : odict nat := [("weights", 0); ("biases", 1); ("input_", 2)].

(** What [load_test_data] returns for logs/a.pkl in [env0]. *)
Definition logs3 : list value := [VRef 0; VRef 10; VRef 20].

Definition loaded : gmap nat (gmap string value) :=
  snapshot_heap 0 0 ∪ (snapshot_heap 10 1 ∪ (snapshot_heap 20 2 ∪ ∅)).

(** A log whose only snapshot has a loss for two patterns but an input
    tensor for one pattern only. *)
Definition short_layer : gmap string value :=
  list_to_map [ ("input_", arr [1; 1; 2] [100; 101]%Z) ].

Definition short_snapshot : gmap string value :=
  list_to_map
    [ ("enum", arr [] [0]%Z);
      ("loss", arr [2] [7; 9]%Z);
      ("target", arr [2; 1; 1] [1; 0]%Z);
      ("hidden_layer", VRef 1) ].

Definition short_heap : gmap nat (gmap string value) :=
  list_to_map [ (0, short_snapshot); (1, short_layer) ].

Definition short_env : Environment :=
  {| FS := unit;
     listdir := fun _ _ => Ok ["short.pkl"];
     load_test_data := fun _ _ h => (Ok [VRef 0], short_heap ∪ h);
     get_epochs := fun _ _ => Ok [0%Z];
     get_layer_names := fun _ _ => Ok ["hidden_layer"];
     get_layer_dims := fun _ _ _ => Ok (list_to_map [("hidden_layer", [2; 3])]);
     get_pattern_options := fun _ _ _ => Ok ["p0"; "p1"] |}.

Definition short_canvas : @world _ short_env :=
  @World _ short_env tt ∅ [blank] [] [] [].

(** A log whose first logged epoch is not epoch 0, and a list of
    pattern labels in which a label occurs twice. *)
Definition late_epochs : list Z := [5; 10; 15]%Z.
Definition repeated_options : list string := ["a"; "b"; "b"].

End Demo.
(* ===================================================================== *)
(** * Vocabulary of the further statements *)
(* ===================================================================== *)

(** [i] is an index of a Python sequence of length [n]: a position
    counted from the start or, when negative, from the end. *)
Definition index_of (i : Z) (n : nat) : Prop :=
  (- Z.of_nat n <= i < Z.of_nat n)%Z.

(** The image [id] is filed in a grid that [_draw_layers] pairs with a
    layer name (line 163: the shorter of the two lists decides). *)
Definition drawn_on (img_dicts : list (odict nat)) (layer_names : list string)
    (id : nat) : Prop :=
  exists img_dict name k,
    (img_dict, name) ∈ zip img_dicts layer_names /\ (k, id) ∈ img_dict.

Section DrawVocabulary.
Context `{Environment}.

(** The image has the colormap and the limits of a call. *)
Definition styled (colormap : string) (vrange : Z * Z) (im : image) : Prop :=
  img_cmap im = Some colormap /\
  img_vmin im = Some vrange.1 /\
  img_vmax im = Some vrange.2.

(** The world [w'] differs from [w] in no image outside the grids, has
    as many images, and shows the same tracebacks and panels. *)
Definition draws_within (img_dicts : list (odict nat)) (layer_names : list string)
    (w w' : world) : Prop :=
  length (images w') = length (images w) /\
  (forall id, ~ drawn_on img_dicts layer_names id -> images w' !! id = images w !! id) /\
  tracebacks w' = tracebacks w /\
  displayed w' = displayed w.

End DrawVocabulary.

Section DrawShows.
Context `{Environment}.

(** The image [im] shows the tensor of the layer [name] under the key
    [k], put through the data steps; for the key 'targets' the tensor is
    the 'target' [targ] of the snapshot.  [h1] is the loaded heap and
    [snap] the snapshot. *)
Definition shows (h1 : pyheap) (snap : gmap string value) (targ : value)
    (name k : string) (colormap : string) (vrange : Z * Z) (pind : Z)
    (im : image) : Prop :=
  exists ll ld d d',
    snap !! name = Some (VRef ll) /\ h1 !! ll = Some ld /\
    (if decide (k = "targets") then targ = VArr d else ld !! k = Some (VArr d)) /\
    prepare k pind (VArr d) = Ok (VArr d') /\
    im = Image d' (Some colormap) (Some vrange.1) (Some vrange.2).

End DrawShows.

(** The table [ax_params] of [_make_axes_grid] (lines 83-112): for each
    panel its cell in the grid of the divider, the rows and columns of
    its image, and its title. *)
Definition ax_params_of (inp_size layer_size : nat) (mode : Z) (target : bool)
    : odict ax_param :=
  let t := if target then 1 else 0 in
  let ax_params : odict ax_param :=
    [ ("input_", ((0, 0), (1, inp_size), "input"));
      ("weights", ((0, 2), (layer_size, inp_size), "W"));
      ("biases", ((2, 2), (layer_size, 1), "b"));
      ("net_input", ((4, 2), (layer_size, 1), "net"));
      ("output", ((6, 2), (layer_size, 1), "a")) ] in
  let ax_params :=
    if decide (t <> 0)
    then od_set "targets" ((8, 2), (layer_size, 1), "t") ax_params
    else ax_params in
  if (mode >? 0)%Z then
    let gax_params : odict ax_param :=
      [ ("gweights", ((9 + 2 * t, 2), (layer_size, inp_size), "W'"));
        ("gbiases", ((11 + 2 * t, 2), (layer_size, 1), "b'"));
        ("gnet_input", ((13 + 2 * t, 2), (layer_size, 1), "net'"));
        ("goutput", ((15 + 2 * t, 2), (layer_size, 1), "a'")) ] in
    let ax_params :=
      fold_left (fun acc kv => od_set kv.1 kv.2 acc) gax_params ax_params in
    if (mode >? 1)%Z then
      let ax_params :=
        od_set "sgweights" ((17 + 2 * t, 2), (layer_size, inp_size), "sW'") ax_params in
      od_set "sgbiases" ((19 + 2 * t, 2), (layer_size, 1), "sb'") ax_params
    else ax_params
  else ax_params.

(** The image identifiers filed in a list of grids, grid after grid. *)
Definition grid_ids (axes_dicts : list (odict nat)) : list nat :=
  concat ((fun grid : odict nat => grid.*2) <$> axes_dicts).

(** [layer_dims[name]] has the two sizes that [view_layers] reads. *)
Definition has_two_dims (layer_dims : gmap string (list nat)) (name : string) : Prop :=
  exists inp_size layer_size more,
    layer_dims !! name = Some (inp_size :: layer_size :: more).

(** The exception that a layer without its two sizes ends in: a
    [KeyError] for a name that [layer_dims] lacks, an [IndexError] for a
    list of fewer than two sizes. *)
Inductive dims_fault (layer_dims : gmap string (list nat)) (names : list string)
    : exn -> Prop :=
  | no_dims (name : string) :
      name ∈ names -> layer_dims !! name = None ->
      dims_fault layer_dims names (KeyError (StrKey name))
  | short_dims (name : string) (ds : list nat) :
      name ∈ names -> layer_dims !! name = Some ds -> length ds < 2 ->
      dims_fault layer_dims names IndexError.

(** The value that the step slider of [view_layers] reports for a log of
    [n] epochs whose first epoch is [e0]: [e0] capped to the last
    position and floored to 0 (see [IntSlider_value]). *)
Definition first_step (e0 : Z) (n : nat) : Z :=
  Z.max 0 (Z.min e0 (Z.of_nat n - 1)).

(* ===================================================================== *)
(** * The figure in full: dividers, axes and the label under the mouse *)
(* ===================================================================== *)

(** [_make_axes_grid] above keeps of the figure what the drawing needs,
    its images.  Here the same function is modelled with everything it
    does to the figure: the divider and its grid of sizes, the ghost
    axis, the axes of the panels and the [Observer] of every image. *)

(** [Scaled(x)] of [axes_size]: a size in proportion to [x]. *)
Inductive Size : Type :=
  | Scaled (x : QArith_base.Q).

(** A [SubplotDivider]: the subplot it divides and its grid of sizes. *)
Record Divider : Type := {
  div_nrows : nat;
  div_ncols : nat;
  div_index : nat;
  div_aspect : bool;
  div_anchor : string;
  div_horizontal : list Size;
  div_vertical : list Size
}.

(** An axes of the figure, with the attributes that the module sets. *)
Record Axes : Type := {
  ax_position : nat;                       (* the position of this divider *)
  ax_locator : option (nat * nat * nat);   (* divider, nx, ny *)
  ax_in_figure : bool;
  ax_spines_hidden : list string;
  ax_xticks : option (list Z);             (* None: chosen by matplotlib *)
  ax_yticks : option (list Z);
  ax_labelbottom : bool;
  ax_labelleft : bool;
  ax_xlabel : string;
  ax_ylabel : string;
  ax_title : string;
  ax_xlabel_coords : option (Z * Z)
}.

(** An instance of the class [Observer] (lines 21-42); [self.fig] is
    the one figure. *)
Record Observer : Type := {
  ob_ax : nat;
  ob_img : nat;
  ob_gax : nat
}.

(** The mouse: the events of the canvas, the axes an event falls in,
    the value of an image under it, and ['{:.4f}'.format] on a number. *)
Class Pointer `{Numeric} : Type := {
  MouseEvent : Type;
  inaxes : MouseEvent -> option nat;
  get_cursor_data : image -> MouseEvent -> option scalar;
  format_4f : scalar -> string
}.

Record figure : Type := Figure {
  dividers : list Divider;
  axes : list Axes;
  image_axes : gmap nat nat;      (* [img.axes] *)
  callbacks : list Observer;      (* connected to 'motion_notify_event' *)
  draw_requests : nat             (* calls of [canvas.draw_idle()] *)
}.

(** [plt.figure()] *)
Definition new_figure : figure := Figure [] [] ∅ [] 0.

Record stage `{Environment} : Type := Stage {
  st_world : world;
  st_figure : figure
}.
Arguments Stage {_ _} st_world st_figure.

Section FigureMonad.
Context `{Environment}.

Definition F (A : Type) : Type := stage -> outcome A * stage.

Definition fret {A : Type} (a : A) : F A := fun s => (Ok a, s).

Definition fraise {A : Type} (e : exn) : F A := fun s => (Raise e, s).

Definition fbind {A B : Type} (m : F A) (k : A -> F B) : F B :=
  fun s =>
    match m s with
    | (Ok a, s') => k a s'
    | (Raise e, s') => (Raise e, s')
    end.

(** A computation on the world, run on the world of the stage. *)
Definition in_world {A : Type} (m : M A) : F A :=
  fun s => let '(o, w') := m (st_world s) in (o, Stage w' (st_figure s)).

(** A change of the figure. *)
Definition on_figure (f : figure -> figure) : F unit :=
  fun s => (Ok tt, Stage (st_world s) (f (st_figure s))).

End FigureMonad.

Declare Scope fig_scope.
Delimit Scope fig_scope with fig.
Notation "'let*' x ':=' m 'in' k" := (fbind m (fun x => k))
  (at level 10, x pattern, m at level 100, k at level 200) : fig_scope.
Notation "m ';;' k" := (fbind m (fun _ => k))
  (at level 100, k at level 200, right associativity) : fig_scope.

Module Fig.
Section Functions.
Context `{Environment} `{!Pointer}.
Local Open Scope fig_scope.

Fixpoint for_each {A : Type} (l : list A) (body : A -> F unit) : F unit :=
  match l with
  | [] => fret tt
  | x :: l' => body x ;; for_each l' body
  end.

Fixpoint for_fold {A S : Type} (l : list A) (s : S) (body : S -> A -> F S) : F S :=
  match l with
  | [] => fret s
  | x :: l' => let* s' := body s x in for_fold l' s' body
  end.

(** ** Field updates of the figure *)

Definition with_dividers (d : list Divider) (f : figure) : figure :=
  Figure d (axes f) (image_axes f) (callbacks f) (draw_requests f).

Definition with_axes (a : list Axes) (f : figure) : figure :=
  Figure (dividers f) a (image_axes f) (callbacks f) (draw_requests f).

Definition with_image_axes (m : gmap nat nat) (f : figure) : figure :=
  Figure (dividers f) (axes f) m (callbacks f) (draw_requests f).

Definition with_callbacks (c : list Observer) (f : figure) : figure :=
  Figure (dividers f) (axes f) (image_axes f) c (draw_requests f).

Definition with_draw_requests (n : nat) (f : figure) : figure :=
  Figure (dividers f) (axes f) (image_axes f) (callbacks f) n.

(** ** The divider *)

(** [SubplotDivider(mpl_figure, nrows, ncols, index, aspect=, anchor=)];
    its grid is empty until it is set. *)
Definition SubplotDivider (nrows ncols index : nat) (aspect : bool) (anchor : string)
    : F nat :=
  fun s =>
    let f := st_figure s in
    (Ok (length (dividers f)),
     Stage (st_world s)
       (with_dividers
          (dividers f ++
           [{| div_nrows := nrows; div_ncols := ncols; div_index := index;
               div_aspect := aspect; div_anchor := anchor;
               div_horizontal := []; div_vertical := [] |}]) f)).

Definition update_divider (d : nat) (g : Divider -> Divider) : F unit :=
  on_figure (fun f => with_dividers (alter g d (dividers f)) f).

(** [divider.set_horizontal(cols)] *)
Definition set_horizontal (d : nat) (cols : list Size) : F unit :=
  update_divider d
    (fun x => {| div_nrows := div_nrows x; div_ncols := div_ncols x;
                 div_index := div_index x; div_aspect := div_aspect x;
                 div_anchor := div_anchor x;
                 div_horizontal := cols; div_vertical := div_vertical x |}).

(** [divider.set_vertical(rows)] *)
Definition set_vertical (d : nat) (rows : list Size) : F unit :=
  update_divider d
    (fun x => {| div_nrows := div_nrows x; div_ncols := div_ncols x;
                 div_index := div_index x; div_aspect := div_aspect x;
                 div_anchor := div_anchor x;
                 div_horizontal := div_horizontal x; div_vertical := rows |}).

(** [divider.get_position()]: the rectangle of the divider, named by
    the divider. *)
Definition get_position (d : nat) : nat := d.

(** [divider.new_locator(nx=nx, ny=ny)] *)
Definition new_locator (d nx ny : nat) : nat * nat * nat := (d, nx, ny).

(** ** Axes *)

(** An axes as matplotlib creates it at the position [rect]. *)
Definition fresh_axes (rect : nat) (in_figure : bool) : Axes :=
  {| ax_position := rect; ax_locator := None; ax_in_figure := in_figure;
     ax_spines_hidden := []; ax_xticks := None; ax_yticks := None;
     ax_labelbottom := true; ax_labelleft := true;
     ax_xlabel := ""; ax_ylabel := ""; ax_title := "";
     ax_xlabel_coords := None |}.

Definition new_axes (rect : nat) (in_figure : bool) : F nat :=
  fun s =>
    let f := st_figure s in
    (Ok (length (axes f)),
     Stage (st_world s) (with_axes (axes f ++ [fresh_axes rect in_figure]) f)).

(** [mpl_figure.add_axes(rect)] *)
Definition add_axes_at (rect : nat) : F nat := new_axes rect true.

(** [LocatableAxes(mpl_figure, rect)]: an axes that is not yet in the
    figure. *)
Definition LocatableAxes (rect : nat) : F nat := new_axes rect false.

Definition update_axes (ax : nat) (g : Axes -> Axes) : F unit :=
  on_figure (fun f => with_axes (alter g ax (axes f)) f).

(** [mpl_figure.add_axes(ax)] *)
Definition add_axes (ax : nat) : F unit :=
  update_axes ax
    (fun a => {| ax_position := ax_position a; ax_locator := ax_locator a;
                 ax_in_figure := true;
                 ax_spines_hidden := ax_spines_hidden a; ax_xticks := ax_xticks a;
                 ax_yticks := ax_yticks a; ax_labelbottom := ax_labelbottom a;
                 ax_labelleft := ax_labelleft a; ax_xlabel := ax_xlabel a;
                 ax_ylabel := ax_ylabel a; ax_title := ax_title a;
                 ax_xlabel_coords := ax_xlabel_coords a |}).

(** [ax.set_axes_locator(locator)] *)
Definition set_axes_locator (ax : nat) (locator : nat * nat * nat) : F unit :=
  update_axes ax
    (fun a => {| ax_position := ax_position a; ax_locator := Some locator;
                 ax_in_figure := ax_in_figure a;
                 ax_spines_hidden := ax_spines_hidden a; ax_xticks := ax_xticks a;
                 ax_yticks := ax_yticks a; ax_labelbottom := ax_labelbottom a;
                 ax_labelleft := ax_labelleft a; ax_xlabel := ax_xlabel a;
                 ax_ylabel := ax_ylabel a; ax_title := ax_title a;
                 ax_xlabel_coords := ax_xlabel_coords a |}).

(** [ax.spines[side].set_visible(False)] *)
Definition hide_spine (ax : nat) (side : string) : F unit :=
  update_axes ax
    (fun a => {| ax_position := ax_position a; ax_locator := ax_locator a;
                 ax_in_figure := ax_in_figure a;
                 ax_spines_hidden := ax_spines_hidden a ++ [side];
                 ax_xticks := ax_xticks a;
                 ax_yticks := ax_yticks a; ax_labelbottom := ax_labelbottom a;
                 ax_labelleft := ax_labelleft a; ax_xlabel := ax_xlabel a;
                 ax_ylabel := ax_ylabel a; ax_title := ax_title a;
                 ax_xlabel_coords := ax_xlabel_coords a |}).

(** [ax.set_xticks(ticks)] *)
Definition set_xticks (ax : nat) (ticks : list Z) : F unit :=
  update_axes ax
    (fun a => {| ax_position := ax_position a; ax_locator := ax_locator a;
                 ax_in_figure := ax_in_figure a;
                 ax_spines_hidden := ax_spines_hidden a; ax_xticks := Some ticks;
                 ax_yticks := ax_yticks a; ax_labelbottom := ax_labelbottom a;
                 ax_labelleft := ax_labelleft a; ax_xlabel := ax_xlabel a;
                 ax_ylabel := ax_ylabel a; ax_title := ax_title a;
                 ax_xlabel_coords := ax_xlabel_coords a |}).

(** [ax.set_yticks(ticks)] *)
Definition set_yticks (ax : nat) (ticks : list Z) : F unit :=
  update_axes ax
    (fun a => {| ax_position := ax_position a; ax_locator := ax_locator a;
                 ax_in_figure := ax_in_figure a;
                 ax_spines_hidden := ax_spines_hidden a; ax_xticks := ax_xticks a;
                 ax_yticks := Some ticks; ax_labelbottom := ax_labelbottom a;
                 ax_labelleft := ax_labelleft a; ax_xlabel := ax_xlabel a;
                 ax_ylabel := ax_ylabel a; ax_title := ax_title a;
                 ax_xlabel_coords := ax_xlabel_coords a |}).

(** [ax.tick_params(labelbottom=, labelleft=)] *)
Definition tick_params (ax : nat) (labelbottom labelleft : bool) : F unit :=
  update_axes ax
    (fun a => {| ax_position := ax_position a; ax_locator := ax_locator a;
                 ax_in_figure := ax_in_figure a;
                 ax_spines_hidden := ax_spines_hidden a; ax_xticks := ax_xticks a;
                 ax_yticks := ax_yticks a; ax_labelbottom := labelbottom;
                 ax_labelleft := labelleft; ax_xlabel := ax_xlabel a;
                 ax_ylabel := ax_ylabel a; ax_title := ax_title a;
                 ax_xlabel_coords := ax_xlabel_coords a |}).

(** [ax.set_xlabel(label)] *)
Definition set_xlabel (ax : nat) (label : string) : F unit :=
  update_axes ax
    (fun a => {| ax_position := ax_position a; ax_locator := ax_locator a;
                 ax_in_figure := ax_in_figure a;
                 ax_spines_hidden := ax_spines_hidden a; ax_xticks := ax_xticks a;
                 ax_yticks := ax_yticks a; ax_labelbottom := ax_labelbottom a;
                 ax_labelleft := ax_labelleft a; ax_xlabel := label;
                 ax_ylabel := ax_ylabel a; ax_title := ax_title a;
                 ax_xlabel_coords := ax_xlabel_coords a |}).

(** [ax.set_ylabel(label)] *)
Definition set_ylabel (ax : nat) (label : string) : F unit :=
  update_axes ax
    (fun a => {| ax_position := ax_position a; ax_locator := ax_locator a;
                 ax_in_figure := ax_in_figure a;
                 ax_spines_hidden := ax_spines_hidden a; ax_xticks := ax_xticks a;
                 ax_yticks := ax_yticks a; ax_labelbottom := ax_labelbottom a;
                 ax_labelleft := ax_labelleft a; ax_xlabel := ax_xlabel a;
                 ax_ylabel := label; ax_title := ax_title a;
                 ax_xlabel_coords := ax_xlabel_coords a |}).

(** [ax.set_title(label)] *)
Definition set_title (ax : nat) (label : string) : F unit :=
  update_axes ax
    (fun a => {| ax_position := ax_position a; ax_locator := ax_locator a;
                 ax_in_figure := ax_in_figure a;
                 ax_spines_hidden := ax_spines_hidden a; ax_xticks := ax_xticks a;
                 ax_yticks := ax_yticks a; ax_labelbottom := ax_labelbottom a;
                 ax_labelleft := ax_labelleft a; ax_xlabel := ax_xlabel a;
                 ax_ylabel := ax_ylabel a; ax_title := label;
                 ax_xlabel_coords := ax_xlabel_coords a |}).

(** [ax.xaxis.set_label_coords(x, y)] *)
Definition set_label_coords (ax : nat) (x y : Z) : F unit :=
  update_axes ax
    (fun a => {| ax_position := ax_position a; ax_locator := ax_locator a;
                 ax_in_figure := ax_in_figure a;
                 ax_spines_hidden := ax_spines_hidden a; ax_xticks := ax_xticks a;
                 ax_yticks := ax_yticks a; ax_labelbottom := ax_labelbottom a;
                 ax_labelleft := ax_labelleft a; ax_xlabel := ax_xlabel a;
                 ax_ylabel := ax_ylabel a; ax_title := ax_title a;
                 ax_xlabel_coords := Some (x, y) |}).

(** [ax.imshow(data)]: a new image of the figure, whose axes is [ax]. *)
Definition imshow (ax : nat) (data : ndarray scalar) : F nat :=
  let* img := in_world (imshow data) in
  on_figure (fun f => with_image_axes (<[img := ax]> (image_axes f)) f) ;;
  fret img.

(** [canvas.draw_idle()] *)
Definition draw_idle : F unit :=
  on_figure (fun f => with_draw_requests (S (draw_requests f)) f).

(** ** The class [Observer] (lines 21-42) *)

(** [Observer(img, gax)]: [__init__] reads the axes of the image and
    connects the new object to the motion events of the canvas. *)
Definition Observer_init (img gax : nat) : F unit :=
  fun s =>
    match image_axes (st_figure s) !! img with
    | Some ax =>
        (Ok tt,
         Stage (st_world s)
           (with_callbacks
              (callbacks (st_figure s) ++ [{| ob_ax := ax; ob_img := img; ob_gax := gax |}])
              (st_figure s)))
    | None => (Raise AttributeError, s)
    end.

(** [self.update_label(val)]: ['{:.4f}'.format(None)] is a TypeError. *)
Definition update_label (self : Observer) (val : option scalar) : F unit :=
  match val with
  | Some x => set_xlabel (ob_gax self) (format_4f x)
  | None => fraise TypeError
  end.

(** [self.clear_label()] *)
Definition clear_label (self : Observer) : F unit :=
  set_xlabel (ob_gax self) "".

(** [self.img.get_cursor_data(event)] *)
Definition cursor_data (img : nat) (event : MouseEvent) : F (option scalar) :=
  fun s =>
    match images (st_world s) !! img with
    | Some im => (Ok (get_cursor_data im event), s)
    | None => (Raise AttributeError, s)
    end.

(** [self(event)], the method [__call__]. *)
Definition Observer_call (self : Observer) (event : MouseEvent) : F unit :=
  if decide (inaxes event = Some (ob_ax self)) then
    let* val := cursor_data (ob_img self) event in
    update_label self val ;;
    draw_idle
  else if decide (inaxes event = Some (ob_gax self)) then
    clear_label self ;;
    draw_idle
  else fret tt.

(** The canvas hands a motion event to the connected observers, in the
    order in which they were connected.  An exception of an observer
    ends the round and is the outcome, as the callback registry of
    matplotlib re-raises it when no interactive event loop runs. *)
Definition motion_notify_event (event : MouseEvent) : F unit :=
  fun s => for_each (callbacks (st_figure s)) (fun self => Observer_call self event) s.

(** ** [_make_ghost_axis] (lines 59-66) *)

Definition _make_ghost_axis (rect : nat) (title : string) : F nat :=
  let* ghost_ax := add_axes_at rect in
  for_each ["right"; "top"; "bottom"; "left"] (fun side => hide_spine ghost_ax side) ;;
  set_xticks ghost_ax [] ;;
  set_yticks ghost_ax [] ;;
  set_ylabel ghost_ax title ;;
  set_label_coords ghost_ax 1 0 ;;
  fret ghost_ax.

(** ** [_make_axes_grid] (lines 69-142), with the layout *)

(** The grid column sizes [cols] (lines 93-113). *)
Definition grid_cols (inp_size : nat) (mode : Z) (target : bool) : list Size :=
  let pad := Scaled (QArith_base.Qmake 4 5) in
  let mat_w := Scaled (QArith_base.inject_Z (Z.of_nat inp_size)) in
  let cvec_w := Scaled (QArith_base.inject_Z 1) in
  let left_panel := [mat_w; pad; cvec_w; pad; cvec_w; pad; cvec_w; pad] in
  let cols := if target then left_panel ++ [cvec_w; pad] else left_panel in
  if (mode >? 0)%Z then
    let right_panel := [pad; mat_w; pad; cvec_w; pad; cvec_w; pad; cvec_w] in
    let right_panel :=
      if (mode >? 1)%Z then right_panel ++ [pad; mat_w; pad; cvec_w] else right_panel in
    cols ++ right_panel
  else cols.

(** The grid row sizes [rows] (lines 116-117). *)
Definition grid_rows (layer_size : nat) : list Size :=
  let pad := Scaled (QArith_base.Qmake 4 5) in
  let mat_h := Scaled (QArith_base.inject_Z (Z.of_nat layer_size)) in
  let rvec_h := Scaled (QArith_base.inject_Z 1) in
  [rvec_h; pad; mat_h].

Definition _make_axes_grid (N subplot_ind : nat) (layer_name : string)
    (inp_size layer_size : nat) (mode : Z) (target : bool) : F (odict nat) :=
  let ax_params := ax_params_of inp_size layer_size mode target in
  let cols := grid_cols inp_size mode target in
  let rows := grid_rows layer_size in
  let* divider := SubplotDivider N 1 subplot_ind true "W" in
  set_horizontal divider cols ;;
  set_vertical divider rows ;;
  let* gax := _make_ghost_axis (get_position divider) layer_name in
  for_fold ax_params []
    (fun img_dict '(k, (ax_coords, img_dims, ax_title)) =>
       let* ax := LocatableAxes (get_position divider) in
       set_axes_locator ax (new_locator divider ax_coords.1 ax_coords.2) ;;
       tick_params ax false false ;;
       set_xticks ax [] ;;
       set_yticks ax [] ;;
       (if decide (k = "input_") then set_xlabel ax ax_title else set_title ax ax_title) ;;
       add_axes ax ;;
       let* img := imshow ax (zeros zero [img_dims.1; img_dims.2]) in
       let img_dict := od_set k img img_dict in
       Observer_init img gax ;;
       fret img_dict).

End Functions.
End Fig.

(** ** Vocabulary for the figure *)

(** The ghost axis that [_make_ghost_axis] leaves in the figure. *)
Definition ghost_axes (rect : nat) (title : string) : Axes :=
  {| ax_position := rect; ax_locator := None; ax_in_figure := true;
     ax_spines_hidden := ["right"; "top"; "bottom"; "left"];
     ax_xticks := Some []; ax_yticks := Some [];
     ax_labelbottom := true; ax_labelleft := true;
     ax_xlabel := ""; ax_ylabel := title; ax_title := "";
     ax_xlabel_coords := Some (1, 0)%Z |}.

(** The axes that the loop of [_make_axes_grid] makes for a row of the
    table. *)
Definition panel_axes (divider : nat) (p : string * ax_param) : Axes :=
  {| ax_position := divider;
     ax_locator := Some (divider, p.2.1.1.1, p.2.1.1.2);
     ax_in_figure := true;
     ax_spines_hidden := [];
     ax_xticks := Some []; ax_yticks := Some [];
     ax_labelbottom := false; ax_labelleft := false;
     ax_xlabel := if decide (p.1 = "input_") then p.2.2 else "";
     ax_ylabel := "";
     ax_title := if decide (p.1 = "input_") then "" else p.2.2;
     ax_xlabel_coords := None |}.

(** The images [img], [img + 1], ... filed under the axes [ax],
    [ax + 1], ..., one per row of the table. *)
Fixpoint wire_images {A : Type} (img ax : nat) (params : list A) (m : gmap nat nat)
    : gmap nat nat :=
  match params with
  | [] => m
  | _ :: params' => wire_images (S img) (S ax) params' (<[img := ax]> m)
  end.

(** The observers of those images, all with the ghost axis [gax]. *)
Fixpoint observers {A : Type} (img ax gax : nat) (params : list A) : list Observer :=
  match params with
  | [] => []
  | _ :: params' =>
      {| ob_ax := ax; ob_img := img; ob_gax := gax |} :: observers (S img) (S ax) gax params'
  end.

(** The divider of a grid. *)
Definition grid_divider (N subplot_ind inp_size layer_size : nat) (mode : Z)
    (target : bool) : Divider :=
  {| div_nrows := N; div_ncols := 1; div_index := subplot_ind;
     div_aspect := true; div_anchor := "W";
     div_horizontal := Fig.grid_cols inp_size mode target;
     div_vertical := Fig.grid_rows layer_size |}.


Section FigureVocabulary.
Context `{Environment}.

(** The observers of the stage are wired: no two of them watch the same
    axes, no watched axes is the ghost axis of an observer, and every
    observer watches the axes of its image, which is an image of the
    figure. *)
Definition wired (s : stage) : Prop :=
  let f := st_figure s in
  NoDup (ob_ax <$> callbacks f) /\
  (forall ob ob', ob ∈ callbacks f -> ob' ∈ callbacks f -> ob_ax ob <> ob_gax ob') /\
  (forall ob, ob ∈ callbacks f ->
     image_axes f !! ob_img ob = Some (ob_ax ob) /\
     ob_img ob < length (images (st_world s)) /\
     ob_ax ob < length (axes f) /\ ob_gax ob < length (axes f)) /\
  (forall img ax, image_axes f !! img = Some ax ->
     img < length (images (st_world s)) /\ ax < length (axes f)).

End FigureVocabulary.

(** The axes [a] with the x-label [label]. *)
Definition with_xlabel (label : string) (a : Axes) : Axes :=
  {| ax_position := ax_position a; ax_locator := ax_locator a;
     ax_in_figure := ax_in_figure a;
     ax_spines_hidden := ax_spines_hidden a; ax_xticks := ax_xticks a;
     ax_yticks := ax_yticks a; ax_labelbottom := ax_labelbottom a;
     ax_labelleft := ax_labelleft a; ax_xlabel := label;
     ax_ylabel := ax_ylabel a; ax_title := ax_title a;
     ax_xlabel_coords := ax_xlabel_coords a |}.

(** The observers among [obs] whose ghost axis is the axes of the
    event. *)
Definition ghost_hits `{Numeric} `{!Pointer} (event : MouseEvent) (obs : list Observer)
    : list Observer :=
  List.filter (fun ob => bool_decide (inaxes event = Some (ob_gax ob))) obs.

(* ===================================================================== *)
(** * Further small cases *)
(* ===================================================================== *)

Module Cases.

#[local] Existing Instance Demo.Z_numeric.

(** The demo log, but [get_layer_dims] knows the hidden layer only. *)
Definition sparse_env : Environment :=
  {| FS := unit;
     listdir := fun _ _ => Ok Demo.names;
     load_test_data := fun _ _ h => (Raise (HostError "FileNotFoundError"), h);
     get_epochs := fun _ _ => Ok [0; 1; 2]%Z;
     get_layer_names := fun _ _ => Ok ["hidden_layer"; "output_layer"];
     get_layer_dims := fun _ _ _ => Ok (list_to_map [("hidden_layer", [2; 3])]);
     get_pattern_options := fun _ _ _ => Ok ["p0"; "p1"] |}.

Definition sparse_start : @world _ sparse_env := @World _ sparse_env tt ∅ [] [] [] [].

(** The dropdown of the demo directory. *)
Definition logs_dropdown : Dropdown :=
  {| dd_options := [("a.pkl", "logs/a.pkl"); ("b.pkl.bak", "logs/b.pkl.bak")];
     dd_description := "Run log: ";
     dd_value := "logs/a.pkl";
     dd_layout := {| width := "100%" |} |}.

(** ['{:.4f}'.format] on a whole number. *)
Definition format_whole (z : Z) : string :=
  DecimalString.NilZero.string_of_int (Z.to_int z) +:+ ".0000".

(** A mouse whose events name the axes they fall in and the cell of the
    image under them. *)
Definition pointer : @Pointer Demo.Z_numeric :=
  @Build_Pointer Demo.Z_numeric (option nat * (nat * nat)) fst
    (fun im event => nd_get (img_data im) [event.2.1; event.2.2])
    format_whole.

(** The figure of a single layer with two sending units and three
    units, built on the empty figure. *)
Definition hover_stage : @stage _ Demo.env0 :=
  (@Fig._make_axes_grid _ Demo.env0 1 0 "HIDDEN LAYER" 2 3 0 false
     (Stage Demo.start0 new_figure)).2.

(** The observer of the first image of that figure, the 'input_' panel:
    its axes is the one made after the ghost axis. *)
Definition input_observer : Observer := {| ob_ax := 1; ob_img := 0; ob_gax := 0 |}.

(** The image of that panel as [_make_axes_grid] leaves it: a row of
    two zeros. *)
Definition input_image : image := Image (zeros 0%Z [1; 2]) None None None.

End Cases.

(* ===================================================================== *)
(** * Facts about the Python values *)
(* ===================================================================== *)

Section PyFacts.

Lemma norm_index_Some (i : Z) (n j : nat) :
  norm_index i n = Some j -> j < n.
Proof.
  unfold norm_index.
  destruct ((0 <=? i) && (i <? Z.of_nat n))%Z eqn:E1.
  - intros [= <-]. apply andb_true_iff in E1 as [?%Z.leb_le ?%Z.ltb_lt]. lia.
  - destruct ((- Z.of_nat n <=? i) && (i <? 0))%Z eqn:E2; [|discriminate].
    intros [= <-]. apply andb_true_iff in E2 as [?%Z.leb_le ?%Z.ltb_lt]. lia.
Qed.

Lemma getitem_list_0 {A : Type} (x : A) (l : list A) :
  getitem_list (x :: l) 0 = Ok x.
Proof. reflexivity. Qed.

Lemma getitem_list_nil {A : Type} (i : Z) :
  getitem_list (@nil A) i = Raise IndexError.
Proof.
  unfold getitem_list, norm_index. simpl.
  by repeat case_match.
Qed.

(** ** Substrings *)

Lemma starts_with_spec (p s : string) :
  starts_with p s = true <-> exists t, s = p +:+ t.
Proof.
  revert s. induction p as [|a p IH]; intros s; simpl.
  - split; [eauto | done].
  - destruct s as [|b s].
    + split; [done | intros [t Ht]; discriminate].
    + case_decide as Hab.
      * subst b. rewrite IH. split; intros [t Ht]; exists t.
        -- by rewrite Ht.
        -- by injection Ht.
      * split; [done | intros [t Ht]; injection Ht; congruence].
Qed.

(** [needle in hay] holds exactly when [hay] is some text, then [needle],
    then some text. *)
Lemma str_in_spec (needle hay : string) :
  str_in needle hay = true <-> exists a b, hay = a +:+ needle +:+ b.
Proof.
  induction hay as [|c hay IH]; simpl.
  - rewrite orb_false_r, starts_with_spec. split.
    + intros [t Ht]. by exists "", t.
    + intros (a & b & Hab). destruct a; [by exists b|discriminate].
  - rewrite orb_true_iff, starts_with_spec, IH. split.
    + intros [[t Ht] | (a & b & Hab)].
      * by exists "", t.
      * exists (String c a), b. by rewrite Hab.
    + intros (a & b & Hab). destruct a as [|c' a].
      * left. by exists b.
      * right. exists a, b. by injection Hab.
Qed.

(** ** Ordered dictionaries *)

Context {V : Type}.
Implicit Types (d : odict V) (k : string) (v : V).

Lemma od_get_set_eq k v d : od_get k (od_set k v d) = Some v.
Proof.
  induction d as [|[k' v'] d IH]; simpl.
  - by rewrite decide_True.
  - case_decide; simpl; [by rewrite decide_True | by rewrite decide_False].
Qed.

Lemma od_get_set_ne k k' v d : k <> k' -> od_get k' (od_set k v d) = od_get k' d.
Proof.
  intros Hne. induction d as [|[k0 v0] d IH]; simpl.
  - by rewrite decide_False.
  - case_decide as E; simpl.
    + subst k0. by rewrite !decide_False.
    + case_decide; [done | apply IH].
Qed.

Lemma od_keys_set k v d :
  od_keys (od_set k v d) = if decide (k ∈ od_keys d) then od_keys d else od_keys d ++ [k].
Proof.
  unfold od_keys. induction d as [|[k' v'] d IH].
  - by destruct (decide (k ∈ [])) as [?%elem_of_nil|].
  - cbn [od_set fmap list_fmap fst].
    destruct (decide (k' = k)) as [->|Hne]; cbn [fmap list_fmap fst].
    + rewrite decide_True; [done | apply list_elem_of_here].
    + rewrite IH. destruct (decide (k ∈ d.*1)) as [Hin|Hin].
      * rewrite decide_True; [done | by apply list_elem_of_further].
      * rewrite decide_False; [done|].
        rewrite not_elem_of_cons. naive_solver.
Qed.

Lemma od_keys_set_NoDup k v d : NoDup (od_keys d) -> NoDup (od_keys (od_set k v d)).
Proof.
  intros Hd. rewrite od_keys_set. case_decide as Hin; [done|].
  apply NoDup_app. split_and!; [done | | apply NoDup_singleton].
  intros x Hx ->%list_elem_of_singleton. done.
Qed.

Lemma od_set_fresh k v d : k ∉ od_keys d -> od_set k v d = d ++ [(k, v)].
Proof.
  unfold od_keys. induction d as [|[k' v'] d IH]; simpl; [done|].
  rewrite not_elem_of_cons. intros [Hne Hin].
  rewrite decide_False by congruence. by rewrite IH.
Qed.

End PyFacts.


(* ===================================================================== *)
(** * Facts about array views *)
(* ===================================================================== *)

Section NpFacts.
Context {A : Type}.
Implicit Types (a : ndarray A) (idx : list nat).

Lemma address_snoc axes n t idx i :
  address (axes ++ [(n, t)]) (idx ++ [i]) =
  match address axes idx with
  | Some r => if decide (i < n) then Some (r + i * t) else None
  | None => None
  end.
Proof.
  revert idx. induction axes as [|[m u] axes IH]; intros [|j idx]; simpl.
  - destruct (decide (i < n)); [f_equal; lia | done].
  - destruct (decide (j < n)); [|done]. destruct idx; reflexivity.
  - destruct (decide (i < m)); [|done]. destruct axes as [|[??] ?]; reflexivity.
  - destruct (decide (j < m)); [|done]. rewrite IH.
    destruct (address axes idx); [|done].
    destruct (decide (i < n)); [f_equal; lia | done].
Qed.

Lemma address_nil_r axes : address axes [] = if axes is [] then Some 0 else None.
Proof. by destruct axes as [|[??] ?]. Qed.

Lemma address_reverse axes idx :
  address (reverse axes) idx = address axes (reverse idx).
Proof.
  revert idx. induction axes as [|[n t] axes IH]; intros idx.
  - destruct idx as [|i idx _] using rev_ind; [done|].
    rewrite reverse_snoc. simpl. by destruct idx.
  - rewrite reverse_cons.
    destruct idx as [|i idx _] using rev_ind.
    + rewrite address_nil_r. simpl. by destruct (reverse axes).
    + rewrite address_snoc, reverse_snoc, IH. simpl.
      destruct (decide (i < n)); destruct (address axes (reverse idx)); try done.
      f_equal; lia.
Qed.

(** [a.T[idx] = a[reversed idx]] *)
Lemma nd_get_transpose a idx : nd_get (transpose a) idx = nd_get a (reverse idx).
Proof. unfold nd_get, transpose. simpl. by rewrite address_reverse. Qed.

Lemma shape_transpose a : shape (transpose a) = reverse (shape a).
Proof. unfold shape, transpose. simpl. by rewrite fmap_reverse. Qed.

Lemma ndim_transpose a : ndim (transpose a) = ndim a.
Proof. unfold ndim, transpose. simpl. by rewrite length_reverse. Qed.

(** [np.expand_dims(a, 1)[i, 0, rest] = a[i, rest]] *)
Lemma expand_dims1_Ok a a' :
  expand_dims1 a = Ok a' ->
  nd_buf a' = nd_buf a /\
  (exists n s, shape a = n :: s /\ shape a' = n :: 1 :: s) /\
  (forall i idx, nd_get a' (i :: 0 :: idx) = nd_get a (i :: idx)) /\
  (forall idx x, nd_get a' idx = Some x -> exists i rest, idx = i :: 0 :: rest).
Proof.
  unfold expand_dims1, shape, nd_get. destruct a as [b o [|[n t] axes]]; simpl; [done|].
  intros [= <-]. simpl. split_and!; [done | by eexists _, _ | |].
  - intros i idx. destruct (decide (i < n)); [|done].
    by destruct (address axes idx).
  - intros [|i [|j rest]] x; try done.
    + by destruct (decide (i < n)).
    + destruct (decide (i < n)); [|done].
      destruct (decide (j < 1)) as [Hj|]; [|done].
      assert (j = 0) as -> by lia. eauto.
Qed.

(** [a[i][idx] = a[j, idx]] where [j] is the position that [i] denotes. *)
Lemma getitem_Ok a i a' :
  getitem a i = Ok a' ->
  nd_buf a' = nd_buf a /\
  exists n s j, shape a = n :: s /\ shape a' = s /\ norm_index i n = Some j /\
    forall idx, nd_get a' idx = nd_get a (j :: idx).
Proof.
  unfold getitem, shape, nd_get. destruct a as [b o [|[n t] axes]]; simpl; [done|].
  destruct (norm_index i n) as [j|] eqn:Hj; [|done].
  intros [= <-]. simpl. split; [done|]. exists n, (axes.*1), j. split_and!; try done.
  intros idx. rewrite decide_True by eauto using norm_index_Some.
  destruct (address axes idx); [|done]. f_equal. lia.
Qed.

Lemma zeros_zero_matrix (z : A) (r c : nat) : zero_matrix z r c (zeros z [r; c]).
Proof.
  split; [done|]. intros i j Hi Hj. unfold nd_get, zeros. simpl.
  rewrite !decide_True by done. simpl.
  apply lookup_replicate_2. nia.
Qed.

End NpFacts.


(* ===================================================================== *)
(** * Facts about the monad and its loops *)
(* ===================================================================== *)

Section MonadFacts.
Context `{Environment}.

(** An exception raised by the first part of a sequence is the outcome
    of the sequence: nothing in [bind] handles it. *)
Lemma bind_Raise {A B : Type} (m : M A) (k : A -> M B) w e w1 :
  m w = (Raise e, w1) -> bind m k w = (Raise e, w1).
Proof. intros Hm. unfold bind. by rewrite Hm. Qed.

Lemma bind_Ok_inv {A B : Type} (m : M A) (k : A -> M B) w b w' :
  bind m k w = (Ok b, w') ->
  exists a w1, m w = (Ok a, w1) /\ k a w1 = (Ok b, w').
Proof.
  unfold bind. destruct (m w) as [[a|e] w1]; [eauto | discriminate].
Qed.

Lemma lift_Ok_inv {A : Type} (o : outcome A) w a w' :
  lift o w = (Ok a, w') -> o = Ok a /\ w' = w.
Proof. unfold lift. by intros [= -> ->]. Qed.

Lemma read_fs_Ok_inv {A : Type} (f : FS -> outcome A) w a w' :
  read_fs f w = (Ok a, w') -> f (fs w) = Ok a /\ w' = w.
Proof. unfold read_fs. by intros [= -> ->]. Qed.






(** A loop that returns has run its body on every element, in order:
    an invariant of the processed prefix holds of the whole list. *)
Lemma for_fold_Ok_inv {A S : Type} (I : list A -> S -> Prop)
    (l : list A) (body : S -> A -> M S) :
  (forall pre x s w s1 w1, I pre s -> body s x w = (Ok s1, w1) -> I (pre ++ [x]) s1) ->
  forall pre s w s' w',
    I pre s -> for_fold l s body w = (Ok s', w') -> I (pre ++ l) s'.
Proof.
  intros Hstep. induction l as [|x l IH]; intros pre s w s' w' HI Hrun; simpl in Hrun.
  - injection Hrun as <- <-. by rewrite app_nil_r.
  - apply bind_Ok_inv in Hrun as (s1 & w1 & Hb & Hrest).
    rewrite (cons_middle x pre l), app_assoc. eapply IH; [|done]. eauto.
Qed.

End MonadFacts.

(** Splitting the hypothesis that a sequence of steps returned. *)
Ltac inv_bind H :=
  let a := fresh "a" in
  let w := fresh "w" in
  let Hm := fresh "Hm" in
  apply bind_Ok_inv in H as (a & w & Hm & H).

(* ===================================================================== *)
(** * Reasoning about runs *)
(* ===================================================================== *)

Section Wp.
Context `{Environment}.

Lemma wp_ret {A : Type} (a : A) Q R w : wp (ret a) Q R w <-> Q a w.
Proof. reflexivity. Qed.

Lemma wp_lift {A : Type} (o : outcome A) Q R w :
  wp (lift o) Q R w <-> match o with Ok a => Q a w | Raise e => R e w end.
Proof. unfold wp, lift. by destruct o. Qed.

Lemma wp_bind {A B : Type} (m : M A) (k : A -> M B) Q R w :
  wp (bind m k) Q R w <-> wp m (fun a w' => wp (k a) Q R w') R w.
Proof. unfold wp, bind. by destruct (m w) as [[a|e] w']. Qed.

Lemma wp_mono {A : Type} (m : M A) (Q Q' : A -> world -> Prop)
    (R R' : exn -> world -> Prop) w :
  wp m Q R w ->
  (forall a w', Q a w' -> Q' a w') ->
  (forall e w', R e w' -> R' e w') ->
  wp m Q' R' w.
Proof. unfold wp. destruct (m w) as [[a|e] w']; auto. Qed.

Lemma wp_getitem_str (v : value) (k : string) Q R w :
  wp (getitem_str v k) Q R w <->
  match lookup_str (heap w) v k with Ok x => Q x w | Raise e => R e w end.
Proof. unfold wp, getitem_str. by destruct (lookup_str (heap w) v k). Qed.

(** What a run establishes, read off its result. *)
Lemma wp_run {A : Type} (m : M A) Q R w :
  wp m Q R w ->
  match (m w).1 with Ok a => Q a (m w).2 | Raise e => R e (m w).2 end.
Proof. unfold wp. by destruct (m w) as [[a|e] w']. Qed.


(** Loops: an invariant of the processed prefix. *)
Lemma wp_for_fold {A S : Type} (I : list A -> S -> world -> Prop)
    (R : exn -> world -> Prop) (l : list A) (body : S -> A -> M S) :
  (forall pre x s w, x ∈ l -> I pre s w ->
     wp (body s x) (fun s1 w1 => I (pre ++ [x]) s1 w1) R w) ->
  forall pre s w, I pre s w ->
    wp (for_fold l s body) (fun s' w' => I (pre ++ l) s' w') R w.
Proof.
  induction l as [|x l IH]; intros Hstep pre s w HI; simpl.
  - apply wp_ret. by rewrite app_nil_r.
  - apply wp_bind. eapply wp_mono; [apply Hstep; [apply list_elem_of_here | done] | | done].
    intros s1 w1 HI1. simpl in HI1.
    rewrite (cons_middle x pre l), app_assoc. apply IH; [|done].
    intros pre' y s' w' Hy. apply Hstep. by apply list_elem_of_further.
Qed.

Lemma wp_for_each {A : Type} (I : world -> Prop) (R : exn -> world -> Prop)
    (l : list A) (body : A -> M unit) :
  (forall x w, x ∈ l -> I w -> wp (body x) (fun _ w1 => I w1) R w) ->
  forall w, I w -> wp (for_each l body) (fun _ w' => I w') R w.
Proof.
  induction l as [|x l IH]; intros Hstep w HI; simpl.
  - by apply wp_ret.
  - apply wp_bind. eapply wp_mono; [apply Hstep; [apply list_elem_of_here | done] | | done].
    intros [] w1 HI1. apply IH; [|done].
    intros y w' Hy. apply Hstep. by apply list_elem_of_further.
Qed.

End Wp.

(* ===================================================================== *)
(** * The layer grid *)
(* ===================================================================== *)

Section Grid.
Context `{Environment}.

(** The image loop of [_make_axes_grid] never fails: it appends one
    image per row of the table and files it under the key of the row. *)
Lemma image_loop (params : odict ax_param) (d : odict nat) (w : world) :
  for_fold params d
    (fun img_dict '(k, (ax_coords, img_dims, ax_title)) =>
       let* img := imshow (zeros zero [img_dims.1; img_dims.2]) in
       ret (od_set k img img_dict)) w
  = (Ok (place (length (images w)) params d),
     with_images (images w ++ grid_images params) w).
Proof.
  revert d w. induction params as [|[k [[ax_coords img_dims] ax_title]] params IH];
    intros d w; simpl.
  - unfold ret, with_images. rewrite app_nil_r. by destruct w.
  - unfold bind at 1. unfold bind at 1. unfold imshow at 1. unfold ret at 1.
    rewrite IH. simpl. rewrite length_app. simpl. rewrite Nat.add_1_r.
    rewrite <- app_assoc. reflexivity.
Qed.

Lemma panels_monotone (mode mode' : Z) (target : bool) :
  (mode <= mode')%Z -> panels mode target ⊆ panels mode' target.
Proof.
  intros Hle k. unfold panels. rewrite !elem_of_app.
  destruct (mode >? 0)%Z eqn:E0, (mode' >? 0)%Z eqn:E0', (mode >? 1)%Z eqn:E1,
    (mode' >? 1)%Z eqn:E1'; try lia; rewrite ?elem_of_nil; tauto.
Qed.

Lemma elem_of_panels (mode : Z) (target : bool) (k : string) :
  k ∈ panels mode target <->
  k ∈ base_panels \/ (k = "targets" /\ target = true) \/
  (k ∈ gradient_panels /\ (mode > 0)%Z) \/ (k ∈ cumulative_panels /\ (mode > 1)%Z).
Proof.
  unfold panels. rewrite !elem_of_app.
  destruct target, (mode >? 0)%Z eqn:E0, (mode >? 1)%Z eqn:E1;
    rewrite ?elem_of_nil, ?list_elem_of_singleton;
    (split; [intros; intuition (auto; try lia) | intros; intuition (auto; try lia; try discriminate)]).
Qed.

End Grid.


Section GridPanels.
Context `{Environment}.

Lemma elem_of_od_set {V : Type} (k : string) (v : V) (d : odict V) (x : string * V) :
  x ∈ od_set k v d -> x = (k, v) \/ x ∈ d.
Proof.
  induction d as [|[k' v'] d IH]; simpl.
  - intros ->%list_elem_of_singleton. by left.
  - case_decide as E.
    + subst k'. intros [->|Hx]%elem_of_cons; [by left|].
      right. by apply list_elem_of_further.
    + intros [->|Hx]%elem_of_cons; [right; apply list_elem_of_here|].
      destruct (IH Hx) as [->|Hd]; [by left|]. right. by apply list_elem_of_further.
Qed.

(** Every entry that [place] files comes from a row of the table and
    carries the identifier of the image made for that row. *)
Lemma place_elem (n : nat) (params : odict ax_param) (d : odict nat) (x : string * nat) :
  x ∈ place n params d ->
  x ∈ d \/ exists j p, params !! j = Some (x.1, p) /\ x.2 = n + j.
Proof.
  revert n d. induction params as [|[k p] params IH]; intros n d; simpl; [by left|].
  intros [Hx|(j & q & Hj & Hid)]%IH.
  - apply elem_of_od_set in Hx as [->|Hx]; [|by left].
    right. exists 0, p. simpl. split; [done | lia].
  - right. exists (S j), q. simpl. split; [done | lia].
Qed.

Lemma place_keys (n m : nat) (params : odict ax_param) (d d' : odict nat) :
  od_keys d = od_keys d' -> od_keys (place n params d) = od_keys (place m params d').
Proof.
  revert n m d d'. induction params as [|[k p] params IH]; intros n m d d' Hd; simpl; [done|].
  apply IH. rewrite !od_keys_set, Hd. by case_decide.
Qed.

(** The run of [_make_axes_grid], spelled out: it returns, its table
    [AX] has the panels of the mode as keys and the declared rows and
    columns, and the figure gains one zero image per row of the table. *)
Lemma make_axes_grid_table (N subplot_ind : nat) (layer_name : string)
    (inp_size layer_size : nat) (mode : Z) (target : bool) (w : world) :
  exists AX : odict ax_param,
    _make_axes_grid N subplot_ind layer_name inp_size layer_size mode target w
      = (Ok (place (length (images w)) AX []),
         with_images (images w ++ grid_images AX) w) /\
    od_keys (place (length (images w)) AX []) = panels mode target /\
    Forall (fun p : string * ax_param =>
              p.2.1.2 = declared_shape inp_size layer_size p.1) AX.
Proof.
  unfold _make_axes_grid. cbv zeta. rewrite image_loop.
  match goal with |- context [grid_images ?ax] => exists ax end.
  split_and!; [done | |].
  - rewrite (place_keys _ 0 _ _ []) by done. unfold panels.
    destruct target, (Z.gtb_spec mode 0), (Z.gtb_spec mode 1); try lia; reflexivity.
  - destruct target, (mode >? 0)%Z, (mode >? 1)%Z; repeat constructor.
Qed.

(** C8. For every mode and target flag, [_make_axes_grid] returns, and
    the panels of the returned grid are the five feed-forward panels,
    then 'targets' exactly when [target] holds, then the four gradient
    panels exactly when [mode > 0], then the two cumulative panels
    exactly when [mode > 1]; the set grows with the mode; and every panel
    shows a zero matrix of the rows and columns declared for its key. *)
Theorem make_axes_grid_panels (N subplot_ind : nat) (layer_name : string)
    (inp_size layer_size : nat) (mode : Z) (target : bool) (w : world) :
  exists img_dict w',
    _make_axes_grid N subplot_ind layer_name inp_size layer_size mode target w
      = (Ok img_dict, w') /\
    od_keys img_dict = panels mode target /\
    (forall k, k ∈ od_keys img_dict <->
       k ∈ base_panels \/ (k = "targets" /\ target = true) \/
       (k ∈ gradient_panels /\ (mode > 0)%Z) \/
       (k ∈ cumulative_panels /\ (mode > 1)%Z)) /\
    (forall mode', (mode <= mode')%Z -> od_keys img_dict ⊆ panels mode' target) /\
    Forall (fun ki : string * nat =>
              exists im, images w' !! ki.2 = Some im /\
                zero_matrix zero (declared_shape inp_size layer_size ki.1).1
                  (declared_shape inp_size layer_size ki.1).2 (img_data im))
           img_dict.
Proof.
  destruct (make_axes_grid_table N subplot_ind layer_name inp_size layer_size
              mode target w) as (AX & Hrun & Hkeys & Hshape).
  eexists _, _. split; [exact Hrun|]. split_and!.
  - done.
  - intros k. rewrite Hkeys. apply elem_of_panels.
  - intros mode' Hle. rewrite Hkeys. by apply panels_monotone.
  - apply Forall_forall. intros [k id] [Hin|(j & p & Hj & Hid)]%place_elem.
    { by apply elem_of_nil in Hin. }
    simpl in *. subst id.
    rewrite lookup_app_r by lia.
    replace (length (images w) + j - length (images w)) with j by lia.
    unfold grid_images. rewrite list_lookup_fmap, Hj. simpl.
    eexists. split; [reflexivity|]. simpl.
    rewrite Forall_forall in Hshape.
    specialize (Hshape (k, p) (list_elem_of_lookup_2 _ _ _ Hj)). simpl in Hshape.
    rewrite <- Hshape. apply zeros_zero_matrix.
Qed.

End GridPanels.

(* ===================================================================== *)
(** * What [view_layers] builds *)
(* ===================================================================== *)

Section ViewFacts.
Context `{Environment}.

(** [_make_logs_widget] only reads: whatever its outcome, the world is
    the one it started in. *)
Lemma make_logs_widget_world (log_path : string) (layout : Layout) (w : world) :
  (_make_logs_widget log_path layout w).2 = w.
Proof.
  unfold _make_logs_widget, bind, read_fs, lift, ret.
  destruct (listdir (fs w) log_path) as [names|e]; [|done].
  destruct (getitem_list _ 0) as [first|e]; [|done].
  by destruct (getitem_od _ first).
Qed.

Lemma view_layers_inv (log_path : string) (mode : Z) (w w' : world) (v : view) :
  view_layers log_path mode w = (Ok v, w') ->
  _make_logs_widget log_path {| width := "100%" |} w = (Ok (run_widget v), w) /\
  get_epochs (fs w) (dd_value (run_widget v)) = Ok (epochs v) /\
  get_layer_names (fs w) (dd_value (run_widget v)) = Ok (layer_names v) /\
  (exists layer_dims wb,
     get_layer_dims (fs w) (dd_value (run_widget v)) (layer_names v) = Ok layer_dims /\
     for_fold (enumerate (zip (layer_names v) (disp_targs_of (layer_names v)))) []
       (fun axes_dicts '(i, (layer_name, disp_targ)) =>
          let* dims := lift (getitem_map layer_dims layer_name) in
          let* inp_size := lift (getitem_list dims 0) in
          let* dims := lift (getitem_map layer_dims layer_name) in
          let* layer_size := lift (getitem_list dims 1) in
          let* grid :=
            _make_axes_grid (length (layer_names v)) i
              (underscores_to_spaces (str_upper layer_name))
              inp_size layer_size mode disp_targ in
          ret (axes_dicts ++ [grid])) w = (Ok (axes_dicts v), wb) /\
     get_pattern_options (fs wb) (dd_value (run_widget v))
       (IntSlider_value (step_widget v)) = Ok (pattern_options v)) /\
  (exists first_epoch,
     getitem_list (epochs v) 0 = Ok first_epoch /\
     step_widget v =
       {| is_value := first_epoch;
          is_min := 0%Z;
          is_max := (Z.of_nat (length (epochs v)) - 1)%Z;
          is_step := 1%Z;
          is_description := "Step index: ";
          is_continuous_update := false;
          is_layout := {| width := "100%" |} |}) /\
  pattern_widget v =
    {| sel_options := options_map_of (pattern_options v);
       sel_value := 0%Z;
       sel_rows := Z.min 10 (Z.of_nat (length (pattern_options v)));
       sel_description := "Pattern: ";
       sel_layout := {| width := "100%" |} |} /\
  controls_dict v =
    [ ("runlog_path", Interactive (WDropdown (run_widget v)));
      ("img_dicts", Fixed (AImgs (axes_dicts v)));
      ("layer_names", Fixed (ANames (layer_names v)));
      ("colormap", Interactive (WDropdown (cmap_widget v)));
      ("vrange", Interactive (WIntRangeSlider (vrange_widget v)));
      ("tind", Interactive (WIntSlider (step_widget v)));
      ("pind", Interactive (WSelect (pattern_widget v))) ] /\
  children <$> children (controls_panel v) =
    [ [Interactive (WDropdown (run_widget v)); Interactive (WSelect (pattern_widget v))];
      [Interactive (WDropdown (cmap_widget v)); Interactive (WIntRangeSlider (vrange_widget v))];
      [Interactive (WIntSlider (step_widget v))] ].
Proof.
  intros Hrun. unfold view_layers in Hrun. cbv zeta in Hrun.
  apply bind_Ok_inv in Hrun as (rw & w1 & Hlogs & Hrun).
  assert (w1 = w) as -> by (by rewrite <- (make_logs_widget_world log_path {| width := "100%" |} w), Hlogs).
  apply bind_Ok_inv in Hrun as (eps & w2 & [Heps ->]%read_fs_Ok_inv & Hrun).
  apply bind_Ok_inv in Hrun as (names & w3 & [Hnames ->]%read_fs_Ok_inv & Hrun).
  apply bind_Ok_inv in Hrun as (dims & w4 & [Hdims ->]%read_fs_Ok_inv & Hrun).
  apply bind_Ok_inv in Hrun as (axes & wb & Hgrids & Hrun).
  apply bind_Ok_inv in Hrun as (e0 & w5 & [He0 ->]%lift_Ok_inv & Hrun).
  apply bind_Ok_inv in Hrun as (opts & w6 & [Hopts ->]%read_fs_Ok_inv & Hrun).
  apply bind_Ok_inv in Hrun as (c1 & w7 & [Hc1 ->]%lift_Ok_inv & Hrun).
  apply bind_Ok_inv in Hrun as (c2 & w8 & [Hc2 ->]%lift_Ok_inv & Hrun).
  apply bind_Ok_inv in Hrun as (c3 & w9 & [Hc3 ->]%lift_Ok_inv & Hrun).
  apply bind_Ok_inv in Hrun as (c4 & w10 & [Hc4 ->]%lift_Ok_inv & Hrun).
  apply bind_Ok_inv in Hrun as (c5 & w11 & [Hc5 ->]%lift_Ok_inv & Hrun).
  apply bind_Ok_inv in Hrun as ([] & w12 & _ & Hrun).
  apply bind_Ok_inv in Hrun as ([] & w13 & _ & Hrun).
  injection Hc1 as <-. injection Hc2 as <-. injection Hc3 as <-.
  injection Hc4 as <-. injection Hc5 as <-.
  unfold ret in Hrun. injection Hrun as <- _. simpl.
  split_and!; try done.
  - eauto 10.
  - eauto.
Qed.

End ViewFacts.

Section TargetPanel.
Context `{Environment}.

Lemma length_disp_targs_of (names : list string) :
  names <> [] -> length (disp_targs_of names) = length names.
Proof.
  intros Hne. unfold disp_targs_of, all_but_last.
  rewrite length_app, length_fmap, length_take. simpl.
  destruct names; [done | simpl; lia].
Qed.

(** The flags of the loop: false at every position but the last. *)
Lemma disp_targs_of_flags (names : list string) :
  names <> [] ->
  disp_targs_of names = replicate (length names - 1) false ++ [true].
Proof.
  intros Hne. unfold disp_targs_of, all_but_last. f_equal.
  assert (Hconst : forall l : list string,
            (fun _ => false) <$> l = replicate (length l) false).
  { intros l. induction l as [|x l IH]; [done|]. by rewrite fmap_cons, IH. }
  rewrite Hconst, length_take. f_equal. lia.
Qed.

Lemma targets_in_panels (mode : Z) (target : bool) :
  "targets" ∈ panels mode target <-> target = true.
Proof.
  rewrite elem_of_panels. split; [|by auto].
  intros [Hb|[[_ ?]|[[Hb _]|[Hb _]]]]; [|done|..];
    apply (bool_decide_pack _) in Hb; vm_compute in Hb; destruct Hb.
Qed.

(** The grids come out of the loop in the order of the requests, each
    with the panels of the flag it was requested with. *)
Lemma grids_follow_requests (layer_dims : gmap string (list nat)) (num_layers : nat)
    (mode : Z) (requests : list (nat * (string * bool))) (w wb : world)
    (axes : list (odict nat)) :
  for_fold requests []
    (fun axes_dicts '(i, (layer_name, disp_targ)) =>
       let* dims := lift (getitem_map layer_dims layer_name) in
       let* inp_size := lift (getitem_list dims 0) in
       let* dims := lift (getitem_map layer_dims layer_name) in
       let* layer_size := lift (getitem_list dims 1) in
       let* grid :=
         _make_axes_grid num_layers i
           (underscores_to_spaces (str_upper layer_name))
           inp_size layer_size mode disp_targ in
       ret (axes_dicts ++ [grid])) w = (Ok axes, wb) ->
  Forall2 (fun (r : nat * (string * bool)) grid => od_keys grid = panels mode r.2.2)
    requests axes.
Proof.
  intros Hrun.
  eapply (for_fold_Ok_inv
            (fun pre axes_dicts =>
               Forall2 (fun (r : nat * (string * bool)) grid =>
                          od_keys grid = panels mode r.2.2) pre axes_dicts)
         ) with (pre := []); [|constructor|exact Hrun].
  clear. intros pre [i [layer_name disp_targ]] s w s1 w1 HI Hbody.
  inv_bind Hbody. inv_bind Hbody. inv_bind Hbody. inv_bind Hbody. inv_bind Hbody.
  injection Hbody as <- _.
  apply Forall2_app; [done|]. constructor; [|constructor]. simpl.
  match goal with
  | Hg : _make_axes_grid ?N ?i ?n ?a ?b ?m ?t ?w0 = _ |- _ =>
      destruct (make_axes_grid_table N i n a b m t w0) as (AX & Hrun & Hkeys & _);
      rewrite Hrun in Hg; injection Hg as <- _
  end.
  exact Hkeys.
Qed.

(** C9. When [view_layers] has run on a log with at least one layer, the
    target flags it passed to [_make_axes_grid] are false for every
    layer but the last and true for the last, there is one grid per
    layer, and a grid has a 'targets' panel exactly when it is the grid
    of the last layer. *)
Theorem view_layers_targets_last (log_path : string) (mode : Z) (w w' : world) (v : view) :
  view_layers log_path mode w = (Ok v, w') ->
  layer_names v <> [] ->
  (zip (layer_names v) (disp_targs_of (layer_names v))).*2
    = replicate (length (layer_names v) - 1) false ++ [true] /\
  length (axes_dicts v) = length (layer_names v) /\
  forall i grid, axes_dicts v !! i = Some grid ->
    ("targets" ∈ od_keys grid <-> i = length (layer_names v) - 1).
Proof.
  intros Hrun Hne.
  destruct (view_layers_inv _ _ _ _ _ Hrun) as (_ & _ & _ & Hgrids & _).
  destruct Hgrids as (layer_dims & wb & _ & Hloop & _).
  apply grids_follow_requests in Hloop.
  pose proof (length_disp_targs_of _ Hne) as Hlen.
  assert (Hflags : (zip (layer_names v) (disp_targs_of (layer_names v))).*2
                   = replicate (length (layer_names v) - 1) false ++ [true]).
  { rewrite snd_zip by lia. by apply disp_targs_of_flags. }
  pose proof (Forall2_length _ _ _ Hloop) as Hl.
  unfold enumerate in Hl. rewrite length_zip_with, length_seq, length_zip_with in Hl.
  split_and!; [done | lia |].
  intros i grid Hi.
  destruct (Forall2_lookup_r _ _ _ _ _ Hloop Hi) as ([j [name flag]] & Hreq & Hkeys).
  simpl in Hkeys. rewrite Hkeys, targets_in_panels.
  unfold enumerate in Hreq. apply lookup_zip_with_Some in Hreq as (j' & x & [= <- <-] & Hj & Hx).
  assert ((zip (layer_names v) (disp_targs_of (layer_names v))).*2 !! i = Some flag) as Hf.
  { by rewrite list_lookup_fmap, Hx. }
  rewrite Hflags in Hf.
  apply lookup_lt_Some in Hx. rewrite length_zip_with in Hx.
  destruct (decide (i = length (layer_names v) - 1)) as [->|Hi'].
  - rewrite lookup_app_r in Hf by (rewrite length_replicate; lia).
    rewrite length_replicate, Nat.sub_diag in Hf. by injection Hf as <-.
  - rewrite lookup_app_l in Hf by (rewrite length_replicate; lia).
    apply lookup_replicate in Hf as [-> _]. split; [done | lia].
Qed.

End TargetPanel.

(* ===================================================================== *)
(** * The widgets *)
(* ===================================================================== *)

Section Selector.
Context `{Environment}.

Lemma enumerate_snoc {A : Type} (l : list A) (x : A) :
  enumerate (l ++ [x]) = enumerate l ++ [(length l, x)].
Proof.
  unfold enumerate. rewrite length_app. simpl.
  rewrite seq_app. simpl. rewrite zip_with_app by (by rewrite length_seq). done.
Qed.

Lemma options_map_of_snoc (options : list string) (x : string) :
  options_map_of (options ++ [x]) =
  od_set x (Z.of_nat (length options)) (options_map_of options).
Proof. unfold options_map_of. by rewrite enumerate_snoc, fold_left_app. Qed.

(** The selector maps a label to the position of its last occurrence. *)
Lemma options_map_of_last (options : list string) (i : nat) (label : string) :
  options !! i = Some label ->
  (forall j, i < j -> options !! j <> Some label) ->
  od_get label (options_map_of options) = Some (Z.of_nat i).
Proof.
  revert i. induction options as [|x options IH] using rev_ind; intros i Hi Hlast; [done|].
  rewrite options_map_of_snoc.
  destruct (decide (i = length options)) as [->|Hne].
  - rewrite list_lookup_middle in Hi by done. injection Hi as ->. apply od_get_set_eq.
  - assert (i < length options).
    { apply lookup_lt_Some in Hi. rewrite length_app in Hi. simpl in Hi. lia. }
    rewrite lookup_app_l in Hi by done.
    rewrite od_get_set_ne.
    + apply IH; [done|]. intros j Hj Hl. apply (Hlast j Hj).
      rewrite lookup_app_l; [done | by eapply lookup_lt_Some].
    + intros ->. apply (Hlast (length options)); [done|].
      by rewrite list_lookup_middle.
Qed.

Lemma options_map_of_NoDup (options : list string) (i : nat) (label : string) :
  NoDup options -> options !! i = Some label ->
  od_get label (options_map_of options) = Some (Z.of_nat i).
Proof.
  intros Hnd Hi. apply options_map_of_last; [done|].
  intros j Hij Hj. pose proof (NoDup_lookup _ _ _ _ Hnd Hi Hj). lia.
Qed.

(** The step slider, as [view_layers] creates it: positions 0 to
    [len(epochs) - 1] in steps of 1, and as value the first logged epoch
    number, whatever it is. *)
Lemma step_slider_arguments (log_path : string) (mode : Z) (w w' : world) (v : view) :
  view_layers log_path mode w = (Ok v, w') ->
  is_min (step_widget v) = 0%Z /\
  is_max (step_widget v) = (Z.of_nat (length (epochs v)) - 1)%Z /\
  is_step (step_widget v) = 1%Z /\
  epochs v !! 0 = Some (is_value (step_widget v)).
Proof.
  intros Hrun.
  destruct (view_layers_inv _ _ _ _ _ Hrun) as (_ & _ & _ & _ & Hstep & _).
  destruct Hstep as (first_epoch & Hfirst & ->). simpl. split_and!; try done.
  destruct (epochs v) as [|e0 eps]; [by rewrite getitem_list_nil in Hfirst|].
  rewrite getitem_list_0 in Hfirst. by injection Hfirst as ->.
Qed.

(** C10, as amended. When [view_layers] has run and the pattern options
    are non-empty and pairwise distinct, the pattern selector maps the
    label at every position [i] to the index [i], the first label to the
    initial value 0, and shows min(10, number of options) rows, at most
    ten. *)
Theorem pattern_selector_indexes (log_path : string) (mode : Z) (w w' : world) (v : view) :
  view_layers log_path mode w = (Ok v, w') ->
  pattern_options v <> [] ->
  NoDup (pattern_options v) ->
  selector_indexes (pattern_options v) (pattern_widget v) /\
  (exists first, pattern_options v !! 0 = Some first /\
     od_get first (sel_options (pattern_widget v)) = Some (sel_value (pattern_widget v))).
Proof.
  intros Hrun Hne Hnd.
  destruct (view_layers_inv _ _ _ _ _ Hrun) as (_ & _ & _ & _ & _ & Hsel & _).
  rewrite Hsel. unfold selector_indexes. simpl. split_and!; try done.
  - intros i label Hi. by apply options_map_of_NoDup.
  - lia.
  - destruct (pattern_options v) as [|first rest] eqn:E; [done|].
    exists first. split; [done|]. rewrite <- E in *.
    apply (options_map_of_NoDup _ 0); [done | by rewrite E].
Qed.

End Selector.

Section LogsWidget.
Context `{Environment}.

Lemma runlogs_of_snoc (log_path : string) (filenames : list string) (x : string) :
  runlogs_of log_path (filenames ++ [x]) =
  od_set x (joinp log_path x) (runlogs_of log_path filenames).
Proof. unfold runlogs_of. by rewrite fold_left_app. Qed.

Lemma runlogs_of_get (log_path : string) (filenames : list string) (label : string) :
  od_get label (runlogs_of log_path filenames) =
  if decide (label ∈ filenames) then Some (joinp log_path label) else None.
Proof.
  induction filenames as [|x filenames IH] using rev_ind.
  - simpl. by destruct (decide (label ∈ [])) as [?%elem_of_nil|].
  - rewrite runlogs_of_snoc. destruct (decide (x = label)) as [->|Hne].
    + rewrite od_get_set_eq, decide_True; [done|].
      rewrite elem_of_app, list_elem_of_singleton. by right.
    + rewrite od_get_set_ne, IH by done.
      destruct (decide (label ∈ filenames)) as [Hin|Hin].
      * rewrite decide_True; [done | rewrite elem_of_app; by left].
      * rewrite decide_False; [done|].
        rewrite elem_of_app, list_elem_of_singleton. intros [?|?]; congruence.
Qed.

Lemma runlogs_of_keys_NoDup (log_path : string) (filenames : list string) :
  NoDup (od_keys (runlogs_of log_path filenames)).
Proof.
  induction filenames as [|x filenames IH] using rev_ind.
  - apply NoDup_nil_2.
  - rewrite runlogs_of_snoc. by apply od_keys_set_NoDup.
Qed.

(** Without repeated names the dictionary lists the files in order. *)
Lemma runlogs_of_NoDup (log_path : string) (filenames : list string) :
  NoDup filenames ->
  runlogs_of log_path filenames = (fun f => (f, joinp log_path f)) <$> filenames.
Proof.
  induction filenames as [|x filenames IH] using rev_ind; intros Hnd; [done|].
  apply NoDup_app in Hnd as (Hnd & Hx & _).
  rewrite runlogs_of_snoc, IH, fmap_app by done. simpl.
  apply od_set_fresh. unfold od_keys.
  assert (((fun f => (f, joinp log_path f)) <$> filenames).*1 = filenames) as ->.
  { clear. induction filenames as [|y l IHl]; [done|].
    rewrite !fmap_cons. simpl. by rewrite IHl. }
  intros Hin. apply (Hx x Hin), list_elem_of_here.
Qed.

Lemma elem_of_filter_bool {A : Type} (f : A -> bool) (l : list A) (x : A) :
  x ∈ List.filter f l <-> x ∈ l /\ f x = true.
Proof.
  split.
  - intros Hx%list_elem_of_In%List.filter_In. by rewrite list_elem_of_In.
  - intros [Hx%list_elem_of_In Hf]. apply list_elem_of_In, List.filter_In. done.
Qed.

(** C3. When the directory can be listed and lists at least one name
    that contains '.pkl', [_make_logs_widget] returns a dropdown whose
    options are exactly those names, each with the path
    [joinp(log_path, name)], one option per name, in listing order, and
    whose value is the path of the first of them. *)
Theorem logs_widget_options (log_path : string) (layout : Layout) (w : world)
    (names : list string) (first : string) (rest : list string) :
  listdir (fs w) log_path = Ok names ->
  List.filter (fun filename => str_in ".pkl" filename) names = first :: rest ->
  exists run_widget,
    _make_logs_widget log_path layout w = (Ok run_widget, w) /\
    (forall label path,
       od_get label (dd_options run_widget) = Some path <->
       label ∈ names /\ (exists a b, label = a +:+ ".pkl" +:+ b) /\
       path = joinp log_path label) /\
    NoDup (od_keys (dd_options run_widget)) /\
    (NoDup names ->
       dd_options run_widget = (fun f => (f, joinp log_path f)) <$> first :: rest) /\
    dd_value run_widget = joinp log_path first.
Proof.
  intros Hls Hfilter.
  unfold _make_logs_widget, bind, read_fs, lift, ret. rewrite Hls, Hfilter.
  rewrite getitem_list_0. fold (runlogs_of log_path (first :: rest)).
  unfold getitem_od. rewrite runlogs_of_get, decide_True by apply list_elem_of_here.
  eexists. split; [reflexivity|]. simpl. split_and!; [ | | | done].
  - intros label path. rewrite runlogs_of_get, <- Hfilter, <- str_in_spec.
    case_decide as Hin; rewrite elem_of_filter_bool in Hin; split.
    + intros [= <-]. tauto.
    + intros (? & ? & ->). done.
    + done.
    + intros (? & ? & _). tauto.
  - apply runlogs_of_keys_NoDup.
  - intros Hnd. apply runlogs_of_NoDup. rewrite <- Hfilter.
    apply NoDup_ListNoDup, List.NoDup_filter, NoDup_ListNoDup, Hnd.
Qed.

End LogsWidget.

Section Controls.
Context `{Environment}.

(** The Output widget turns every outcome into a normal return. *)
Lemma captured_Ok (m : M unit) (w : world) :
  captured m w = (Ok tt, (captured m w).2).
Proof. unfold captured. by destruct (m w) as [[[]|e] w1]. Qed.



End Controls.


(* ===================================================================== *)
(** * [_draw_layers] *)
(* ===================================================================== *)

Section DrawFacts.
Context `{Environment}.

(** ** The heap *)

Lemma lookup_str_Ok (h : pyheap) (v : value) (k : string) (x : value) :
  lookup_str h v k = Ok x ->
  exists l d, v = VRef l /\ h !! l = Some d /\ d !! k = Some x.
Proof.
  unfold lookup_str, getitem_map. destruct v as [a|l|r]; try done.
  destruct (h !! l) as [d|] eqn:Hd; [|done].
  destruct (d !! k) eqn:Hk; [|done]. intros [= ->]. eauto.
Qed.


Lemma heap_rel_refl (h : pyheap) (targ : value) : heap_rel h targ h.
Proof. intros l. destruct (h !! l); auto. Qed.

Lemma heap_rel_lookup (h1 h : pyheap) (targ : value) (l : nat) (d' : gmap string value) :
  heap_rel h1 targ h -> h !! l = Some d' ->
  exists d, h1 !! l = Some d /\ (d' = d \/ d' = <["targets" := targ]> d).
Proof.
  intros Hrel Hl. specialize (Hrel l). rewrite Hl in Hrel.
  destruct (h1 !! l) as [d|]; [eauto | done].
Qed.

Lemma heap_rel_lookup_key (h1 h : pyheap) (targ : value) (l : nat)
    (d' : gmap string value) (k : string) :
  heap_rel h1 targ h -> h !! l = Some d' -> k <> "targets" ->
  exists d, h1 !! l = Some d /\ d' !! k = d !! k.
Proof.
  intros Hrel Hl Hk. destruct (heap_rel_lookup _ _ _ _ _ Hrel Hl) as (d & Hd & [->| ->]).
  - eauto.
  - exists d. split; [done|]. by rewrite lookup_insert_ne.
Qed.

(** [v['targets'] = targ] keeps the relation. *)
Lemma heap_rel_set (h1 h : pyheap) (targ : value) (l : nat) (d' : gmap string value) :
  heap_rel h1 targ h -> h !! l = Some d' ->
  heap_rel h1 targ (<[l := <["targets" := targ]> d']> h).
Proof.
  intros Hrel Hl l0. destruct (decide (l = l0)) as [<-|Hne].
  - rewrite lookup_insert_eq.
    destruct (heap_rel_lookup _ _ _ _ _ Hrel Hl) as (d & -> & [->| ->]).
    + by right.
    + right. by rewrite insert_insert_eq.
  - rewrite lookup_insert_ne by done. apply Hrel.
Qed.

(** ** The data steps *)

Lemma data_steps {B : Type} (k : string) (pind : Z) (data : value) (K : value -> M B) w :
  (let* data := lift (if decide (k = "weights") then attr_T data else Ok data) in
   let* data := lift (if str_in "biases" k then np_expand_dims1 data else Ok data) in
   let* nd := lift (attr_ndim data) in
   let* data :=
     if decide (2 < nd) then
       let* data := lift (getitem_int data pind) in
       lift (if decide (k <> "input_") then attr_T data else Ok data)
     else ret data in
   K data) w
  = (let* data := lift (prepare k pind data) in K data) w.
Proof.
  unfold prepare, bind, lift, ret.
  destruct (if decide (k = "weights") then attr_T data else Ok data) as [data1|e]; [|done].
  destruct (if str_in "biases" k then np_expand_dims1 data1 else Ok data1) as [data2|e]; [|done].
  destruct (attr_ndim data2) as [nd|e]; [|done].
  destruct (decide (2 < nd)); [|done].
  destruct (getitem_int data2 pind) as [data3|e]; [|done].
  by destruct (if decide (k <> "input_") then attr_T data3 else Ok data3).
Qed.

Lemma attr_T_Ok (v v' : value) :
  attr_T v = Ok v' -> exists d, v = VArr d /\ v' = VArr (transpose d).
Proof. destruct v; try done. intros [= <-]. eauto. Qed.

Lemma np_expand_dims1_Ok (v v' : value) :
  np_expand_dims1 v = Ok v' -> exists d d', v = VArr d /\ v' = VArr d' /\ expand_dims1 d = Ok d'.
Proof.
  destruct v as [d| |]; try done. simpl.
  destruct (expand_dims1 d) as [d'|] eqn:E; [|done]. intros [= <-]. eauto.
Qed.

Lemma getitem_int_Ok (v v' : value) (i : Z) :
  getitem_int v i = Ok v' -> exists d d', v = VArr d /\ v' = VArr d' /\ getitem d i = Ok d'.
Proof.
  destruct v as [d| |]; try done. simpl.
  destruct (getitem d i) as [d'|] eqn:E; [|done]. intros [= <-]. eauto.
Qed.

Lemma attr_ndim_Ok (v : value) (n : nat) :
  attr_ndim v = Ok n -> exists d, v = VArr d /\ n = ndim d.
Proof. destruct v; try done. intros [= <-]. eauto. Qed.

(** What the data steps return is a view of the tensor they were given. *)
Lemma prepare_Ok (k : string) (pind : Z) (v v' : value) :
  prepare k pind v = Ok v' ->
  exists d d', v = VArr d /\ v' = VArr d' /\ view_of k pind d d'.
Proof.
  unfold prepare, view_of.
  destruct (if decide (k = "weights") then attr_T v else Ok v) as [v1|e] eqn:E1; [|done].
  destruct (if str_in "biases" k then np_expand_dims1 v1 else Ok v1) as [v2|e] eqn:E2; [|done].
  destruct (attr_ndim v2) as [nd|e] eqn:E3; [|done].
  apply attr_ndim_Ok in E3 as (d2 & -> & ->).
  assert (exists d1, v1 = VArr d1 /\
            if str_in "biases" k then expand_dims1 d1 = Ok d2 else d2 = d1) as (d1 & -> & H2).
  { destruct (str_in "biases" k).
    - apply np_expand_dims1_Ok in E2 as (d1 & d2' & -> & Hd2 & ?).
      injection Hd2 as ->. eauto.
    - injection E2 as ->. eauto. }
  assert (exists d, v = VArr d /\
            d1 = if decide (k = "weights") then transpose d else d) as (d & -> & H1).
  { destruct (decide (k = "weights")).
    - apply attr_T_Ok in E1 as (d & -> & Hd1). injection Hd1 as ->. eauto.
    - injection E1 as ->. eauto. }
  destruct (decide (2 < ndim d2)) as [Hnd|Hnd].
  - destruct (getitem_int (VArr d2) pind) as [v3|e] eqn:E4; [|done].
    apply getitem_int_Ok in E4 as (d2' & d3 & Hd2 & -> & Hg).
    injection Hd2 as <-.
    intros Hv'. exists d.
    destruct (decide (k <> "input_")) as [Hk|Hk].
    + injection Hv' as <-. exists (transpose d3). split_and!; try done.
      exists d1, d2. split_and!; try done.
      rewrite decide_True by done. by exists d3.
    + injection Hv' as <-. exists d3. split_and!; try done.
      exists d1, d2. split_and!; try done.
      rewrite decide_True by done. by exists d3.
  - intros [= <-]. exists d, d2. split_and!; try done.
    exists d1, d2. split_and!; try done. by rewrite decide_False.
Qed.

(** A view shows the buffer of its tensor: no element is computed. *)
Lemma view_of_buf (k : string) (pind : Z) (d d' : ndarray scalar) :
  view_of k pind d d' -> nd_buf d' = nd_buf d.
Proof.
  intros (d1 & d2 & -> & H2 & H3).
  assert (nd_buf d2 = nd_buf d) as Hb2.
  { destruct (str_in "biases" k).
    - apply expand_dims1_Ok in H2 as [-> _]. by destruct (decide (k = "weights")).
    - subst d2. by destruct (decide (k = "weights")). }
  destruct (decide (2 < ndim d2)).
  - destruct H3 as (d3 & [Hb3 _]%getitem_Ok & ->).
    destruct (decide (k <> "input_")); simpl; congruence.
  - by subst d'.
Qed.

(** Every element that a view shows is an element of its tensor. *)
Lemma view_of_elements (k : string) (pind : Z) (d d' : ndarray scalar)
    (idx : list nat) (x : scalar) :
  view_of k pind d d' -> nd_get d' idx = Some x ->
  exists idx0, nd_get d idx0 = Some x.
Proof.
  intros (d1 & d2 & -> & H2 & H3) Hx.
  assert (exists idx2, nd_get d2 idx2 = Some x) as [idx2 Hx2].
  { destruct (decide (2 < ndim d2)); [|subst d'; eauto].
    destruct H3 as (d3 & (_ & n & s & j & _ & _ & _ & Hget)%getitem_Ok & ->).
    destruct (decide (k <> "input_")).
    - rewrite nd_get_transpose, Hget in Hx. eauto.
    - rewrite Hget in Hx. eauto. }
  assert (exists idx1,
            nd_get (if decide (k = "weights") then transpose d else d) idx1 = Some x)
    as [idx1 Hx1].
  { destruct (str_in "biases" k); [|subst d2; eauto].
    apply expand_dims1_Ok in H2 as (_ & _ & Hfwd & Hinv).
    destruct (Hinv _ _ Hx2) as (i & rest & ->). rewrite Hfwd in Hx2. eauto. }
  destruct (decide (k = "weights")); [|eauto].
  rewrite nd_get_transpose in Hx1. eauto.
Qed.

(** ** The images *)

Lemma images_ok_same_data h1 pind before now img (f : image -> image) :
  (forall i, img_data (f i) = img_data i) ->
  images_ok h1 pind before now -> images_ok h1 pind before (alter f img now).
Proof.
  intros Hf Hok id im Hid.
  destruct (decide (img = id)) as [->|Hne].
  - rewrite list_lookup_alter_eq in Hid.
    destruct (now !! id) as [im0|] eqn:E; [|done]. injection Hid as <-.
    rewrite Hf. by apply Hok.
  - rewrite list_lookup_alter_ne in Hid by done. by apply Hok.
Qed.

Lemma images_ok_set_data h1 pind before now img (x : ndarray scalar)
    (c : image -> option string) (lo hi : image -> option Z) :
  (exists k d, tensor_at h1 k d /\ view_of k pind d x) ->
  images_ok h1 pind before now ->
  images_ok h1 pind before (alter (fun i => Image x (c i) (lo i) (hi i)) img now).
Proof.
  intros Hx Hok id im Hid.
  destruct (decide (img = id)) as [->|Hne].
  - rewrite list_lookup_alter_eq in Hid.
    destruct (now !! id) as [im0|] eqn:E; [|done]. injection Hid as <-.
    by right.
  - rewrite list_lookup_alter_ne in Hid by done. by apply Hok.
Qed.

End DrawFacts.

Section DrawInvariant.
Context `{Environment}.

Lemma draw_inv_stdout w h1 pind targ w' o :
  draw_inv w h1 pind targ w' -> draw_inv w h1 pind targ (with_stdout o w').
Proof. by intros (? & ? & ?). Qed.

Lemma draw_inv_set_heap w h1 pind targ w' l d :
  draw_inv w h1 pind targ w' -> heap w' !! l = Some d ->
  draw_inv w h1 pind targ (with_heap (<[l := <["targets" := targ]> d]> (heap w')) w').
Proof.
  intros (? & ? & ?) Hl. split_and!; [done | by apply heap_rel_set | done].
Qed.

(** The body of the inner loop keeps the invariant, whatever it meets. *)
Lemma draw_image_inv (w : world) (h1 : pyheap) (pind : Z) (targ : value)
    (snap_ldicts : gmap string value) (layer_name colormap : string) (vrange : Z * Z)
    (k : string) (img : nat) (w2 : world) :
  target_of h1 targ ->
  draw_inv w h1 pind targ w2 ->
  wp (let* ldict := lift (getitem_map snap_ldicts layer_name) in
      let* data := getitem_str ldict k in
      let* data := lift (if decide (k = "weights") then attr_T data else Ok data) in
      let* data := lift (if str_in "biases" k then np_expand_dims1 data else Ok data) in
      let* nd := lift (attr_ndim data) in
      let* data :=
        if decide (2 < nd) then
          let* data := lift (getitem_int data pind) in
          lift (if decide (k <> "input_") then attr_T data else Ok data)
        else ret data in
      set_data img data ;;
      set_cmap img colormap ;;
      set_vmin img vrange.1 ;;
      set_vmax img vrange.2)
    (fun _ w' => draw_inv w h1 pind targ w')
    (fun _ w' => draw_inv w h1 pind targ w') w2.
Proof.
  intros Htarg Hinv.
  apply wp_bind, wp_lift. destruct (getitem_map snap_ldicts layer_name) as [ldict|e]; [|done].
  apply wp_bind, wp_getitem_str.
  destruct (lookup_str (heap w2) ldict k) as [data|e] eqn:Hdata; [|done].
  unfold wp. rewrite data_steps. fold (wp (let* data := lift (prepare k pind data) in
      set_data img data ;; set_cmap img colormap ;; set_vmin img vrange.1 ;;
      set_vmax img vrange.2)
    (fun _ w' => draw_inv w h1 pind targ w')
    (fun _ w' => draw_inv w h1 pind targ w') w2).
  apply wp_bind, wp_lift. destruct (prepare k pind data) as [shown|e] eqn:Hprep; [|done].
  apply prepare_Ok in Hprep as (d & d' & -> & -> & Hview).
  apply lookup_str_Ok in Hdata as (ll & ld' & -> & Hll & Hk).
  destruct Hinv as (Hfs & Hrel & Himgs).
  assert (Htensor : tensor_at h1 k d).
  { destruct (heap_rel_lookup _ _ _ _ _ Hrel Hll) as (ld & Hld & [->| ->]).
    - exists ll, ld. auto.
    - destruct (decide (k = "targets")) as [->|Hne].
      + rewrite lookup_insert_eq in Hk. injection Hk as ->.
        destruct Htarg as (l & snap & Hl & Ht).
        exists l, snap. auto.
      + rewrite lookup_insert_ne in Hk by done. exists ll, ld. auto. }
  unfold wp, bind, set_data, set_cmap, set_vmin, set_vmax, update_image. simpl.
  split_and!; [done | done |].
  repeat (apply images_ok_same_data; [done|]).
  apply images_ok_set_data; eauto.
Qed.

(** The run of [_draw_layers], stage by stage.  Whatever the outcome:
    the file system is untouched, every dictionary of the loaded heap is
    as loaded or has its 'targets' entry set, and every image shows what
    it showed or a view of a loaded tensor.  When the call returns, the
    snapshot held every key that the function reads. *)
Lemma draw_layers_invariant (runlog_path : string) (img_dicts : list (odict nat))
    (layer_names : list string) (colormap : string) (vrange : Z * Z)
    (tind pind : Z) (w : world) (o : outcome (list value)) (h1 : pyheap) :
  load_test_data (fs w) runlog_path (heap w) = (o, h1) ->
  wp (_draw_layers runlog_path img_dicts layer_names colormap vrange tind pind)
    (fun _ w' =>
       draw_post w h1 pind w' /\
       exists logs l snap,
         o = Ok logs /\ getitem_list logs tind = Ok (VRef l) /\ h1 !! l = Some snap /\
         forall k, k ∈ expected_keys layer_names -> is_Some (snap !! k))
    (fun _ w' => draw_post w h1 pind w') w.
Proof.
  intros Hload. unfold _draw_layers.
  apply wp_bind. unfold wp at 1, call_load_test_data. rewrite Hload.
  set (w1 := with_heap h1 w).
  assert (G0 : forall targ, draw_inv w h1 pind targ w1).
  { intros targ. split_and!; [done | apply heap_rel_refl |].
    intros id im Hid. left. eauto. }
  assert (G1 : draw_post w h1 pind w1).
  { exists (VOther ""). split; [apply G0 | by left]. }
  destruct o as [logs|e]; [|exact G1].
  apply wp_bind, wp_lift.
  destruct (getitem_list logs tind) as [snapv|e] eqn:Hsnap; [|exact G1].
  apply wp_bind, wp_getitem_str.
  destruct (lookup_str (heap w1) snapv "enum") as [enum|e] eqn:Henum; [|exact G1].
  apply wp_bind, wp_getitem_str.
  destruct (lookup_str (heap w1) snapv "loss") as [losses|e] eqn:Hloss; [|exact G1].
  apply wp_bind, wp_lift.
  destruct (getitem_int losses pind) as [loss|e] eqn:Hl; [|exact G1].
  apply wp_bind, wp_getitem_str.
  destruct (lookup_str (heap w1) snapv "target") as [targ|e] eqn:Htarg; [|exact G1].
  apply lookup_str_Ok in Henum as (l & snap & -> & Hsnapd & Henum).
  apply lookup_str_Ok in Hloss as (? & ? & [= <-] & Hs' & Hloss).
  simpl in Hs', Hsnapd. rewrite Hsnapd in Hs'. injection Hs' as <-.
  apply lookup_str_Ok in Htarg as (? & ? & [= <-] & Hs' & Htarg).
  simpl in Hs'. rewrite Hsnapd in Hs'. injection Hs' as <-.
  assert (Htarg' : target_of h1 targ) by (by exists l, snap).
  assert (Hpost : forall w', draw_inv w h1 pind targ w' -> draw_post w h1 pind w').
  { intros w' Hw'. exists targ. auto. }
  apply wp_bind.
  eapply wp_mono;
    [ apply (wp_for_fold
               (fun pre (_ : gmap string value) w2 =>
                  draw_inv w h1 pind targ w2 /\
                  forall name, name ∈ pre -> name <> "targets" -> is_Some (snap !! name))
               (fun _ w' => draw_inv w h1 pind targ w')) with (pre := [])
    | | by intros ???; simpl in *; eauto ].
  - (* the first loop *)
    clear G0 G1. intros pre name s w2 _ [Hinv Hkeys].
    apply wp_bind, wp_getitem_str.
    destruct (lookup_str (heap w2) (VRef l) name) as [ldict|e] eqn:Hname; [|done].
    apply wp_bind, wp_lift. unfold getitem_map. rewrite lookup_insert_eq.
    apply wp_bind. unfold wp at 1, setitem_str.
    assert (Hkeys' : forall n, n ∈ pre ++ [name] -> n <> "targets" -> is_Some (snap !! n)).
    { intros n [Hn| ->%list_elem_of_singleton]%elem_of_app Hne; [by apply Hkeys|].
      apply lookup_str_Ok in Hname as (? & snap' & [= <-] & Hsnap' & Hn).
      destruct Hinv as (_ & Hrel & _).
      destruct (heap_rel_lookup_key _ _ _ _ _ name Hrel Hsnap' Hne) as (snap0 & Hs0 & Heq).
      rewrite Hsnapd in Hs0. injection Hs0 as <-. rewrite <- Heq, Hn. eauto. }
    destruct ldict as [a|l0|r]; [done| |done].
    destruct (heap w2 !! l0) as [d0|] eqn:Hd0; [|done].
    apply wp_ret. split; [by apply draw_inv_set_heap | done].
  - split; [apply G0 | intros name Hn; by apply elem_of_nil in Hn].
  - (* after the first loop *)
    intros snap_ldicts w2 [Hinv Hkeys]. simpl in Hkeys.
    apply wp_bind. unfold wp at 1, print_epoch_loss.
    destruct loss as [a| |]; [|by apply Hpost..].
    destruct (decide (ndim a = 0)); [|by apply Hpost].
    eapply wp_mono;
      [ apply (wp_for_each (fun w' => draw_inv w h1 pind targ w')
                 (fun _ w' => draw_inv w h1 pind targ w'))
      | | by intros ???; simpl in *; eauto ].
    + intros [img_dict layer_name] w3 _ Hinv3.
      apply wp_for_each; [|done].
      intros [k img] w4 _ Hinv4. by apply draw_image_inv.
    + by apply draw_inv_stdout.
    + intros [] w' Hinv'. split; [by apply Hpost|].
      exists logs, l, snap. split_and!; try done.
      intros k. unfold expected_keys. rewrite elem_of_app.
      intros [Hk|Hk].
      * repeat (apply elem_of_cons in Hk as [->|Hk]; [by eauto|]).
        by apply elem_of_nil in Hk.
      * apply elem_of_filter_bool in Hk as [Hk Hne%bool_decide_eq_true].
        by apply Hkeys.
Qed.

End DrawInvariant.

Section DrawTheorems.
Context `{Environment}.

(** The world at the end of a call, in terms of the loaded heap. *)
Lemma draw_layers_post (runlog_path : string) (img_dicts : list (odict nat))
    (layer_names : list string) (colormap : string) (vrange : Z * Z)
    (tind pind : Z) (w : world) :
  draw_post w (heap (call_load_test_data runlog_path w).2) pind
    (_draw_layers runlog_path img_dicts layer_names colormap vrange tind pind w).2.
Proof.
  unfold call_load_test_data.
  destruct (load_test_data (fs w) runlog_path (heap w)) as [o h1] eqn:Hload. simpl.
  pose proof (draw_layers_invariant runlog_path img_dicts layer_names colormap vrange
                tind pind w o h1 Hload) as Hwp.
  apply wp_run in Hwp.
  destruct (_draw_layers _ _ _ _ _ _ _ w) as [[[]|e] w']; simpl in *; [apply Hwp | done].
Qed.

(** C1. After any call of [_draw_layers], whatever its outcome, the
    array shown by an image is the one it showed before the call, or it
    is a tensor of the loaded log put through the permitted steps only:
    transposed if its key is 'weights', given a second axis of length 1
    if its key contains 'biases', and then, if it has more than two
    axes, indexed at [pind] and transposed unless its key is 'input_'.
    In the second case the image shows the very buffer of the tensor,
    and every element it displays is an element of the tensor. *)
Theorem draw_layers_only_views (runlog_path : string) (img_dicts : list (odict nat))
    (layer_names : list string) (colormap : string) (vrange : Z * Z)
    (tind pind : Z) (w : world) (id : nat) (im : image) :
  images (_draw_layers runlog_path img_dicts layer_names colormap vrange tind pind w).2
    !! id = Some im ->
  (exists im0, images w !! id = Some im0 /\ img_data im = img_data im0) \/
  (exists k d,
     tensor_at (heap (call_load_test_data runlog_path w).2) k d /\
     view_of k pind d (img_data im) /\
     nd_buf (img_data im) = nd_buf d /\
     forall idx x, nd_get (img_data im) idx = Some x ->
       exists idx0, nd_get d idx0 = Some x).
Proof.
  intros Hid.
  destruct (draw_layers_post runlog_path img_dicts layer_names colormap vrange tind pind w)
    as (targ & (_ & _ & Himgs) & _).
  destruct (Himgs id im Hid) as [Hold|(k & d & Ht & Hv)]; [by left|].
  right. exists k, d. split_and!; [done | done | by eapply view_of_buf |].
  intros idx x Hx. by eapply view_of_elements.
Qed.

(** ** What the other functions leave alone *)







(** ** Exceptions *)

Lemma make_logs_widget_fault (log_path : string) (layout : Layout) (w : world) (e : exn) :
  logs_fault w log_path e -> _make_logs_widget log_path layout w = (Raise e, w).
Proof.
  intros [e' Hls|names Hls Hnone]; unfold _make_logs_widget, bind, read_fs, lift.
  - by rewrite Hls.
  - rewrite Hls, Hnone. by rewrite getitem_list_nil.
Qed.

(** C2. No function of the module handles an exception.  When the log
    directory cannot be listed, or lists no name with '.pkl',
    [_make_logs_widget] ends with that exception (an IndexError in the
    second case) and so does its caller [view_layers]; when
    [load_test_data] raises, [_draw_layers] ends with the same
    exception; and when the loaded snapshot lacks a key that
    [_draw_layers] reads, [_draw_layers] ends with an exception.  In no
    case is a value returned. *)
Theorem exceptions_propagate (w : world) :
  (forall log_path layout mode e,
     logs_fault w log_path e ->
     _make_logs_widget log_path layout w = (Raise e, w) /\
     view_layers log_path mode w = (Raise e, w)) /\
  (forall runlog_path img_dicts layer_names colormap vrange tind pind o h1,
     load_test_data (fs w) runlog_path (heap w) = (o, h1) ->
     draw_fault o h1 layer_names tind ->
     exists e w',
       _draw_layers runlog_path img_dicts layer_names colormap vrange tind pind w
         = (Raise e, w') /\
       forall e0, o = Raise e0 -> e = e0 /\ w' = with_heap h1 w).
Proof.
  split.
  - intros log_path layout mode e Hfault. split; [by apply make_logs_widget_fault|].
    unfold view_layers. cbv zeta. apply bind_Raise. by apply make_logs_widget_fault.
  - intros runlog_path img_dicts layer_names colormap vrange tind pind o h1 Hload Hfault.
    destruct Hfault as [e0 ->|logs l snap k -> Hsnap Hl Hk Hnone].
    + exists e0, (with_heap h1 w). split; [|by intros ? [= <-]].
      unfold _draw_layers. apply bind_Raise. unfold call_load_test_data. by rewrite Hload.
    + pose proof (draw_layers_invariant runlog_path img_dicts layer_names colormap vrange
                    tind pind w (Ok logs) h1 Hload) as Hwp.
      unfold wp in Hwp.
      destruct (_draw_layers _ _ _ _ _ _ _ w) as [[[]|e] w'].
      * destruct Hwp as (_ & logs' & l' & snap' & [= <-] & Hsnap' & Hl' & Hkeys).
        rewrite Hsnap in Hsnap'. injection Hsnap' as <-.
        rewrite Hl in Hl'. injection Hl' as <-.
        destruct (Hkeys k Hk) as [x Hx]. congruence.
      * exists e, w'. split; [done | by intros ? [=]].
Qed.

End DrawTheorems.

Section DrawTotal.
Context `{Environment}.




End DrawTotal.
(* ===================================================================== *)
(** * [_draw_layers]: indices, the printed line and the images *)
(* ===================================================================== *)

Section DrawEdges.
Context `{Environment}.

Lemma norm_index_None (i : Z) (n : nat) : ~ index_of i n -> norm_index i n = None.
Proof.
  unfold index_of, norm_index. intros Hi.
  destruct (0 <=? i)%Z eqn:E1, (i <? Z.of_nat n)%Z eqn:E2,
    (- Z.of_nat n <=? i)%Z eqn:E3, (i <? 0)%Z eqn:E4; simpl; try done; lia.
Qed.

Lemma norm_index_wrap (i : Z) (n : nat) :
  (- Z.of_nat n <= i < 0)%Z -> norm_index i n = norm_index (Z.of_nat n + i) n.
Proof.
  intros Hi. unfold norm_index.
  destruct (0 <=? i)%Z eqn:E1; [lia|]. simpl.
  destruct (- Z.of_nat n <=? i)%Z eqn:E3; [|lia].
  destruct (i <? 0)%Z eqn:E4; [|lia]. simpl.
  destruct (0 <=? Z.of_nat n + i)%Z eqn:E5; [|lia].
  destruct (Z.of_nat n + i <? Z.of_nat n)%Z eqn:E6; [|lia]. done.
Qed.

Lemma norm_index_index_of (i : Z) (n j : nat) : norm_index i n = Some j -> index_of i n.
Proof.
  unfold index_of, norm_index.
  destruct (0 <=? i)%Z eqn:E1, (i <? Z.of_nat n)%Z eqn:E2,
    (- Z.of_nat n <=? i)%Z eqn:E3, (i <? 0)%Z eqn:E4; simpl; try done; lia.
Qed.

Lemma getitem_list_out_of_range {A : Type} (l : list A) (i : Z) :
  ~ index_of i (length l) -> getitem_list l i = Raise IndexError.
Proof. intros Hi. unfold getitem_list. by rewrite norm_index_None. Qed.

Lemma getitem_out_of_range {A : Type} (a : ndarray A) (i : Z) (n : nat) (rest : list nat) :
  shape a = n :: rest -> ~ index_of i n -> getitem a i = Raise IndexError.
Proof.
  unfold shape, getitem. destruct (nd_axes a) as [|[m t] axes]; [done|].
  simpl. intros [= -> _] Hi. by rewrite norm_index_None.
Qed.

(** X11. A step index that is no index of the loaded log, from the
    front or from the back, ends [_draw_layers] in an IndexError before
    anything is printed, drawn or written: the world is the one after
    loading. *)
Theorem draw_layers_step_out_of_range (runlog_path : string) (img_dicts : list (odict nat))
    (layer_names : list string) (colormap : string) (vrange : Z * Z)
    (tind pind : Z) (w : world) (logs : list value) (h1 : pyheap) :
  load_test_data (fs w) runlog_path (heap w) = (Ok logs, h1) ->
  ~ index_of tind (length logs) ->
  _draw_layers runlog_path img_dicts layer_names colormap vrange tind pind w
    = (Raise IndexError, with_heap h1 w).
Proof.
  intros Hload Hi. unfold _draw_layers, bind, call_load_test_data, lift.
  by rewrite Hload, getitem_list_out_of_range.
Qed.

(** X12. A negative step index counts from the end of the log: the
    call with a [tind] from [-len(log)] to [-1] is the call with
    [len(log) + tind]. *)
Theorem draw_layers_negative_step (runlog_path : string) (img_dicts : list (odict nat))
    (layer_names : list string) (colormap : string) (vrange : Z * Z)
    (tind pind : Z) (w : world) (logs : list value) (h1 : pyheap) :
  load_test_data (fs w) runlog_path (heap w) = (Ok logs, h1) ->
  (- Z.of_nat (length logs) <= tind < 0)%Z ->
  _draw_layers runlog_path img_dicts layer_names colormap vrange tind pind w
  = _draw_layers runlog_path img_dicts layer_names colormap vrange
      (Z.of_nat (length logs) + tind) pind w.
Proof.
  intros Hload Hi. unfold _draw_layers, bind, call_load_test_data, lift.
  rewrite Hload. unfold getitem_list. by rewrite (norm_index_wrap tind).
Qed.

(** X13. A pattern index that is no index of 'loss', from the front or
    from the back, ends [_draw_layers] in an IndexError before anything
    is printed or drawn and before any dictionary is written to. *)
Theorem draw_layers_pattern_out_of_range (runlog_path : string)
    (img_dicts : list (odict nat)) (layer_names : list string) (colormap : string)
    (vrange : Z * Z) (tind pind : Z) (w : world) (logs : list value) (h1 : pyheap)
    (l : nat) (snap : gmap string value) (enum : value) (losses : ndarray scalar)
    (patterns : nat) (rest : list nat) :
  load_test_data (fs w) runlog_path (heap w) = (Ok logs, h1) ->
  getitem_list logs tind = Ok (VRef l) ->
  h1 !! l = Some snap ->
  snap !! "enum" = Some enum ->
  snap !! "loss" = Some (VArr losses) ->
  shape losses = patterns :: rest ->
  ~ index_of pind patterns ->
  _draw_layers runlog_path img_dicts layer_names colormap vrange tind pind w
    = (Raise IndexError, with_heap h1 w).
Proof.
  intros Hload Hsnap Hl Henum Hloss Hshape Hi.
  unfold _draw_layers, bind, call_load_test_data, lift, getitem_str.
  rewrite Hload, Hsnap. simpl. unfold getitem_map.
  rewrite Hl, Henum, Hloss. simpl.
  by rewrite (getitem_out_of_range _ _ _ _ Hshape Hi).
Qed.

End DrawEdges.

Section DrawTrace.
Context `{Environment}.

(** A loop whose invariant speaks of the items handled so far. *)
Lemma wp_for_each_prefix {A : Type} (I : list A -> world -> Prop)
    (R : exn -> world -> Prop) (l : list A) (body : A -> M unit) :
  (forall pre x w, x ∈ l -> I pre w ->
     wp (body x) (fun _ w1 => I (pre ++ [x]) w1) R w) ->
  forall pre w, I pre w -> wp (for_each l body) (fun _ w' => I (pre ++ l) w') R w.
Proof.
  induction l as [|x l IH]; intros Hbody pre w Hw; simpl.
  - apply wp_ret. by rewrite app_nil_r.
  - apply wp_bind.
    eapply wp_mono; [apply (Hbody pre x w); [apply list_elem_of_here | done] | | done].
    intros [] w1 Hw1. simpl.
    replace (pre ++ x :: l) with ((pre ++ [x]) ++ l) by (by rewrite <- app_assoc).
    apply IH; [|done]. intros pre' y w2 Hy. apply Hbody. by apply list_elem_of_further.
Qed.

(** One pass of the inner loop body: it raises before it has touched
    anything, or it replaces the image [img] by one that shows some array
    with the colormap and the limits of the call. *)
Lemma draw_image_step (snap_ldicts : gmap string value) (layer_name colormap : string)
    (vrange : Z * Z) (pind : Z) (k : string) (img : nat) (w2 : world) :
  wp (let* ldict := lift (getitem_map snap_ldicts layer_name) in
      let* data := getitem_str ldict k in
      let* data := lift (if decide (k = "weights") then attr_T data else Ok data) in
      let* data := lift (if str_in "biases" k then np_expand_dims1 data else Ok data) in
      let* nd := lift (attr_ndim data) in
      let* data :=
        if decide (2 < nd) then
          let* data := lift (getitem_int data pind) in
          lift (if decide (k <> "input_") then attr_T data else Ok data)
        else ret data in
      set_data img data ;;
      set_cmap img colormap ;;
      set_vmin img vrange.1 ;;
      set_vmax img vrange.2)
    (fun _ w' => exists a,
       w' = with_images
              (alter (fun _ => Image a (Some colormap) (Some vrange.1) (Some vrange.2))
                 img (images w2)) w2)
    (fun _ w' => w' = w2) w2.
Proof.
  apply wp_bind, wp_lift. destruct (getitem_map snap_ldicts layer_name) as [ldict|e]; [|done].
  apply wp_bind, wp_getitem_str.
  destruct (lookup_str (heap w2) ldict k) as [data|e] eqn:Hdata; [|done].
  unfold wp. rewrite data_steps. unfold bind at 1. unfold lift at 1.
  destruct (prepare k pind data) as [shown|e] eqn:Hprep; [|done].
  apply prepare_Ok in Hprep as (d & d' & -> & -> & Hview).
  unfold bind, set_data, set_cmap, set_vmin, set_vmax, update_image. simpl.
  exists d'. unfold with_images. simpl. f_equal.
  by rewrite !list_alter_alter_eq.
Qed.

Lemma alter_styled (colormap : string) (vrange : Z * Z) (a : ndarray scalar)
    (imgs : list image) (img id : nat) (im : image) :
  alter (fun _ => Image a (Some colormap) (Some vrange.1) (Some vrange.2)) img imgs !! id
    = Some im ->
  (id = img /\ styled colormap vrange im) \/ (id <> img /\ imgs !! id = Some im).
Proof.
  destruct (decide (id = img)) as [->|Hne].
  - rewrite list_lookup_alter_eq. destruct (imgs !! img); [|done].
    intros [= <-]. by left.
  - rewrite list_lookup_alter_ne by done. by right.
Qed.

(** The run of [_draw_layers] seen from the figure and the output: only
    images of the paired grids change, at most one line is printed, and
    when the call returns the line carries 'enum' and the loss of the
    pattern, and every image of a paired grid has the colormap and the
    limits of the call. *)
Lemma draw_layers_trace (runlog_path : string) (img_dicts : list (odict nat))
    (layer_names : list string) (colormap : string) (vrange : Z * Z)
    (tind pind : Z) (w : world) (o : outcome (list value)) (h1 : pyheap) :
  load_test_data (fs w) runlog_path (heap w) = (o, h1) ->
  wp (_draw_layers runlog_path img_dicts layer_names colormap vrange tind pind)
    (fun _ w' =>
       draws_within img_dicts layer_names w w' /\
       (forall id im, drawn_on img_dicts layer_names id -> images w' !! id = Some im ->
          styled colormap vrange im) /\
       exists logs l snap enum losses loss,
         o = Ok logs /\ getitem_list logs tind = Ok (VRef l) /\ h1 !! l = Some snap /\
         snap !! "enum" = Some enum /\ snap !! "loss" = Some (VArr losses) /\
         getitem losses pind = Ok loss /\ ndim loss = 0 /\
         stdout w' = stdout w ++ [(enum, VArr loss)])
    (fun _ w' =>
       draws_within img_dicts layer_names w w' /\
       (stdout w' = stdout w \/ exists line, stdout w' = stdout w ++ [line])) w.
Proof.
  intros Hload. unfold _draw_layers.
  apply wp_bind. unfold wp at 1, call_load_test_data. rewrite Hload.
  set (w1 := with_heap h1 w).
  set (same := fun w' : world =>
         images w' = images w /\ stdout w' = stdout w /\
         tracebacks w' = tracebacks w /\ displayed w' = displayed w).
  assert (Hsame : forall w', same w' ->
            draws_within img_dicts layer_names w w' /\
            (stdout w' = stdout w \/ exists line, stdout w' = stdout w ++ [line])).
  { intros w' (Hi & Ho & Ht & Hd). unfold draws_within. rewrite Hi. auto 10. }
  assert (G1 : same w1) by done.
  destruct o as [logs|e]; [|by apply Hsame].
  apply wp_bind, wp_lift.
  destruct (getitem_list logs tind) as [snapv|e] eqn:Hsnap; [|by apply Hsame].
  apply wp_bind, wp_getitem_str.
  destruct (lookup_str (heap w1) snapv "enum") as [enum|e] eqn:Henum; [|by apply Hsame].
  apply wp_bind, wp_getitem_str.
  destruct (lookup_str (heap w1) snapv "loss") as [losses|e] eqn:Hloss; [|by apply Hsame].
  apply wp_bind, wp_lift.
  destruct (getitem_int losses pind) as [loss|e] eqn:Hl; [|by apply Hsame].
  apply wp_bind, wp_getitem_str.
  destruct (lookup_str (heap w1) snapv "target") as [targ|e] eqn:Htarg; [|by apply Hsame].
  apply lookup_str_Ok in Henum as (l & snap & -> & Hsnapd & Henum).
  apply lookup_str_Ok in Hloss as (? & ? & [= <-] & Hs' & Hloss).
  simpl in Hs', Hsnapd. rewrite Hsnapd in Hs'. injection Hs' as <-.
  apply getitem_int_Ok in Hl as (losses' & loss' & -> & -> & Hl).
  apply wp_bind.
  eapply wp_mono;
    [ apply (wp_for_fold (fun _ (_ : gmap string value) w2 => same w2)
               (fun _ w' => same w')) with (pre := [])
    | | by intros ???; simpl in *; apply Hsame ].
  - (* the first loop only writes to the heap *)
    intros pre name s w2 _ Hw2.
    apply wp_bind, wp_getitem_str.
    destruct (lookup_str (heap w2) (VRef l) name) as [ldict|e]; [|done].
    apply wp_bind, wp_lift. unfold getitem_map. rewrite lookup_insert_eq.
    apply wp_bind. unfold wp at 1, setitem_str.
    destruct ldict as [a|l0|r]; [done| |done].
    destruct (heap w2 !! l0) as [d0|]; [|done].
    by apply wp_ret.
  - done.
  - intros snap_ldicts w2 (Hi2 & Ho2 & Ht2 & Hd2). simpl.
    apply wp_bind. unfold wp at 1, print_epoch_loss.
    destruct (decide (ndim loss' = 0)) as [Hnd|Hnd]; [|by apply Hsame].
    set (line := (enum, VArr loss')).
    set (w3 := with_stdout (stdout w2 ++ [line]) w2).
    set (base := fun w' : world =>
           draws_within img_dicts layer_names w w' /\ stdout w' = stdout w ++ [line]).
    assert (Hbase3 : base w3).
    { unfold base, draws_within, w3. simpl. rewrite Hi2, Ho2. auto 10. }
    eapply wp_mono;
      [ apply (wp_for_each_prefix
                 (fun (pre : list (odict nat * string)) w' =>
                    base w' /\
                    forall g name k id im, (g, name) ∈ pre -> (k, id) ∈ g ->
                      images w' !! id = Some im -> styled colormap vrange im)
                 (fun _ w' => base w')) with (pre := [])
      | | ].
    + intros pre [img_dict layer_name] w4 Hzip [Hb4 Hst4].
      eapply wp_mono;
        [ apply (wp_for_each_prefix
                   (fun (pre' : odict nat) w' =>
                      base w' /\
                      (forall g name k id im, (g, name) ∈ pre -> (k, id) ∈ g ->
                         images w' !! id = Some im -> styled colormap vrange im) /\
                      forall k id im, (k, id) ∈ pre' ->
                        images w' !! id = Some im -> styled colormap vrange im)
                   (fun _ w' => base w')) with (pre := [])
        | | by intros ???; simpl in *; eauto ].
      * intros pre' [k img] w5 Hk (Hb5 & Hst5 & Hin5).
        eapply wp_mono; [apply draw_image_step | | by intros ? ? ->].
        intros [] w6 [a ->]. simpl.
        destruct Hb5 as ((Hlen & Hframe & Htb & Hdisp) & Hout).
        split_and!.
        -- split; [|done]. unfold draws_within. simpl.
           rewrite length_alter. split_and!; try done.
           intros id Hid. rewrite <- (Hframe id Hid).
           apply list_lookup_alter_ne. intros ->. apply Hid.
           by exists img_dict, layer_name, k.
        -- intros g name k' id im Hg Hk' Hid.
           apply alter_styled in Hid as [[_ ?]|[_ Hid]]; [done | by eapply Hst5].
        -- intros k' id im [Hk'|[= -> ->]%list_elem_of_singleton]%elem_of_app Hid;
             apply alter_styled in Hid as [[? ?]|[? Hid]]; try done.
           by eapply Hin5.
      * split_and!; [done | done |]. intros k id im Hk. by apply elem_of_nil in Hk.
      * intros [] w5 (Hb5 & Hst5 & Hin5). simpl in Hin5. split; [done|].
        intros g name k id im [Hg|[= -> ->]%list_elem_of_singleton]%elem_of_app Hk Hid.
        -- by eapply Hst5.
        -- by eapply Hin5.
    + split; [done|]. intros g name k id im Hg. by apply elem_of_nil in Hg.
    + intros [] w' [[Hw' Hout] Hst]. simpl in Hst. split_and!; [done | |].
      * intros id im (g & name & k & Hg & Hk) Hid. by eapply Hst.
      * exists logs, l, snap, enum, losses', loss'. by split_and!.
    + intros e w' [Hw' Hout]. split; [done|]. right. by exists line.
Qed.

End DrawTrace.

Section DrawOutcome.
Context `{Environment}.

(** Whatever its outcome, a call changes the figure only inside the
    paired grids and prints at most one line. *)
Lemma draw_layers_within (runlog_path : string) (img_dicts : list (odict nat))
    (layer_names : list string) (colormap : string) (vrange : Z * Z)
    (tind pind : Z) (w : world) :
  let w' := (_draw_layers runlog_path img_dicts layer_names colormap vrange tind pind w).2 in
  draws_within img_dicts layer_names w w' /\
  (stdout w' = stdout w \/ exists line, stdout w' = stdout w ++ [line]).
Proof.
  intros w'.
  destruct (load_test_data (fs w) runlog_path (heap w)) as [o h1] eqn:Hload.
  pose proof (draw_layers_trace runlog_path img_dicts layer_names colormap vrange
                tind pind w o h1 Hload) as Hwp.
  apply wp_run in Hwp. fold w' in Hwp.
  destruct (_draw_layers _ _ _ _ _ _ _ w).1; [|done].
  destruct Hwp as (Hin & _ & logs & l & snap & enum & losses & loss & Hrest).
  split; [done|]. right. exists (enum, VArr loss). apply Hrest.
Qed.

(** X10. When [_draw_layers] returns, it has printed exactly one line,
    with the 'enum' of the snapshot at [tind] and the entry of its
    'loss' at [pind], which is a number. *)
Theorem draw_layers_prints_epoch_and_loss (runlog_path : string)
    (img_dicts : list (odict nat)) (layer_names : list string) (colormap : string)
    (vrange : Z * Z) (tind pind : Z) (w w' : world) :
  _draw_layers runlog_path img_dicts layer_names colormap vrange tind pind w = (Ok tt, w') ->
  exists logs h1 l snap enum losses loss,
    load_test_data (fs w) runlog_path (heap w) = (Ok logs, h1) /\
    getitem_list logs tind = Ok (VRef l) /\ h1 !! l = Some snap /\
    snap !! "enum" = Some enum /\ snap !! "loss" = Some (VArr losses) /\
    getitem losses pind = Ok loss /\ ndim loss = 0 /\
    stdout w' = stdout w ++ [(enum, VArr loss)].
Proof.
  intros Hrun.
  destruct (load_test_data (fs w) runlog_path (heap w)) as [o h1] eqn:Hload.
  pose proof (draw_layers_trace runlog_path img_dicts layer_names colormap vrange
                tind pind w o h1 Hload) as Hwp.
  unfold wp in Hwp. rewrite Hrun in Hwp.
  destruct Hwp as (_ & _ & logs & l & snap & enum & losses & loss & -> & Hrest).
  by exists logs, h1, l, snap, enum, losses, loss.
Qed.

(** X9. Whatever its outcome, a call of [_draw_layers] adds and
    removes no image and leaves every image that is not filed in a
    paired grid as it was, in particular the images of the grids beyond
    the number of layer names, which [zip] drops.  It shows no
    traceback, displays nothing and prints at most one line. *)
Theorem draw_layers_touches_only_its_grids (runlog_path : string)
    (img_dicts : list (odict nat)) (layer_names : list string) (colormap : string)
    (vrange : Z * Z) (tind pind : Z) (w : world) :
  let w' := (_draw_layers runlog_path img_dicts layer_names colormap vrange tind pind w).2 in
  length (images w') = length (images w) /\
  (forall id, ~ drawn_on img_dicts layer_names id -> images w' !! id = images w !! id) /\
  (forall i g k id, length layer_names <= i -> img_dicts !! i = Some g -> (k, id) ∈ g ->
     (forall j g' k', j < length layer_names -> img_dicts !! j = Some g' -> (k', id) ∉ g') ->
     images w' !! id = images w !! id) /\
  tracebacks w' = tracebacks w /\
  displayed w' = displayed w /\
  (stdout w' = stdout w \/ exists line, stdout w' = stdout w ++ [line]).
Proof.
  intros w'.
  destruct (draw_layers_within runlog_path img_dicts layer_names colormap vrange
              tind pind w) as [(Hlen & Hframe & Htb & Hdisp) Hout].
  fold w' in Hlen, Hframe, Htb, Hdisp, Hout. split_and!; try done.
  intros i g k id Hi Hg Hk Hother. apply Hframe.
  intros (g' & name & k' & Hzip & Hk').
  apply list_elem_of_lookup in Hzip as [j Hj].
  apply lookup_zip_with_Some in Hj as (g'' & name' & [= <- <-] & Hj1 & Hj2).
  apply lookup_lt_Some in Hj2. by apply (Hother j g' k').
Qed.

(** X8. When [_draw_layers] returns, every image that is filed in a
    grid paired with a layer name has the colormap of the call and the
    limits [vrange[0]] and [vrange[1]]: all panels share one colour
    scale. *)
Theorem draw_layers_styles_all_panels (runlog_path : string)
    (img_dicts : list (odict nat)) (layer_names : list string) (colormap : string)
    (vrange : Z * Z) (tind pind : Z) (w w' : world) :
  _draw_layers runlog_path img_dicts layer_names colormap vrange tind pind w = (Ok tt, w') ->
  forall i g name k id im,
    img_dicts !! i = Some g -> layer_names !! i = Some name -> (k, id) ∈ g ->
    images w' !! id = Some im ->
    img_cmap im = Some colormap /\
    img_vmin im = Some vrange.1 /\
    img_vmax im = Some vrange.2.
Proof.
  intros Hrun i g name k id im Hg Hname Hk Hid.
  destruct (load_test_data (fs w) runlog_path (heap w)) as [o h1] eqn:Hload.
  pose proof (draw_layers_trace runlog_path img_dicts layer_names colormap vrange
                tind pind w o h1 Hload) as Hwp.
  unfold wp in Hwp. rewrite Hrun in Hwp. destruct Hwp as (_ & Hst & _).
  apply (Hst id im); [|done].
  exists g, name, k. split; [|done].
  apply list_elem_of_lookup. exists i. apply lookup_zip_with_Some. eauto.
Qed.

End DrawOutcome.
(* ===================================================================== *)
(** * What each panel shows *)
(* ===================================================================== *)

Section PanelViews.
Context `{Environment}.

Lemma ndim_shape {A : Type} (a : ndarray A) : ndim a = length (shape a).
Proof. unfold ndim, shape. by rewrite length_fmap. Qed.

Lemma expand_dims1_shape {A : Type} (a : ndarray A) (n : nat) (s : list nat) :
  shape a = n :: s ->
  exists a', expand_dims1 a = Ok a' /\ shape a' = n :: 1 :: s /\
    forall i idx, nd_get a' (i :: 0 :: idx) = nd_get a (i :: idx).
Proof.
  intros Hs. destruct (expand_dims1 a) as [a'|e] eqn:E.
  - destruct (expand_dims1_Ok a a' E) as (_ & (n' & s' & Hs' & Hs'') & Hget & _).
    rewrite Hs in Hs'. injection Hs' as <- <-. eauto.
  - unfold expand_dims1, shape in *. by destruct (nd_axes a).
Qed.

Lemma getitem_shape {A : Type} (a : ndarray A) (i : Z) (n j : nat) (s : list nat) :
  shape a = n :: s -> norm_index i n = Some j ->
  exists a', getitem a i = Ok a' /\ shape a' = s /\
    forall idx, nd_get a' idx = nd_get a (j :: idx).
Proof.
  intros Hs Hi. destruct (getitem a i) as [a'|e] eqn:E.
  - destruct (getitem_Ok a i a' E) as (_ & n' & s' & j' & Hs' & Hs'' & Hi' & Hget).
    rewrite Hs in Hs'. injection Hs' as <- <-.
    rewrite Hi in Hi'. injection Hi' as <-. eauto.
  - unfold getitem, shape in *. destruct (nd_axes a) as [|[m t] axes]; [done|].
    simpl in Hs. injection Hs as -> _. by rewrite Hi in E.
Qed.

(** The data steps on a tensor, in terms of arrays. *)
Lemma prepare_VArr (k : string) (pind : Z) (d : ndarray scalar) :
  prepare k pind (VArr d) =
  match (if str_in "biases" k
         then expand_dims1 (if decide (k = "weights") then transpose d else d)
         else Ok (if decide (k = "weights") then transpose d else d)) with
  | Ok d2 =>
      if decide (2 < ndim d2) then
        match getitem d2 pind with
        | Ok d3 => Ok (VArr (if decide (k <> "input_") then transpose d3 else d3))
        | Raise e => Raise e
        end
      else Ok (VArr d2)
  | Raise e => Raise e
  end.
Proof.
  unfold prepare.
  destruct (decide (k = "weights")), (str_in "biases" k); simpl;
    repeat first [ done | case_decide | case_match; simplify_eq/= ].
Qed.

(** X7. What the data steps of lines 166-173 ([prepare]) make of the
    usual tensors.  A matrix under 'weights' is shown transposed.  A
    vector under a key that contains 'biases' is shown as a column, a
    [P x n] matrix under such a key as the column of the pattern.  A
    [P x r x c] tensor is shown under 'input_' as the [r x c] matrix of
    the pattern and under any other key as the transpose of it.  A
    tensor with three axes under 'weights' is indexed by the pattern
    along its last axis and shown as it is.  A weight matrix and a bias
    vector are shown the same for every pattern. *)
Theorem draw_layers_panel_views (pind : Z) (d : ndarray scalar) :
  (forall a b, shape d = [a; b] ->
     exists d', prepare "weights" pind (VArr d) = Ok (VArr d') /\
       shape d' = [b; a] /\
       forall i j, nd_get d' [i; j] = nd_get d [j; i]) /\
  (forall k n, str_in "biases" k = true -> shape d = [n] ->
     exists d', prepare k pind (VArr d) = Ok (VArr d') /\
       shape d' = [n; 1] /\
       forall i, nd_get d' [i; 0] = nd_get d [i]) /\
  (forall k P n p, str_in "biases" k = true -> shape d = [P; n] ->
     norm_index pind P = Some p ->
     exists d', prepare k pind (VArr d) = Ok (VArr d') /\
       shape d' = [n; 1] /\
       forall i, nd_get d' [i; 0] = nd_get d [p; i]) /\
  (forall P r c p, shape d = [P; r; c] -> norm_index pind P = Some p ->
     exists d', prepare "input_" pind (VArr d) = Ok (VArr d') /\
       shape d' = [r; c] /\
       forall i j, nd_get d' [i; j] = nd_get d [p; i; j]) /\
  (forall k P r c p, k <> "weights" -> k <> "input_" -> str_in "biases" k = false ->
     shape d = [P; r; c] -> norm_index pind P = Some p ->
     exists d', prepare k pind (VArr d) = Ok (VArr d') /\
       shape d' = [c; r] /\
       forall i j, nd_get d' [i; j] = nd_get d [p; j; i]) /\
  (forall a b c p, shape d = [a; b; c] -> norm_index pind c = Some p ->
     exists d', prepare "weights" pind (VArr d) = Ok (VArr d') /\
       shape d' = [a; b] /\
       forall i j, nd_get d' [i; j] = nd_get d [i; j; p]).
Proof.
  assert (Hw : str_in "biases" "weights" = false) by reflexivity.
  assert (Hi : str_in "biases" "input_" = false) by reflexivity.
  split_and!.
  - intros a b Hs. exists (transpose d).
    rewrite prepare_VArr, Hw. rewrite (decide_True (P := "weights" = "weights")) by done.
    rewrite (decide_False (P := 2 < _)) by (rewrite ndim_transpose, ndim_shape, Hs; simpl; lia).
    split_and!; [done | by rewrite shape_transpose, Hs |].
    intros i j. by rewrite nd_get_transpose.
  - intros k n Hk Hs.
    destruct (expand_dims1_shape d n [] Hs) as (d' & He & Hs' & Hget).
    exists d'. rewrite prepare_VArr, Hk.
    rewrite (decide_False (P := k = "weights")) by (intros ->; by rewrite Hw in Hk).
    rewrite He.
    rewrite (decide_False (P := 2 < _)) by (rewrite ndim_shape, Hs'; simpl; lia).
    split_and!; [done | done | intros i; apply Hget].
  - intros k P n p Hk Hs Hp.
    destruct (expand_dims1_shape d P [n] Hs) as (d1 & He & Hs1 & Hget1).
    destruct (getitem_shape d1 pind P p [1; n] Hs1 Hp) as (d2 & Hg & Hs2 & Hget2).
    exists (transpose d2). rewrite prepare_VArr, Hk.
    rewrite (decide_False (P := k = "weights")) by (intros ->; by rewrite Hw in Hk).
    rewrite He.
    rewrite (decide_True (P := 2 < _)) by (rewrite ndim_shape, Hs1; simpl; lia).
    rewrite Hg.
    rewrite (decide_True (P := k <> "input_")) by (intros ->; by rewrite Hi in Hk).
    split_and!; [done | by rewrite shape_transpose, Hs2 |].
    intros i. rewrite nd_get_transpose. change (reverse [i; 0]) with [0; i].
    by rewrite Hget2, Hget1.
  - intros P r c p Hs Hp.
    destruct (getitem_shape d pind P p [r; c] Hs Hp) as (d2 & Hg & Hs2 & Hget2).
    exists d2. rewrite prepare_VArr, Hi.
    rewrite (decide_False (P := "input_" = "weights")) by done.
    rewrite (decide_True (P := 2 < _)) by (rewrite ndim_shape, Hs; simpl; lia).
    rewrite Hg.
    rewrite (decide_False (P := "input_" <> "input_")) by (intros Hne; by apply Hne).
    split_and!; [done | done | intros i j; apply Hget2].
  - intros k P r c p Hkw Hki Hk Hs Hp.
    destruct (getitem_shape d pind P p [r; c] Hs Hp) as (d2 & Hg & Hs2 & Hget2).
    exists (transpose d2). rewrite prepare_VArr, Hk.
    rewrite (decide_False (P := k = "weights")) by done.
    rewrite (decide_True (P := 2 < _)) by (rewrite ndim_shape, Hs; simpl; lia).
    rewrite Hg. rewrite (decide_True (P := k <> "input_")) by done.
    split_and!; [done | by rewrite shape_transpose, Hs2 |].
    intros i j. rewrite nd_get_transpose. change (reverse [i; j]) with [j; i].
    apply Hget2.
  - intros a b c p Hs Hp.
    assert (Hs1 : shape (transpose d) = [c; b; a]) by (by rewrite shape_transpose, Hs).
    destruct (getitem_shape (transpose d) pind c p [b; a] Hs1 Hp) as (d2 & Hg & Hs2 & Hget2).
    exists (transpose d2). rewrite prepare_VArr, Hw.
    rewrite (decide_True (P := "weights" = "weights")) by done.
    rewrite (decide_True (P := 2 < _)) by (rewrite ndim_shape, Hs1; simpl; lia).
    rewrite Hg. rewrite (decide_True (P := "weights" <> "input_")) by done.
    split_and!; [done | by rewrite shape_transpose, Hs2 |].
    intros i j. rewrite nd_get_transpose. change (reverse [i; j]) with [j; i].
    rewrite Hget2. by rewrite nd_get_transpose.
Qed.

End PanelViews.
(* ===================================================================== *)
(** * The grids of [view_layers] *)
(* ===================================================================== *)

Section GridRun.
Context `{Environment}.

Lemma make_axes_grid_run (N subplot_ind : nat) (layer_name : string)
    (inp_size layer_size : nat) (mode : Z) (target : bool) (w : world) :
  _make_axes_grid N subplot_ind layer_name inp_size layer_size mode target w
  = (Ok (place (length (images w)) (ax_params_of inp_size layer_size mode target) []),
     with_images (images w ++ grid_images (ax_params_of inp_size layer_size mode target)) w).
Proof. unfold _make_axes_grid. cbv zeta. by rewrite image_loop. Qed.

Lemma ax_params_of_keys (inp_size layer_size : nat) (mode : Z) (target : bool) :
  od_keys (ax_params_of inp_size layer_size mode target) = panels mode target.
Proof.
  unfold ax_params_of, panels.
  destruct target, (Z.gtb_spec mode 0), (Z.gtb_spec mode 1); try lia; reflexivity.
Qed.

Lemma panels_NoDup (mode : Z) (target : bool) : NoDup (panels mode target).
Proof.
  unfold panels.
  destruct target, (mode >? 0)%Z, (mode >? 1)%Z;
    apply (bool_decide_unpack _); vm_compute; exact I.
Qed.

(** Filing fresh keys appends them, with consecutive identifiers. *)
Lemma place_fresh (n : nat) (params : odict ax_param) (d : odict nat) :
  NoDup (od_keys d ++ od_keys params) ->
  place n params d = d ++ zip (od_keys params) (seq n (length params)).
Proof.
  revert n d. induction params as [|[k p] params IH]; intros n d Hnd; simpl.
  - by rewrite app_nil_r.
  - unfold od_keys in *. simpl in Hnd.
    apply NoDup_app in Hnd as (Hd & Hdis & Hp).
    apply NoDup_cons in Hp as [Hk Hp].
    rewrite IH.
    + rewrite od_set_fresh by (intros Hin; apply (Hdis _ Hin); left).
      by rewrite <- app_assoc.
    + rewrite od_set_fresh by (intros Hin; apply (Hdis _ Hin); left).
      rewrite fmap_app. simpl. rewrite <- app_assoc. simpl.
      apply NoDup_app. split_and!; [done | | by apply NoDup_cons].
      intros x Hx [->|Hin]%elem_of_cons; [by apply (Hdis _ Hx); left|].
      apply (Hdis _ Hx). by right.
Qed.

Lemma make_axes_grid_ids (N subplot_ind : nat) (layer_name : string)
    (inp_size layer_size : nat) (mode : Z) (target : bool) (w : world) :
  exists grid imgs,
    _make_axes_grid N subplot_ind layer_name inp_size layer_size mode target w
      = (Ok grid, with_images (images w ++ imgs) w) /\
    od_keys grid = panels mode target /\
    grid.*2 = seq (length (images w)) (length imgs).
Proof.
  rewrite make_axes_grid_run.
  set (AX := ax_params_of inp_size layer_size mode target).
  exists (place (length (images w)) AX []), (grid_images AX).
  assert (Hnd : NoDup (od_keys (@nil (string * nat)) ++ od_keys AX)).
  { simpl. unfold AX. rewrite ax_params_of_keys. apply panels_NoDup. }
  rewrite (place_fresh _ _ _ Hnd). simpl.
  assert (Hlen : length (od_keys AX) = length (seq (length (images w)) (length AX))).
  { unfold od_keys. by rewrite length_fmap, length_seq. }
  split_and!; [done | |].
  - unfold od_keys at 1. rewrite fst_zip by lia. apply ax_params_of_keys.
  - rewrite snd_zip by lia. unfold grid_images. by rewrite length_fmap.
Qed.

End GridRun.

Section ViewRun.
Context `{Environment}.

Lemma norm_index_nat (i n : nat) : i < n -> norm_index (Z.of_nat i) n = Some i.
Proof.
  intros Hi. unfold norm_index.
  destruct (0 <=? Z.of_nat i)%Z eqn:E1; [|lia].
  destruct (Z.of_nat i <? Z.of_nat n)%Z eqn:E2; [|lia].
  simpl. by rewrite Nat2Z.id.
Qed.

Lemma getitem_list_lookup {A : Type} (l : list A) (i : nat) (x : A) :
  l !! i = Some x -> getitem_list l (Z.of_nat i) = Ok x.
Proof.
  intros Hx. unfold getitem_list.
  rewrite norm_index_nat by (by eapply lookup_lt_Some). by rewrite Hx.
Qed.

Lemma getitem_list_short {A : Type} (l : list A) (i : nat) :
  length l <= i -> getitem_list l (Z.of_nat i) = Raise IndexError.
Proof.
  intros Hi. unfold getitem_list, norm_index.
  destruct (0 <=? Z.of_nat i)%Z eqn:E1; [|lia].
  destruct (Z.of_nat i <? Z.of_nat (length l))%Z eqn:E2; [lia|]. simpl.
  destruct (Z.of_nat i <? 0)%Z eqn:E3; [lia|]. by rewrite andb_false_r.
Qed.

Lemma getitem_list_1 {A : Type} (a b : A) (l : list A) :
  getitem_list (a :: b :: l) 1 = Ok b.
Proof. exact (getitem_list_lookup (a :: b :: l) 1 b eq_refl). Qed.

Lemma grid_ids_snoc (axes : list (odict nat)) (grid : odict nat) :
  grid_ids (axes ++ [grid]) = grid_ids axes ++ grid.*2.
Proof. unfold grid_ids. rewrite fmap_app, concat_app. simpl. by rewrite app_nil_r. Qed.

(** The loop of lines 204-215: it returns when every layer has its two
    sizes, and then the grids file exactly the images that it has added
    to the figure, in order; otherwise it ends in the exception of a
    layer without its sizes.  Either way it only adds images. *)
Lemma grids_loop (layer_dims : gmap string (list nat)) (num_layers : nat) (mode : Z)
    (requests : list (nat * (string * bool))) (w : world) :
  wp (for_fold requests []
        (fun axes_dicts '(i, (layer_name, disp_targ)) =>
           let* dims := lift (getitem_map layer_dims layer_name) in
           let* inp_size := lift (getitem_list dims 0) in
           let* dims := lift (getitem_map layer_dims layer_name) in
           let* layer_size := lift (getitem_list dims 1) in
           let* grid :=
             _make_axes_grid num_layers i
               (underscores_to_spaces (str_upper layer_name))
               inp_size layer_size mode disp_targ in
           ret (axes_dicts ++ [grid])))
    (fun axes wb =>
       Forall (has_two_dims layer_dims) requests.*2.*1 /\
       Forall2 (fun (r : nat * (string * bool)) grid => od_keys grid = panels mode r.2.2)
         requests axes /\
       exists imgs, wb = with_images (images w ++ imgs) w /\
         grid_ids axes = seq (length (images w)) (length imgs))
    (fun e wb =>
       dims_fault layer_dims requests.*2.*1 e /\
       exists imgs, wb = with_images (images w ++ imgs) w) w.
Proof.
  eapply wp_mono;
    [ apply (wp_for_fold
               (fun pre axes wb =>
                  Forall (has_two_dims layer_dims) pre.*2.*1 /\
                  Forall2 (fun (r : nat * (string * bool)) grid =>
                             od_keys grid = panels mode r.2.2) pre axes /\
                  exists imgs, wb = with_images (images w ++ imgs) w /\
                    grid_ids axes = seq (length (images w)) (length imgs))
               (fun e wb =>
                  dims_fault layer_dims requests.*2.*1 e /\
                  exists imgs, wb = with_images (images w ++ imgs) w)) with (pre := [])
    | by intros ???; simpl in *; eauto | done ].
  - intros pre [i [name targ]] axes wb Hx (Hgood & Hkeys & imgs & -> & Hids).
    assert (Hname : name ∈ requests.*2.*1).
    { apply list_elem_of_fmap. exists (name, targ). split; [done|].
      apply list_elem_of_fmap. by exists (i, (name, targ)). }
    assert (Hhere : exists imgs0, with_images (images w ++ imgs) w
                                  = with_images (images w ++ imgs0) w) by eauto.
    apply wp_bind, wp_lift. unfold getitem_map.
    destruct (layer_dims !! name) as [ds|] eqn:Hds;
      [|split; [by apply no_dims | done]].
    apply wp_bind, wp_lift.
    destruct ds as [|inp_size ds];
      [split; [by apply (short_dims _ _ name []); [| |simpl; lia] | done]|].
    rewrite getitem_list_0.
    apply wp_bind, wp_lift.
    apply wp_bind, wp_lift.
    destruct ds as [|layer_size ds].
    { change (getitem_list [inp_size] 1) with (@Raise nat IndexError).
      split; [by apply (short_dims _ _ name [inp_size]); [| |simpl; lia] | done]. }
    rewrite getitem_list_1.
    apply wp_bind.
    destruct (make_axes_grid_ids num_layers i (underscores_to_spaces (str_upper name))
                inp_size layer_size mode targ (with_images (images w ++ imgs) w))
      as (grid & imgs' & Hrun & Hk & Hg).
    unfold wp at 1. rewrite Hrun. apply wp_ret.
    split_and!.
    + rewrite !fmap_app. apply Forall_app. split; [done|].
      apply Forall_singleton. by exists inp_size, layer_size, ds.
    + apply Forall2_app; [done|]. by apply Forall2_cons.
    + exists (imgs ++ imgs'). split.
      * unfold with_images. simpl. by rewrite <- app_assoc.
      * rewrite grid_ids_snoc, Hids, Hg. simpl.
        rewrite !length_app, seq_app. done.
  - split_and!; [done | done |]. exists []. split; [|done].
    unfold with_images. rewrite app_nil_r. by destruct w.
Qed.

Lemma snd_enumerate {A : Type} (l : list A) : (enumerate l).*2 = l.
Proof. unfold enumerate. rewrite snd_zip; [done|]. by rewrite length_seq. Qed.

Lemma length_enumerate {A : Type} (l : list A) : length (enumerate l) = length l.
Proof. by rewrite <- (snd_enumerate l) at 2; rewrite length_fmap. Qed.

Lemma fst_zip_disp_targs (names : list string) :
  (zip names (disp_targs_of names)).*1 = names.
Proof.
  apply fst_zip. unfold disp_targs_of, all_but_last.
  rewrite length_app, length_fmap, length_take. simpl. lia.
Qed.

Lemma requests_names (names : list string) :
  (enumerate (zip names (disp_targs_of names))).*2.*1 = names.
Proof. by rewrite snd_enumerate, fst_zip_disp_targs. Qed.

Lemma IntSlider_value_first_step (e0 : Z) (n : nat) (d : string) (c : bool) (l : Layout) :
  IntSlider_value
    {| is_value := e0; is_min := 0%Z; is_max := (Z.of_nat n - 1)%Z; is_step := 1%Z;
       is_description := d; is_continuous_update := c; is_layout := l |}
  = first_step e0 n.
Proof.
  unfold IntSlider_value, first_step. simpl.
  destruct (Z.of_nat n - 1 <? e0)%Z eqn:E1;
    [destruct (Z.of_nat n - 1 <? 0)%Z eqn:E2 | destruct (e0 <? 0)%Z eqn:E2]; lia.
Qed.

(** The rows of the panel are read back from the controls. *)
Lemma controls_rows (c1 c2 c3 c4 c5 c6 c7 : control) :
  let controls_dict : odict control :=
    [ ("runlog_path", c1); ("img_dicts", c2); ("layer_names", c3); ("colormap", c4);
      ("vrange", c5); ("tind", c6); ("pind", c7) ] in
  getitem_od controls_dict "runlog_path" = Ok c1 /\
  getitem_od controls_dict "pind" = Ok c7 /\
  getitem_od controls_dict "colormap" = Ok c4 /\
  getitem_od controls_dict "vrange" = Ok c5 /\
  getitem_od controls_dict "tind" = Ok c6.
Proof. by split_and!. Qed.

(** The observer of the controls of [view_layers] draws with the values
    of the five widgets. *)
Lemma observer_controls (rw cw : Dropdown) (axes : list (odict nat)) (names : list string)
    (vw : IntRangeSlider) (sw : IntSlider) (pw : Select) :
  observer
    [ ("runlog_path", Interactive (WDropdown rw));
      ("img_dicts", Fixed (AImgs axes));
      ("layer_names", Fixed (ANames names));
      ("colormap", Interactive (WDropdown cw));
      ("vrange", Interactive (WIntRangeSlider vw));
      ("tind", Interactive (WIntSlider sw));
      ("pind", Interactive (WSelect pw)) ]
  = captured (_draw_layers (dd_value rw) axes names (dd_value cw) (rs_value vw)
                (IntSlider_value sw) (sel_value pw)).
Proof. reflexivity. Qed.

(** A drawing inside the Output widget: the figure changes as a drawing
    changes it, and an exception ends up among the tracebacks. *)
Lemma captured_draw (runlog_path : string) (img_dicts : list (odict nat))
    (layer_names : list string) (colormap : string) (vrange : Z * Z)
    (tind pind : Z) (w : world) :
  let run := _draw_layers runlog_path img_dicts layer_names colormap vrange tind pind w in
  let w' := (captured (_draw_layers runlog_path img_dicts layer_names colormap vrange
                         tind pind) w).2 in
  length (images w') = length (images w) /\
  (forall id, ~ drawn_on img_dicts layer_names id -> images w' !! id = images w !! id) /\
  displayed w' = displayed w /\
  tracebacks w' = tracebacks w ++ match run.1 with Ok _ => [] | Raise e => [e] end.
Proof.
  intros run w'. unfold w', run, captured.
  destruct (load_test_data (fs w) runlog_path (heap w)) as [o h1] eqn:Hload.
  pose proof (draw_layers_trace runlog_path img_dicts layer_names colormap vrange
                tind pind w o h1 Hload) as Hwp.
  unfold wp in Hwp.
  destruct (_draw_layers _ _ _ _ _ _ _ w) as [[[]|e] w1]; simpl.
  - destruct Hwp as ((? & ? & ? & ?) & _). rewrite app_nil_r. done.
  - destruct Hwp as ((? & ? & Htb & ?) & _). by rewrite Htb.
Qed.

(** The run of [view_layers] once the dropdown of the logs is built and
    the log utilities have answered for the selected log: it returns
    exactly when every layer has its two sizes, the log has an epoch and
    the pattern options are given. *)
Lemma view_layers_cases (log_path : string) (mode : Z) (w : world) (rw : Dropdown)
    (eps : list Z) (lnames : list string) (dims : gmap string (list nat)) :
  _make_logs_widget log_path {| width := "100%" |} w = (Ok rw, w) ->
  get_epochs (fs w) (dd_value rw) = Ok eps ->
  get_layer_names (fs w) (dd_value rw) = Ok lnames ->
  get_layer_dims (fs w) (dd_value rw) lnames = Ok dims ->
  wp (view_layers log_path mode)
    (fun v w' =>
       Forall (has_two_dims dims) lnames /\
       run_widget v = rw /\ epochs v = eps /\ layer_names v = lnames /\
       length (axes_dicts v) = length lnames /\
       exists e0 imgs,
         eps !! 0 = Some e0 /\
         get_pattern_options (fs w) (dd_value rw) (first_step e0 (length eps))
           = Ok (pattern_options v) /\
         grid_ids (axes_dicts v) = seq (length (images w)) (length imgs) /\
         let wo :=
           (captured (_draw_layers (dd_value rw) (axes_dicts v) lnames "coolwarm"
                        (-1, 1)%Z (first_step e0 (length eps)) 0)
              (with_images (images w ++ imgs) w)).2 in
         w' = with_displayed (displayed wo ++ [controls_panel v]) wo)
    (fun e w' =>
       (exists imgs, w' = with_images (images w ++ imgs) w) /\
       (dims_fault dims lnames e \/
        (Forall (has_two_dims dims) lnames /\
         ((eps = [] /\ e = IndexError) \/
          exists e0, eps !! 0 = Some e0 /\
            get_pattern_options (fs w) (dd_value rw) (first_step e0 (length eps))
              = Raise e)))) w.
Proof.
  intros Hlogs Heps Hnames Hdims. unfold view_layers. cbv zeta.
  apply wp_bind. unfold wp at 1. rewrite Hlogs.
  apply wp_bind. unfold wp at 1, read_fs. rewrite Heps.
  apply wp_bind. unfold wp at 1, read_fs. rewrite Hnames.
  apply wp_bind. unfold wp at 1, read_fs. rewrite Hdims.
  apply wp_bind.
  eapply wp_mono; [apply grids_loop | |].
  2:{ intros e wb [Hf Himgs]. rewrite requests_names in Hf. auto. }
  intros axes wb (Hgood & Hkeys & imgs & -> & Hids). simpl.
  rewrite requests_names in Hgood.
  apply Forall2_length in Hkeys.
  rewrite length_enumerate, length_zip_with in Hkeys.
  assert (Hlen : length axes = length lnames).
  { rewrite <- Hkeys. unfold disp_targs_of, all_but_last.
    rewrite length_app, length_fmap, length_take. simpl. lia. }
  apply wp_bind, wp_lift.
  destruct eps as [|e0 eps'].
  { rewrite getitem_list_nil. split; [eauto|]. right. split; [done|]. by left. }
  rewrite getitem_list_0.
  apply wp_bind. unfold wp at 1, read_fs.
  rewrite IntSlider_value_first_step.
  change (fs (with_images (images w ++ imgs) w)) with (fs w).
  change (length (e0 :: eps')) with (S (length eps')).
  destruct (get_pattern_options (fs w) (dd_value rw) (first_step e0 (S (length eps'))))
    as [opts|e] eqn:Hopts.
  2:{ split; [eauto|]. right. split; [done|]. right. by exists e0. }
  apply wp_bind, wp_lift. rewrite (proj1 (controls_rows _ _ _ _ _ _ _)).
  apply wp_bind, wp_lift. rewrite (proj1 (proj2 (controls_rows _ _ _ _ _ _ _))).
  apply wp_bind, wp_lift. rewrite (proj1 (proj2 (proj2 (controls_rows _ _ _ _ _ _ _)))).
  apply wp_bind, wp_lift.
  rewrite (proj1 (proj2 (proj2 (proj2 (controls_rows _ _ _ _ _ _ _))))).
  apply wp_bind, wp_lift.
  rewrite (proj2 (proj2 (proj2 (proj2 (controls_rows _ _ _ _ _ _ _))))).
  apply wp_bind. unfold wp at 1, interactive_output.
  rewrite observer_controls, captured_Ok.
  apply wp_bind. unfold wp at 1, display. apply wp_ret. simpl.
  rewrite IntSlider_value_first_step.
  split_and!; try done.
  exists e0, imgs. by split_and!.
Qed.

End ViewRun.

Section ViewOutcomes.
Context `{Environment}.

(** X14. [view_layers] returns whenever the dropdown of the logs is
    built, the selected log has an epoch, every layer has its two sizes
    and the pattern options are given with a first label that is not
    repeated (the selector starts on index 0).  It then displays its
    panel, once.  Nothing is asked of [load_test_data]: an exception of
    the first drawing is caught by the Output widget and ends up as a
    traceback. *)
Theorem view_layers_returns (log_path : string) (mode : Z) (w : world) (rw : Dropdown)
    (e0 : Z) (eps : list Z) (lnames : list string) (dims : gmap string (list nat))
    (option0 : string) (options : list string) :
  _make_logs_widget log_path {| width := "100%" |} w = (Ok rw, w) ->
  get_epochs (fs w) (dd_value rw) = Ok (e0 :: eps) ->
  get_layer_names (fs w) (dd_value rw) = Ok lnames ->
  get_layer_dims (fs w) (dd_value rw) lnames = Ok dims ->
  Forall (has_two_dims dims) lnames ->
  get_pattern_options (fs w) (dd_value rw) (first_step e0 (S (length eps)))
    = Ok (option0 :: options) ->
  option0 ∉ options ->
  exists v w' imgs,
    view_layers log_path mode w = (Ok v, w') /\
    run_widget v = rw /\ epochs v = e0 :: eps /\ layer_names v = lnames /\
    pattern_options v = option0 :: options /\
    displayed w' = displayed w ++ [controls_panel v] /\
    tracebacks w' = tracebacks w ++
      match (_draw_layers (dd_value rw) (axes_dicts v) lnames "coolwarm" (-1, 1)%Z
               (first_step e0 (S (length eps))) 0 (with_images (images w ++ imgs) w)).1 with
      | Ok _ => []
      | Raise e => [e]
      end.
Proof.
  intros Hlogs Heps Hnames Hdims Hgood Hopts _.
  pose proof (view_layers_cases log_path mode w rw (e0 :: eps) lnames dims
                Hlogs Heps Hnames Hdims) as Hwp.
  unfold wp in Hwp. destruct (view_layers log_path mode w) as [[v|e] w'].
  - destruct Hwp as (_ & Hrw & Hv1 & Hv2 & _ & e0' & imgs & [= <-] & Ho & _ & Hw').
    simpl in Ho, Hw'. rewrite Hopts in Ho. injection Ho as Ho.
    exists v, w', imgs. split_and!; try done.
    + rewrite Hw'. simpl.
      by rewrite (proj1 (proj2 (proj2 (captured_draw _ _ _ _ _ _ _ _)))).
    + rewrite Hw'. simpl.
      by rewrite (proj2 (proj2 (proj2 (captured_draw _ _ _ _ _ _ _ _)))).
  - destruct Hwp as (_ & [Hf|(_ & [[? _]|(e0' & [= <-] & Ho)])]); try done.
    + exfalso. inversion Hf as [name Hin Hnone|name ds Hin Hds Hlen]; subst;
        rewrite Forall_forall in Hgood;
        destruct (Hgood name Hin) as (a & b & m & Hab); rewrite Hab in *;
        simplify_eq/=; lia.
    + simpl in Ho. by rewrite Hopts in Ho.
Qed.

(** X15. A log without epochs: [view_layers] ends in the IndexError of
    [epochs[0]], after the grids are built (the figure has gained their
    images) and before anything is loaded, drawn or displayed. *)
Theorem view_layers_without_epochs (log_path : string) (mode : Z) (w : world)
    (rw : Dropdown) (lnames : list string) (dims : gmap string (list nat)) :
  _make_logs_widget log_path {| width := "100%" |} w = (Ok rw, w) ->
  get_epochs (fs w) (dd_value rw) = Ok [] ->
  get_layer_names (fs w) (dd_value rw) = Ok lnames ->
  get_layer_dims (fs w) (dd_value rw) lnames = Ok dims ->
  Forall (has_two_dims dims) lnames ->
  exists imgs,
    view_layers log_path mode w
      = (Raise IndexError, with_images (images w ++ imgs) w).
Proof.
  intros Hlogs Heps Hnames Hdims Hgood.
  pose proof (view_layers_cases log_path mode w rw [] lnames dims
                Hlogs Heps Hnames Hdims) as Hwp.
  unfold wp in Hwp. destruct (view_layers log_path mode w) as [[v|e] w'].
  - by destruct Hwp as (_ & _ & _ & _ & _ & e0' & imgs & ? & _).
  - destruct Hwp as ([imgs ->] & [Hf|(_ & [[_ ->]|(e0' & ? & _)])]); try done.
    + exfalso. inversion Hf as [name Hin Hnone|name ds Hin Hds Hlen]; subst;
        rewrite Forall_forall in Hgood;
        destruct (Hgood name Hin) as (a & b & m & Hab); rewrite Hab in *;
        simplify_eq/=; lia.
    + by exists imgs.
Qed.

(** X16. A layer without its two sizes: when [get_layer_dims] has no
    entry for a layer name, or gives it fewer than two sizes,
    [view_layers] ends in the KeyError of such a name or in an
    IndexError, having at most added images to the figure. *)
Theorem view_layers_layer_without_sizes (log_path : string) (mode : Z) (w : world)
    (rw : Dropdown) (eps : list Z) (lnames : list string)
    (dims : gmap string (list nat)) :
  _make_logs_widget log_path {| width := "100%" |} w = (Ok rw, w) ->
  get_epochs (fs w) (dd_value rw) = Ok eps ->
  get_layer_names (fs w) (dd_value rw) = Ok lnames ->
  get_layer_dims (fs w) (dd_value rw) lnames = Ok dims ->
  ~ Forall (has_two_dims dims) lnames ->
  exists e imgs,
    view_layers log_path mode w = (Raise e, with_images (images w ++ imgs) w) /\
    dims_fault dims lnames e.
Proof.
  intros Hlogs Heps Hnames Hdims Hbad.
  pose proof (view_layers_cases log_path mode w rw eps lnames dims
                Hlogs Heps Hnames Hdims) as Hwp.
  unfold wp in Hwp. destruct (view_layers log_path mode w) as [[v|e] w'].
  - by destruct Hwp as (? & _).
  - destruct Hwp as ([imgs ->] & [Hf|(? & _)]); [|done]. by exists e, imgs.
Qed.

Lemma elem_of_concat {A : Type} (x : A) (ls : list (list A)) :
  x ∈ concat ls <-> exists l, x ∈ l /\ l ∈ ls.
Proof.
  induction ls as [|l ls IH]; simpl.
  - split; [by intros ?%elem_of_nil | by intros (l & _ & ?%elem_of_nil)].
  - rewrite elem_of_app, IH. split.
    + intros [Hx|(l' & Hx & Hl')].
      * exists l. split; [done | apply list_elem_of_here].
      * exists l'. split; [done | by apply list_elem_of_further].
    + intros (l' & Hx & [->|Hl']%elem_of_cons); [by left | right; eauto].
Qed.

Lemma drawn_on_grid_ids (axes : list (odict nat)) (names : list string) (id : nat) :
  drawn_on axes names id -> id ∈ grid_ids axes.
Proof.
  intros (g & name & k & Hzip & Hk). unfold grid_ids.
  apply elem_of_concat. exists (g.*2). split.
  - apply list_elem_of_fmap. by exists (k, id).
  - apply list_elem_of_fmap. exists g. split; [done|].
    apply list_elem_of_lookup in Hzip as [j Hj].
    apply lookup_zip_with_Some in Hj as (g' & n' & [= <- <-] & Hj1 & _).
    by eapply list_elem_of_lookup_2.
Qed.

(** X17. When [view_layers] returns, the grids file exactly the images
    that it has added to the figure, in the order of the layers and
    panels, each once: no two panels share an image.  The images that
    were in the figure before are as they were, also after the first
    drawing. *)
Theorem view_layers_grid_images (log_path : string) (mode : Z) (w w' : world) (v : view) :
  view_layers log_path mode w = (Ok v, w') ->
  length (images w) <= length (images w') /\
  grid_ids (axes_dicts v)
    = seq (length (images w)) (length (images w') - length (images w)) /\
  NoDup (grid_ids (axes_dicts v)) /\
  forall id, id < length (images w) -> images w' !! id = images w !! id.
Proof.
  intros Hrun.
  destruct (view_layers_inv _ _ _ _ _ Hrun)
    as (Hlogs & Heps & Hnames & (dims & wb & Hdims & _) & _).
  pose proof (view_layers_cases log_path mode w (run_widget v) (epochs v) (layer_names v)
                dims Hlogs Heps Hnames Hdims) as Hwp.
  unfold wp in Hwp. rewrite Hrun in Hwp.
  destruct Hwp as (_ & _ & _ & _ & _ & e0 & imgs & _ & _ & Hids & Hw').
  simpl in Hw'.
  destruct (captured_draw (dd_value (run_widget v)) (axes_dicts v) (layer_names v)
              "coolwarm" (-1, 1)%Z (first_step e0 (length (epochs v))) 0%Z
              (with_images (images w ++ imgs) w)) as (Hlen & Hframe & _).
  simpl in Hlen, Hframe. rewrite length_app in Hlen.
  assert (Himgs : length (images w') = length (images w) + length imgs)
    by (by rewrite Hw').
  split_and!.
  - lia.
  - rewrite Hids. f_equal. lia.
  - rewrite Hids. apply NoDup_seq.
  - intros id Hid. rewrite Hw'. simpl. rewrite Hframe.
    + by rewrite lookup_app_l.
    + intros Hd%drawn_on_grid_ids. rewrite Hids in Hd.
      apply elem_of_seq in Hd. lia.
Qed.

End ViewOutcomes.

(* ===================================================================== *)
(** * The paths of the logs and the range of the step slider *)
(* ===================================================================== *)

Section LogPaths.
Context `{Environment}.





End LogPaths.

Section StepRange.
Context `{Environment}.


End StepRange.

(* ===================================================================== *)
(** * Which tensor each panel shows *)
(* ===================================================================== *)

Section DrawFunction.
Context `{Environment}.

(** A loop whose invariant speaks of the items handled so far, and
    whose body may use what is still to come. *)
Lemma wp_for_each_split {A : Type} (I : list A -> world -> Prop)
    (R : exn -> world -> Prop) (l : list A) (body : A -> M unit) :
  (forall pre x suf w, l = pre ++ x :: suf -> I pre w ->
     wp (body x) (fun _ w1 => I (pre ++ [x]) w1) R w) ->
  forall w, I [] w -> wp (for_each l body) (fun _ w' => I l w') R w.
Proof.
  intros Hbody.
  cut (forall l' pre w, l = pre ++ l' -> I pre w ->
         wp (for_each l' body) (fun _ w' => I l w') R w).
  { intros Hcut w Hw. by apply (Hcut l [] w). }
  induction l' as [|x l' IH]; intros pre w Hl Hw; simpl.
  - apply wp_ret. by rewrite Hl, app_nil_r.
  - apply wp_bind.
    eapply wp_mono; [by apply (Hbody pre x l' w) | | done].
    intros [] w1 Hw1. simpl. apply (IH (pre ++ [x])); [|done].
    by rewrite <- app_assoc.
Qed.

(** One pass of the inner loop body, with the tensor it reads. *)
Lemma draw_image_exact (snap_ldicts : gmap string value) (layer_name colormap : string)
    (vrange : Z * Z) (pind : Z) (k : string) (img : nat) (w2 : world) :
  wp (let* ldict := lift (getitem_map snap_ldicts layer_name) in
      let* data := getitem_str ldict k in
      let* data := lift (if decide (k = "weights") then attr_T data else Ok data) in
      let* data := lift (if str_in "biases" k then np_expand_dims1 data else Ok data) in
      let* nd := lift (attr_ndim data) in
      let* data :=
        if decide (2 < nd) then
          let* data := lift (getitem_int data pind) in
          lift (if decide (k <> "input_") then attr_T data else Ok data)
        else ret data in
      set_data img data ;;
      set_cmap img colormap ;;
      set_vmin img vrange.1 ;;
      set_vmax img vrange.2)
    (fun _ w' => exists ldict d d',
       snap_ldicts !! layer_name = Some ldict /\
       lookup_str (heap w2) ldict k = Ok (VArr d) /\
       prepare k pind (VArr d) = Ok (VArr d') /\
       w' = with_images
              (alter (fun _ => Image d' (Some colormap) (Some vrange.1) (Some vrange.2))
                 img (images w2)) w2)
    (fun _ _ => True) w2.
Proof.
  apply wp_bind, wp_lift. unfold getitem_map.
  destruct (snap_ldicts !! layer_name) as [ldict|] eqn:Hld; [|done].
  apply wp_bind, wp_getitem_str.
  destruct (lookup_str (heap w2) ldict k) as [data|e] eqn:Hdata; [|done].
  unfold wp. rewrite data_steps. unfold bind at 1. unfold lift at 1.
  destruct (prepare k pind data) as [shown|e] eqn:Hprep; [|done].
  pose proof Hprep as Hprep'.
  apply prepare_Ok in Hprep' as (d & d' & -> & -> & _).
  unfold bind, set_data, set_cmap, set_vmin, set_vmax, update_image. simpl.
  exists ldict, d, d'. split_and!; [done | done | done |].
  unfold with_images. simpl. f_equal. by rewrite !list_alter_alter_eq.
Qed.

Lemma grid_ids_app (G1 G2 : list (odict nat)) :
  grid_ids (G1 ++ G2) = grid_ids G1 ++ grid_ids G2.
Proof. unfold grid_ids. by rewrite fmap_app, concat_app. Qed.

Lemma elem_of_grid_ids (G : list (odict nat)) (id : nat) :
  id ∈ grid_ids G <-> exists g k, g ∈ G /\ (k, id) ∈ g.
Proof.
  unfold grid_ids. rewrite elem_of_concat. split.
  - intros (ids & Hid & (g & -> & Hg)%list_elem_of_fmap).
    apply list_elem_of_fmap in Hid as ([k id'] & -> & Hk). by exists g, k.
  - intros (g & k & Hg & Hk). exists (g.*2). split.
    + apply list_elem_of_fmap. by exists (k, id).
    + by apply list_elem_of_fmap_2.
Qed.

(** In grids that file every image once, the image of an entry is
    filed neither in an earlier grid nor earlier in its own grid. *)
Lemma grid_ids_fresh (G1 G2 : list (odict nat)) (p1 p2 : odict nat) (k : string)
    (img : nat) :
  NoDup (grid_ids (G1 ++ (p1 ++ (k, img) :: p2) :: G2)) ->
  ~ img ∈ grid_ids G1 /\ ~ img ∈ p1.*2.
Proof.
  rewrite grid_ids_app. intros (_ & Hdis & Hnd)%NoDup_app.
  change (grid_ids ((p1 ++ (k, img) :: p2) :: G2))
    with ((p1 ++ (k, img) :: p2).*2 ++ grid_ids G2) in *.
  rewrite fmap_app, fmap_cons in *. cbn [snd] in *. split.
  - intros Hin. apply (Hdis img Hin). rewrite !elem_of_app, elem_of_cons. auto.
  - intros Hin. apply NoDup_app in Hnd as (Hnd & _).
    apply NoDup_app in Hnd as (_ & Hdis' & _). apply (Hdis' img Hin), list_elem_of_here.
Qed.

(** The run of [_draw_layers] when it returns: every image that is
    filed once under a key of a paired grid ends up showing the tensor
    of that layer and key. *)
Lemma draw_layers_function (runlog_path : string) (img_dicts : list (odict nat))
    (layer_names : list string) (colormap : string) (vrange : Z * Z)
    (tind pind : Z) (w : world) (o : outcome (list value)) (h1 : pyheap) :
  load_test_data (fs w) runlog_path (heap w) = (o, h1) ->
  NoDup (grid_ids (zip img_dicts layer_names).*1) ->
  wp (_draw_layers runlog_path img_dicts layer_names colormap vrange tind pind)
    (fun _ w' =>
       exists logs l snap targ,
         o = Ok logs /\ getitem_list logs tind = Ok (VRef l) /\ h1 !! l = Some snap /\
         snap !! "target" = Some targ /\
         forall g name k id,
           (g, name) ∈ zip img_dicts layer_names -> (k, id) ∈ g ->
           name <> "targets" -> id < length (images w) ->
           exists im, images w' !! id = Some im /\
             shows h1 snap targ name k colormap vrange pind im)
    (fun _ _ => True) w.
Proof.
  intros Hload Hnd. unfold _draw_layers.
  apply wp_bind. unfold wp at 1, call_load_test_data. rewrite Hload.
  set (w1 := with_heap h1 w).
  destruct o as [logs|e]; [|done].
  apply wp_bind, wp_lift.
  destruct (getitem_list logs tind) as [snapv|e] eqn:Hsnap; [|done].
  apply wp_bind, wp_getitem_str.
  destruct (lookup_str (heap w1) snapv "enum") as [enum|e] eqn:Henum; [|done].
  apply wp_bind, wp_getitem_str.
  destruct (lookup_str (heap w1) snapv "loss") as [losses|e] eqn:Hloss; [|done].
  apply wp_bind, wp_lift.
  destruct (getitem_int losses pind) as [loss|e] eqn:Hl; [|done].
  apply wp_bind, wp_getitem_str.
  destruct (lookup_str (heap w1) snapv "target") as [targ|e] eqn:Htarg; [|done].
  apply lookup_str_Ok in Henum as (l & snap & -> & Hsnapd & _).
  apply lookup_str_Ok in Htarg as (? & ? & [= <-] & Hs' & Htarg).
  simpl in Hs', Hsnapd. rewrite Hsnapd in Hs'. injection Hs' as <-.
  clear Hloss Hl.
  set (tagged := fun (sl : gmap string value) (h : pyheap) (name : string) =>
         exists ll d2, snap !! name = Some (VRef ll) /\ sl !! name = Some (VRef ll) /\
           h !! ll = Some d2 /\ d2 !! "targets" = Some targ).
  apply wp_bind.
  eapply wp_mono;
    [ apply (wp_for_fold
               (fun pre (sl : gmap string value) w2 =>
                  images w2 = images w /\ heap_rel h1 targ (heap w2) /\
                  forall name, name ∈ pre -> name <> "targets" -> tagged sl (heap w2) name)
               (fun _ _ => True)) with (pre := [])
    | | done ].
  - (* the first loop *)
    intros pre n sl w2 _ (Himgs & Hrel & Htag).
    apply wp_bind, wp_getitem_str.
    destruct (lookup_str (heap w2) (VRef l) n) as [v|e] eqn:Hn; [|done].
    apply wp_bind, wp_lift. unfold getitem_map. rewrite lookup_insert_eq.
    apply wp_bind. unfold wp at 1, setitem_str.
    destruct v as [a|l0|r]; [done| |done].
    destruct (heap w2 !! l0) as [d0|] eqn:Hd0; [|done].
    apply wp_ret. split_and!; [done | by apply heap_rel_set |].
    cbn [heap with_heap].
    apply lookup_str_Ok in Hn as (? & sd & [= <-] & Hsd & Hv).
    intros name Hname Hne.
    assert (Hsame : snap !! name = sd !! name).
    { destruct (heap_rel_lookup_key _ _ _ _ _ name Hrel Hsd Hne) as (snap0 & Hs0 & Heq).
      rewrite Hsnapd in Hs0. by injection Hs0 as <-. }
    destruct (decide (name = n)) as [->|Hnn].
    + exists l0, (<["targets" := targ]> d0). split_and!.
      * by rewrite Hsame.
      * apply lookup_insert_eq.
      * apply lookup_insert_eq.
      * apply lookup_insert_eq.
    + apply elem_of_app in Hname as [Hname|Hname%list_elem_of_singleton]; [|done].
      destruct (Htag name Hname Hne) as (ll & d2 & Hs & Hsl & Hh & Ht).
      destruct (decide (ll = l0)) as [->|Hll].
      * exists l0, (<["targets" := targ]> d0). split_and!; [done | | |].
        -- by rewrite lookup_insert_ne.
        -- apply lookup_insert_eq.
        -- apply lookup_insert_eq.
      * exists ll, d2. split_and!; [done | | | done].
        -- by rewrite lookup_insert_ne.
        -- by rewrite lookup_insert_ne.
  - split_and!; [done | apply heap_rel_refl |]. intros name Hname. by apply elem_of_nil in Hname.
  - (* after the first loop *)
    intros sl w2 (Himgs2 & Hrel & Htag). simpl in Htag.
    apply wp_bind. unfold wp at 1, print_epoch_loss.
    destruct loss as [a| |]; [|done..].
    destruct (decide (ndim a = 0)); [|done].
    set (h2 := heap w2) in *.
    set (Zs := zip img_dicts layer_names) in *.
    set (done_in := fun (w' : world) (name : string) (entries : odict nat) =>
           forall k id, (k, id) ∈ entries -> name <> "targets" ->
             id < length (images w) ->
             exists im, images w' !! id = Some im /\
               shows h1 snap targ name k colormap vrange pind im).
    eapply wp_mono;
      [ apply (wp_for_each_split
                 (fun (pre : list (odict nat * string)) w' =>
                    heap w' = h2 /\ length (images w') = length (images w) /\
                    forall g name, (g, name) ∈ pre -> done_in w' name g)
                 (fun _ _ => True))
      | | done ].
    + intros pre [g0 name0] suf w4 HZ (Hh4 & Hl4 & Hpre).
      eapply wp_mono;
        [ apply (wp_for_each_split
                   (fun (pre' : odict nat) w' =>
                      heap w' = h2 /\ length (images w') = length (images w) /\
                      (forall g name, (g, name) ∈ pre -> done_in w' name g) /\
                      done_in w' name0 pre')
                   (fun _ _ => True))
        | | done ].
      * intros pre' [k img] suf' w5 Hg0 (Hh5 & Hl5 & Hpre5 & Hin5).
        eapply wp_mono; [apply draw_image_exact | | done].
        intros [] w6 (ldict & d & d' & Hld & Hdata & Hprep & ->). simpl.
        assert (Hfresh : ~ img ∈ grid_ids pre.*1 /\ ~ img ∈ pre'.*2).
        { apply (grid_ids_fresh _ suf.*1 _ suf' k).
          rewrite <- Hg0. change (g0 :: suf.*1) with (((g0, name0) :: suf).*1).
          by rewrite <- fmap_app, <- HZ. }
        destruct Hfresh as [Hf1 Hf2].
        assert (Hkeep : forall id, id <> img ->
                  alter (fun _ => Image d' (Some colormap) (Some vrange.1) (Some vrange.2))
                    img (images w5) !! id = images w5 !! id).
        { intros id Hid. by apply list_lookup_alter_ne. }
        split_and!.
        -- done.
        -- by rewrite length_alter.
        -- intros g name Hg k' id Hk' Hne Hid.
           cbn [images with_images]. rewrite Hkeep; [by apply (Hpre5 g name Hg k' id)|].
           intros ->. apply Hf1, elem_of_grid_ids. exists g, k'. split; [|done].
           by apply (list_elem_of_fmap_2 fst) in Hg.
        -- intros k' id [Hk'|[= <- <-]%list_elem_of_singleton]%elem_of_app Hne Hid.
           ++ cbn [images with_images]. rewrite Hkeep; [by apply Hin5|].
              intros ->. apply Hf2. by apply (list_elem_of_fmap_2 snd) in Hk'.
           ++ cbn [images with_images]. rewrite list_lookup_alter_eq.
              destruct (lookup_lt_is_Some_2 (images w5) id) as [im0 Him0]; [lia|].
              rewrite Him0. eexists. split; [reflexivity|].
              assert (Hname0 : name0 ∈ layer_names).
              { assert (Hx : (g0, name0) ∈ Zs)
                  by (rewrite HZ, elem_of_app, elem_of_cons; auto).
                apply list_elem_of_lookup in Hx as [j Hj].
                apply lookup_zip_with_Some in Hj as (? & ? & [= <- <-] & _ & Hj).
                by eapply list_elem_of_lookup_2. }
              destruct (Htag name0 Hname0 Hne) as (ll & d2 & Hs & Hsl & Hhl & Ht).
              rewrite Hsl in Hld. injection Hld as <-.
              rewrite Hh5 in Hdata.
              apply lookup_str_Ok in Hdata as (? & ? & [= <-] & Hd2 & Hk).
              rewrite Hhl in Hd2. injection Hd2 as <-.
              destruct (heap_rel_lookup _ _ _ _ _ Hrel Hhl) as (ld & Hld & _).
              exists ll, ld, d, d'. split_and!; [done | done | | done | done].
              case_decide as Hkt.
              ** subst k'. rewrite Ht in Hk. by injection Hk.
              ** destruct (heap_rel_lookup_key _ _ _ _ _ k' Hrel Hhl Hkt)
                   as (ld' & Hld' & Heq).
                 rewrite Hld in Hld'. injection Hld' as <-. by rewrite <- Heq.
      * split_and!; [done | done | done |].
        intros k id Hk. by apply elem_of_nil in Hk.
      * intros [] w5 (Hh5 & Hl5 & Hpre5 & Hin5). simpl in Hin5.
        split_and!; [done | done |].
        intros g name [Hg|[= -> ->]%list_elem_of_singleton]%elem_of_app;
          [by apply Hpre5 | done].
    + split_and!; [done | simpl; by rewrite Himgs2 |].
      intros g name Hg. by apply elem_of_nil in Hg.
    + intros [] w' (_ & _ & Hall). exists logs, l, snap, targ.
      split_and!; [done | done | done | done |].
      intros g name k id Hg Hk Hne Hid. by apply (Hall g name Hg k id).
Qed.

Lemma fst_zip_take {A B : Type} (l : list A) (k : list B) :
  (zip l k).*1 = take (length k) l.
Proof.
  revert k. induction l as [|x l IH]; intros [|y k]; simpl; [done..|].
  by rewrite IH.
Qed.

Lemma grid_ids_zip_NoDup (img_dicts : list (odict nat)) (layer_names : list string) :
  NoDup (grid_ids img_dicts) -> NoDup (grid_ids (zip img_dicts layer_names).*1).
Proof.
  rewrite fst_zip_take.
  rewrite <- (take_drop (length layer_names) img_dicts) at 1.
  rewrite grid_ids_app. by intros (? & _)%NoDup_app.
Qed.

(** X6. Each panel shows its own tensor.  When [_draw_layers] returns
    and the grids file every image once, the image filed under the key
    [k] of the grid that is paired with the layer [name] shows the tensor
    stored under [k] in the dictionary of that layer in the loaded
    snapshot (for the key 'targets': the 'target' of the snapshot), put
    through the data steps of lines 166-173, with the colormap and the
    limits of the call.  The layer is not itself called 'targets', and
    the image is one of the figure. *)
Theorem draw_layers_shows_each_tensor (runlog_path : string)
    (img_dicts : list (odict nat)) (layer_names : list string) (colormap : string)
    (vrange : Z * Z) (tind pind : Z) (w w' : world)
    (i : nat) (g : odict nat) (name k : string) (id : nat) :
  _draw_layers runlog_path img_dicts layer_names colormap vrange tind pind w = (Ok tt, w') ->
  NoDup (grid_ids img_dicts) ->
  img_dicts !! i = Some g -> layer_names !! i = Some name -> (k, id) ∈ g ->
  name <> "targets" ->
  id < length (images w) ->
  exists logs h1 l snap ll ld d d',
    load_test_data (fs w) runlog_path (heap w) = (Ok logs, h1) /\
    getitem_list logs tind = Ok (VRef l) /\ h1 !! l = Some snap /\
    snap !! name = Some (VRef ll) /\ h1 !! ll = Some ld /\
    (if decide (k = "targets") then snap !! "target" = Some (VArr d)
     else ld !! k = Some (VArr d)) /\
    prepare k pind (VArr d) = Ok (VArr d') /\
    images w' !! id = Some (Image d' (Some colormap) (Some vrange.1) (Some vrange.2)).
Proof.
  intros Hrun Hnd Hg Hname Hk Hne Hid.
  destruct (load_test_data (fs w) runlog_path (heap w)) as [o h1] eqn:Hload.
  pose proof (draw_layers_function runlog_path img_dicts layer_names colormap vrange
                tind pind w o h1 Hload (grid_ids_zip_NoDup _ _ Hnd)) as Hwp.
  unfold wp in Hwp. rewrite Hrun in Hwp.
  destruct Hwp as (logs & l & snap & targ & -> & Hsnap & Hl & Htarg & Hall).
  destruct (Hall g name k id) as (im & Him & ll & ld & d & d' & Hs & Hld & Hd & Hp & ->);
    [ | done | done | done | ].
  { apply list_elem_of_lookup. exists i. apply lookup_zip_with_Some. eauto. }
  exists logs, h1, l, snap, ll, ld, d, d'. split_and!; try done.
  case_decide; [by subst targ | done].
Qed.

End DrawFunction.

(* ===================================================================== *)
(** * The figure that [_make_axes_grid] builds *)
(* ===================================================================== *)

Section FigureRun.
Context `{Environment} `{!Pointer}.

Lemma alter_snoc {A : Type} (g : A -> A) (l : list A) (x : A) :
  alter g (length l) (l ++ [x]) = l ++ [g x].
Proof.
  replace (length l) with (length l + 0) by lia. by rewrite alter_app_r.
Qed.

Lemma stage_eta (s : stage) : Stage (st_world s) (st_figure s) = s.
Proof. by destruct s. Qed.

Lemma fbind_Ok {A B : Type} (m : F A) (k : A -> F B) (s s1 : stage) (a : A) :
  m s = (Ok a, s1) -> fbind m k s = k a s1.
Proof. intros Hm. unfold fbind. by rewrite Hm. Qed.

Lemma fbind_assoc {A B C : Type} (m : F A) (k1 : A -> F B) (k2 : B -> F C) (s : stage) :
  fbind (fbind m k1) k2 s = fbind m (fun a => fbind (k1 a) k2) s.
Proof. unfold fbind. by destruct (m s) as [[a|e] s1]. Qed.

Lemma fbind_fret {A B : Type} (a : A) (k : A -> F B) (s : stage) :
  fbind (fret a) k s = k a s.
Proof. reflexivity. Qed.

(** An update of the axes that was created last. *)
Lemma update_axes_snoc (g : Axes -> Axes) (w : world) (f : figure) (l : list Axes)
    (x : Axes) :
  Fig.update_axes (length l) g (Stage w (Fig.with_axes (l ++ [x]) f))
  = (Ok tt, Stage w (Fig.with_axes (l ++ [g x]) f)).
Proof.
  unfold Fig.update_axes, on_figure, Fig.with_axes. cbn [st_world st_figure axes].
  by rewrite alter_snoc.
Qed.

Lemma new_axes_run (rect : nat) (in_figure : bool) (w : world) (f : figure) :
  Fig.new_axes rect in_figure (Stage w f)
  = (Ok (length (axes f)),
     Stage w (Fig.with_axes (axes f ++ [Fig.fresh_axes rect in_figure]) f)).
Proof. reflexivity. Qed.

End FigureRun.

(** One step of a run that updates the axes created last; the fields
    of the updated record are read off at once. *)
Ltac axes_step :=
  first [ rewrite fbind_assoc
        | rewrite (fbind_Ok _ _ _ _ _ (update_axes_snoc _ _ _ _ _)); cbv beta;
          cbn [ax_position ax_locator ax_in_figure ax_spines_hidden ax_xticks ax_yticks
               ax_labelbottom ax_labelleft ax_xlabel ax_ylabel ax_title ax_xlabel_coords
               app]
        | rewrite fbind_fret ].

Section GridFigure.
Context `{Environment} `{!Pointer}.

(** [_make_ghost_axis] adds one axes to the figure and returns it. *)
Lemma make_ghost_axis_run (rect : nat) (title : string) (w : world) (f : figure) :
  Fig._make_ghost_axis rect title (Stage w f)
  = (Ok (length (axes f)),
     Stage w (Fig.with_axes (axes f ++ [ghost_axes rect title]) f)).
Proof.
  unfold Fig._make_ghost_axis, Fig.add_axes_at.
  rewrite (fbind_Ok _ _ _ _ _ (new_axes_run rect true w f)).
  cbn [Fig.for_each].
  unfold Fig.hide_spine, Fig.set_xticks, Fig.set_yticks, Fig.set_ylabel,
    Fig.set_label_coords, Fig.fresh_axes.
  repeat axes_step.
  reflexivity.
Qed.

(** One pass of the loop of [_make_axes_grid]: one axes, one image
    filed under it, one observer. *)
Lemma panel_step (divider gax : nat) (img_dict : odict nat) (p : string * ax_param)
    (w : world) (f : figure) :
  (let '(k, (ax_coords, img_dims, ax_title)) := p in
   let* ax := Fig.LocatableAxes (Fig.get_position divider) in
   Fig.set_axes_locator ax (Fig.new_locator divider ax_coords.1 ax_coords.2) ;;
   Fig.tick_params ax false false ;;
   Fig.set_xticks ax [] ;;
   Fig.set_yticks ax [] ;;
   (if decide (k = "input_") then Fig.set_xlabel ax ax_title else Fig.set_title ax ax_title) ;;
   Fig.add_axes ax ;;
   let* img := Fig.imshow ax (zeros zero [img_dims.1; img_dims.2]) in
   let img_dict := od_set k img img_dict in
   Fig.Observer_init img gax ;;
   fret img_dict)%fig (Stage w f)
  = (Ok (od_set p.1 (length (images w)) img_dict),
     Stage
       (with_images
          (images w ++ [Image (zeros zero [p.2.1.2.1; p.2.1.2.2]) None None None]) w)
       (Figure (dividers f) (axes f ++ [panel_axes divider p])
          (<[length (images w) := length (axes f)]> (image_axes f))
          (callbacks f ++
           [{| ob_ax := length (axes f); ob_img := length (images w); ob_gax := gax |}])
          (draw_requests f))).
Proof.
  destruct p as [k [[[nx ny] [r c]] title]]. unfold panel_axes. cbn [fst snd].
  unfold Fig.LocatableAxes, Fig.get_position, Fig.new_locator.
  rewrite (fbind_Ok _ _ _ _ _ (new_axes_run divider false w f)).
  unfold Fig.set_axes_locator, Fig.tick_params, Fig.set_xticks, Fig.set_yticks,
    Fig.add_axes, Fig.fresh_axes.
  destruct (decide (k = "input_")); unfold Fig.set_xlabel, Fig.set_title;
    repeat axes_step;
    unfold Fig.imshow, in_world, imshow, on_figure, Fig.Observer_init, fbind, fret;
    cbn [st_world st_figure image_axes Fig.with_image_axes Fig.with_axes];
    rewrite lookup_insert_eq; reflexivity.
Qed.

(** The loop of [_make_axes_grid] on the figure. *)
Lemma panel_loop (divider gax : nat) (params : odict ax_param) (img_dict : odict nat)
    (w : world) (f : figure) :
  Fig.for_fold params img_dict
    (fun img_dict '(k, (ax_coords, img_dims, ax_title)) =>
       let* ax := Fig.LocatableAxes (Fig.get_position divider) in
       Fig.set_axes_locator ax (Fig.new_locator divider ax_coords.1 ax_coords.2) ;;
       Fig.tick_params ax false false ;;
       Fig.set_xticks ax [] ;;
       Fig.set_yticks ax [] ;;
       (if decide (k = "input_") then Fig.set_xlabel ax ax_title
        else Fig.set_title ax ax_title) ;;
       Fig.add_axes ax ;;
       let* img := Fig.imshow ax (zeros zero [img_dims.1; img_dims.2]) in
       let img_dict := od_set k img img_dict in
       Fig.Observer_init img gax ;;
       fret img_dict)%fig (Stage w f)
  = (Ok (place (length (images w)) params img_dict),
     Stage (with_images (images w ++ grid_images params) w)
       (Figure (dividers f) (axes f ++ (panel_axes divider <$> params))
          (wire_images (length (images w)) (length (axes f)) params (image_axes f))
          (callbacks f ++ observers (length (images w)) (length (axes f)) gax params)
          (draw_requests f))).
Proof.
  revert img_dict w f. induction params as [|p params IH]; intros img_dict w f.
  - cbn [Fig.for_fold fmap list_fmap grid_images wire_images observers place].
    unfold fret, with_images. rewrite !app_nil_r. by destruct w, f.
  - cbn [Fig.for_fold].
    rewrite (fbind_Ok _ _ _ _ _ (panel_step divider gax img_dict p w f)).
    rewrite IH.
    cbn [images with_images dividers axes image_axes callbacks draw_requests
         place wire_images observers].
    rewrite !length_app. cbn [length]. rewrite !Nat.add_1_r.
    unfold grid_images. rewrite !fmap_cons, <- !app_assoc. reflexivity.
Qed.

Lemma update_divider_snoc (g : Divider -> Divider) (w : world) (f : figure)
    (l : list Divider) (x : Divider) :
  Fig.update_divider (length l) g (Stage w (Fig.with_dividers (l ++ [x]) f))
  = (Ok tt, Stage w (Fig.with_dividers (l ++ [g x]) f)).
Proof.
  unfold Fig.update_divider, on_figure, Fig.with_dividers.
  cbn [st_world st_figure dividers]. by rewrite alter_snoc.
Qed.

(** The run of [_make_axes_grid] on the figure, spelled out: one
    divider, the ghost axis, and for every row of the table one axes,
    one image and one observer. *)
Lemma make_axes_grid_figure (N subplot_ind : nat) (layer_name : string)
    (inp_size layer_size : nat) (mode : Z) (target : bool) (w : world) (f : figure) :
  let AX := ax_params_of inp_size layer_size mode target in
  Fig._make_axes_grid N subplot_ind layer_name inp_size layer_size mode target (Stage w f)
  = (Ok (place (length (images w)) AX []),
     Stage (with_images (images w ++ grid_images AX) w)
       (Figure
          (dividers f ++ [grid_divider N subplot_ind inp_size layer_size mode target])
          (axes f ++ ghost_axes (length (dividers f)) layer_name ::
             (panel_axes (length (dividers f)) <$> AX))
          (wire_images (length (images w)) (S (length (axes f))) AX (image_axes f))
          (callbacks f ++
           observers (length (images w)) (S (length (axes f))) (length (axes f)) AX)
          (draw_requests f))).
Proof.
  intros AX. unfold Fig._make_axes_grid. cbv zeta. fold AX.
  assert (Hdiv : Fig.SubplotDivider N 1 subplot_ind true "W" (Stage w f)
                 = (Ok (length (dividers f)),
                    Stage w (Fig.with_dividers
                               (dividers f ++
                                [{| div_nrows := N; div_ncols := 1; div_index := subplot_ind;
                                    div_aspect := true; div_anchor := "W";
                                    div_horizontal := []; div_vertical := [] |}]) f)))
    by reflexivity.
  rewrite (fbind_Ok _ _ _ _ _ Hdiv). clear Hdiv.
  unfold Fig.set_horizontal, Fig.set_vertical.
  rewrite (fbind_Ok _ _ _ _ _ (update_divider_snoc _ _ _ _ _)). cbv beta.
  cbn [div_nrows div_ncols div_index div_aspect div_anchor div_horizontal div_vertical].
  rewrite (fbind_Ok _ _ _ _ _ (update_divider_snoc _ _ _ _ _)). cbv beta.
  cbn [div_nrows div_ncols div_index div_aspect div_anchor div_horizontal div_vertical].
  unfold Fig.get_position at 1.
  rewrite (fbind_Ok _ _ _ _ _ (make_ghost_axis_run _ _ _ _)).
  rewrite panel_loop.
  cbn [dividers axes image_axes callbacks draw_requests Fig.with_dividers Fig.with_axes].
  rewrite length_app. cbn [length]. rewrite Nat.add_1_r, <- app_assoc.
  reflexivity.
Qed.

End GridFigure.

Section GridLayout.
Context `{Environment} `{!Pointer}.

Lemma wire_images_below {A : Type} (img ax : nat) (params : list A) (m : gmap nat nat)
    (i : nat) :
  i < img -> wire_images img ax params m !! i = m !! i.
Proof.
  revert img ax m. induction params as [|p params IH]; intros img ax m Hi; simpl; [done|].
  rewrite IH by lia. apply lookup_insert_ne. lia.
Qed.

Lemma wire_images_lookup {A : Type} (img ax : nat) (params : list A) (m : gmap nat nat)
    (j : nat) :
  j < length params -> wire_images img ax params m !! (img + j) = Some (ax + j).
Proof.
  revert img ax m j. induction params as [|p params IH]; intros img ax m j Hj; simpl in *;
    [lia|].
  destruct j as [|j].
  - rewrite Nat.add_0_r, wire_images_below by lia. rewrite Nat.add_0_r.
    apply lookup_insert_eq.
  - replace (img + S j) with (S img + j) by lia.
    replace (ax + S j) with (S ax + j) by lia. apply IH. lia.
Qed.

Lemma wire_images_Some {A : Type} (img ax : nat) (params : list A) (m : gmap nat nat)
    (i a : nat) :
  wire_images img ax params m !! i = Some a ->
  m !! i = Some a \/ exists j, j < length params /\ i = img + j /\ a = ax + j.
Proof.
  revert img ax m. induction params as [|p params IH]; intros img ax m; simpl; [by left|].
  intros [Hm|(j & Hj & -> & ->)]%IH.
  - destruct (decide (i = img)) as [->|Hne].
    + rewrite lookup_insert_eq in Hm. injection Hm as <-.
      right. exists 0. split_and!; lia.
    + rewrite lookup_insert_ne in Hm by done. by left.
  - right. exists (S j). split_and!; lia.
Qed.

Lemma elem_of_observers {A : Type} (img ax gax : nat) (params : list A) (ob : Observer) :
  ob ∈ observers img ax gax params <->
  exists j, j < length params /\
    ob = {| ob_ax := ax + j; ob_img := img + j; ob_gax := gax |}.
Proof.
  revert img ax. induction params as [|p params IH]; intros img ax; simpl.
  - split; [by intros ?%elem_of_nil | intros (j & ? & _); lia].
  - rewrite elem_of_cons, IH. split.
    + intros [->|(j & Hj & ->)].
      * exists 0. split; [lia|]. by rewrite !Nat.add_0_r.
      * exists (S j). split; [lia|]. f_equal; lia.
    + intros ([|j] & Hj & ->).
      * left. by rewrite !Nat.add_0_r.
      * right. exists j. split; [lia|]. f_equal; lia.
Qed.

Lemma observers_ax {A : Type} (img ax gax : nat) (params : list A) :
  ob_ax <$> observers img ax gax params = seq ax (length params).
Proof.
  revert img ax. induction params as [|p params IH]; intros img ax; simpl; [done|].
  by rewrite IH.
Qed.




End GridLayout.

(* ===================================================================== *)
(** * The observers and the label under the mouse *)
(* ===================================================================== *)

Section Wiring.
Context `{Environment} `{!Pointer}.

(** A figure without observers is wired, whatever it holds. *)
Lemma wired_new_figure (w : world) : wired (Stage w new_figure).
Proof.
  unfold wired. cbn [st_figure st_world new_figure callbacks image_axes].
  split_and!.
  - apply NoDup_nil_2.
  - intros ob ob' Hob. by apply elem_of_nil in Hob.
  - intros ob Hob. by apply elem_of_nil in Hob.
  - intros img ax Hi. by rewrite lookup_empty in Hi.
Qed.

(** A computation on the world that removes no image keeps the
    observers wired. *)
Lemma wired_in_world {A : Type} (m : M A) (s : stage) :
  length (images (st_world s)) <= length (images (m (st_world s)).2) ->
  wired s -> wired (in_world m s).2.
Proof.
  intros Hlen (Hnd & Hdis & Hobs & Himgs). unfold in_world.
  destruct (m (st_world s)) as [o w'] eqn:Hm. cbn [snd] in *.
  unfold wired. cbn [st_figure st_world]. split_and!; [done | done | |].
  - intros ob Hob. destruct (Hobs ob Hob) as (? & ? & ? & ?). split_and!; [done | lia | done | done].
  - intros img ax Hi. destruct (Himgs img ax Hi). split; [lia | done].
Qed.

(** [_make_axes_grid] keeps the observers wired. *)
Lemma make_axes_grid_wired (N subplot_ind : nat) (layer_name : string)
    (inp_size layer_size : nat) (mode : Z) (target : bool) (s : stage) :
  wired s ->
  wired (Fig._make_axes_grid N subplot_ind layer_name inp_size layer_size mode target s).2.
Proof.
  intros Hw. destruct s as [w f].
  rewrite (make_axes_grid_figure N subplot_ind layer_name inp_size layer_size mode
             target w f).
  set (AX := ax_params_of inp_size layer_size mode target).
  destruct Hw as (Hnd & Hdis & Hobs & Himgs). cbn [st_figure st_world snd] in *.
  unfold wired. cbn [st_figure st_world images with_images axes callbacks image_axes].
  assert (Hla : length (axes f ++ ghost_axes (length (dividers f)) layer_name ::
                          (panel_axes (length (dividers f)) <$> AX))
                = S (length (axes f)) + length AX).
  { rewrite length_app. cbn [length]. rewrite length_fmap. lia. }
  assert (Hli : length (images w ++ grid_images AX) = length (images w) + length AX).
  { unfold grid_images. by rewrite length_app, length_fmap. }
  rewrite Hla, Hli. split_and!.
  - rewrite fmap_app, observers_ax. apply NoDup_app. split_and!; [done | | apply NoDup_seq].
    intros a (ob & -> & Hob)%list_elem_of_fmap Hseq%elem_of_seq.
    destruct (Hobs ob Hob) as (_ & _ & ? & _). lia.
  - intros ob ob' [Hob|(j & Hj & ->)%elem_of_observers]%elem_of_app
      [Hob'|(j' & Hj' & ->)%elem_of_observers]%elem_of_app; cbn [ob_ax ob_gax].
    + by apply Hdis.
    + destruct (Hobs ob Hob) as (_ & _ & ? & _). lia.
    + destruct (Hobs ob' Hob') as (_ & _ & _ & ?). lia.
    + lia.
  - intros ob [Hob|(j & Hj & ->)%elem_of_observers]%elem_of_app; cbn [ob_ax ob_gax ob_img].
    + destruct (Hobs ob Hob) as (Hi & ? & ? & ?).
      rewrite wire_images_below by done. split_and!; [done | lia..].
    + rewrite wire_images_lookup by done. split_and!; [done | lia..].
  - intros img ax [Hold|(j & Hj & -> & ->)]%wire_images_Some.
    + destruct (Himgs img ax Hold). lia.
    + lia.
Qed.

(** A drawing keeps the observers wired. *)
Lemma draw_layers_wired (runlog_path : string) (img_dicts : list (odict nat))
    (layer_names : list string) (colormap : string) (vrange : Z * Z) (tind pind : Z)
    (s : stage) :
  wired s ->
  wired (in_world (_draw_layers runlog_path img_dicts layer_names colormap vrange
                     tind pind) s).2.
Proof.
  intros Hw. apply wired_in_world; [|done].
  by rewrite (proj1 (proj1 (draw_layers_within _ _ _ _ _ _ _ _))).
Qed.

(** X3. In a figure whose observers are wired, [_make_axes_grid]
    returns and keeps them wired.  The ghost axis it adds carries the
    layer name as y-label and no x-label.  For every image of the new
    grid exactly one observer is connected, which watches the axes of
    the image and writes to the ghost axis of the grid; every observer
    that was connected stays.  A later drawing keeps the observers wired
    too. *)
Theorem make_axes_grid_wires_observers (N subplot_ind : nat) (layer_name : string)
    (inp_size layer_size : nat) (mode : Z) (target : bool) (s : stage) :
  wired s ->
  exists grid s',
    Fig._make_axes_grid N subplot_ind layer_name inp_size layer_size mode target s
      = (Ok grid, s') /\
    wired s' /\
    axes (st_figure s') !! length (axes (st_figure s))
      = Some (ghost_axes (length (dividers (st_figure s))) layer_name) /\
    (forall ob, ob ∈ callbacks (st_figure s') <->
       ob ∈ callbacks (st_figure s) \/
       exists k img ax,
         (k, img) ∈ grid /\ image_axes (st_figure s') !! img = Some ax /\
         ob = {| ob_ax := ax; ob_img := img; ob_gax := length (axes (st_figure s)) |}) /\
    (forall runlog_path img_dicts layer_names colormap vrange tind pind,
       wired (in_world (_draw_layers runlog_path img_dicts layer_names colormap vrange
                          tind pind) s').2).
Proof.
  intros Hw.
  pose proof (make_axes_grid_wired N subplot_ind layer_name inp_size layer_size mode
                target s Hw) as Hwired.
  destruct s as [w f].
  pose proof (make_axes_grid_figure N subplot_ind layer_name inp_size layer_size mode
                target w f) as Hrun. cbv zeta in Hrun.
  rewrite Hrun in Hwired. cbn [snd] in Hwired.
  set (AX := ax_params_of inp_size layer_size mode target) in *.
  eexists _, _. split; [exact Hrun|].
  cbn [st_figure st_world] in *.
  assert (Hgrid : place (length (images w)) AX []
                  = zip (od_keys AX) (seq (length (images w)) (length AX))).
  { rewrite place_fresh; [done|]. simpl. unfold AX. rewrite ax_params_of_keys.
    apply panels_NoDup. }
  split_and!.
  - exact Hwired.
  - cbn [st_figure axes]. by rewrite list_lookup_middle.
  - intros ob. cbn [st_figure callbacks image_axes axes]. rewrite elem_of_app.
    split; (intros [Hob|Hnew]; [by left | right]).
    + apply elem_of_observers in Hnew as (j & Hj & ->).
      destruct (lookup_lt_is_Some_2 AX j Hj) as [[k p] Hp].
      exists k, (length (images w) + j), (S (length (axes f)) + j). split_and!; [| | done].
      * rewrite Hgrid. apply list_elem_of_lookup. exists j.
        apply lookup_zip_with_Some. exists k, (length (images w) + j).
        split_and!; [done | | ].
        -- unfold od_keys. by rewrite list_lookup_fmap, Hp.
        -- by apply lookup_seq.
      * by apply wire_images_lookup.
    + destruct Hnew as (k & img & ax & Hk & Hax & ->).
      rewrite Hgrid in Hk. apply list_elem_of_lookup in Hk as [j Hj].
      apply lookup_zip_with_Some in Hj as (k' & img' & [= <- <-] & Hk' & Himg').
      apply lookup_seq in Himg' as [-> Hj].
      rewrite wire_images_lookup in Hax by done. injection Hax as <-.
      apply elem_of_observers. by exists j.
  - intros. by apply draw_layers_wired.
Qed.

End Wiring.

Section Motion.
Context `{Environment} `{!Pointer}.

(** The three branches of [Observer.__call__]. *)
Lemma observer_call_miss (self : Observer) (event : MouseEvent) (s : stage) :
  inaxes event <> Some (ob_ax self) -> inaxes event <> Some (ob_gax self) ->
  Fig.Observer_call self event s = (Ok tt, s).
Proof.
  intros Hax Hgax. unfold Fig.Observer_call.
  by rewrite !decide_False by done.
Qed.

Lemma observer_call_ghost (self : Observer) (event : MouseEvent) (w : world) (f : figure) :
  inaxes event <> Some (ob_ax self) -> inaxes event = Some (ob_gax self) ->
  Fig.Observer_call self event (Stage w f)
  = (Ok tt,
     Stage w (Figure (dividers f) (alter (with_xlabel "") (ob_gax self) (axes f))
                (image_axes f) (callbacks f) (S (draw_requests f)))).
Proof.
  intros Hax Hgax. unfold Fig.Observer_call.
  rewrite decide_False by done. rewrite decide_True by done. reflexivity.
Qed.

Lemma observer_call_hit (self : Observer) (event : MouseEvent) (w : world) (f : figure)
    (im : image) :
  inaxes event = Some (ob_ax self) ->
  images w !! ob_img self = Some im ->
  Fig.Observer_call self event (Stage w f)
  = match get_cursor_data im event with
    | Some x =>
        (Ok tt,
         Stage w (Figure (dividers f)
                    (alter (with_xlabel (format_4f x)) (ob_gax self) (axes f))
                    (image_axes f) (callbacks f) (S (draw_requests f))))
    | None => (Raise TypeError, Stage w f)
    end.
Proof.
  intros Hax Him. unfold Fig.Observer_call. rewrite decide_True by done.
  unfold fbind, Fig.cursor_data. cbn [st_world]. rewrite Him.
  by destruct (get_cursor_data im event).
Qed.

Lemma for_each_app {A : Type} (l1 l2 : list A) (body : A -> F unit) (s : stage) :
  Fig.for_each (l1 ++ l2) body s
  = fbind (Fig.for_each l1 body) (fun _ => Fig.for_each l2 body) s.
Proof.
  revert s. induction l1 as [|x l1 IH]; intros s; simpl; [done|].
  rewrite fbind_assoc. unfold fbind at 1 2. destruct (body x s) as [[[]|e] s1]; [|done].
  apply IH.
Qed.

(** Observers that the event misses leave the stage as it is. *)
Lemma for_each_miss (event : MouseEvent) (l : list Observer) (s : stage) :
  (forall ob, ob ∈ l ->
     inaxes event <> Some (ob_ax ob) /\ inaxes event <> Some (ob_gax ob)) ->
  Fig.for_each l (fun self => Fig.Observer_call self event) s = (Ok tt, s).
Proof.
  induction l as [|ob l IH]; intros Hmiss; simpl; [done|].
  unfold fbind.
  rewrite observer_call_miss by (apply Hmiss, list_elem_of_here).
  apply IH. intros ob' Hob'. by apply Hmiss, list_elem_of_further.
Qed.

Lemma with_xlabel_twice (label : string) (a : Axes) :
  with_xlabel label (with_xlabel label a) = with_xlabel label a.
Proof. reflexivity. Qed.

(** Observers of which none watches the axes of the event: those whose
    ghost axis it is clear the label and ask for a redraw each. *)
Lemma for_each_off_images (event : MouseEvent) (l : list Observer) (w : world)
    (f : figure) :
  (forall ob, ob ∈ l -> inaxes event <> Some (ob_ax ob)) ->
  Fig.for_each l (fun self => Fig.Observer_call self event) (Stage w f)
  = (Ok tt,
     Stage w
       (Figure (dividers f)
          (match inaxes event, ghost_hits event l with
           | Some gax, _ :: _ => alter (with_xlabel "") gax (axes f)
           | _, _ => axes f
           end)
          (image_axes f) (callbacks f)
          (draw_requests f + length (ghost_hits event l)))).
Proof.
  revert f. induction l as [|ob l IH]; intros f Hoff.
  - cbn [Fig.for_each ghost_hits List.filter length]. unfold fret.
    rewrite Nat.add_0_r. destruct f. by destruct (inaxes event).
  - cbn [Fig.for_each]. unfold fbind, ghost_hits. cbn [List.filter].
    fold (ghost_hits event l).
    assert (Hax : inaxes event <> Some (ob_ax ob)) by apply Hoff, list_elem_of_here.
    assert (Hrest : forall ob', ob' ∈ l -> inaxes event <> Some (ob_ax ob'))
      by (intros ob' Hob'; by apply Hoff, list_elem_of_further).
    destruct (decide (inaxes event = Some (ob_gax ob))) as [Hg|Hg].
    + rewrite (bool_decide_eq_true_2 _ Hg), observer_call_ghost by done.
      rewrite IH by done. cbn [dividers axes image_axes callbacks draw_requests length].
      rewrite Hg. f_equal. f_equal. f_equal; [|lia].
      destruct (ghost_hits event l); [done|].
      rewrite list_alter_alter_eq. by apply list_alter_ext.
    + rewrite (bool_decide_eq_false_2 _ Hg), observer_call_miss by done.
      by rewrite IH.
Qed.

(** X4. The mouse over an image of a wired figure.  The event changes
    one thing in the figure: the x-label of the ghost axis of the layer
    of that image becomes the value under the mouse, printed with four
    decimals; and one redraw is asked for.  No other axes changes, so no
    label of another layer does.  When the image has no value under the
    mouse, the format of [None] raises a TypeError in the call of its
    observer and the figure is left as it was. *)
Theorem motion_over_image (s : stage) (event : MouseEvent) (self : Observer)
    (im : image) :
  wired s ->
  self ∈ callbacks (st_figure s) ->
  inaxes event = Some (ob_ax self) ->
  images (st_world s) !! ob_img self = Some im ->
  Fig.motion_notify_event event s
  = match get_cursor_data im event with
    | Some x =>
        (Ok tt,
         Stage (st_world s)
           (Figure (dividers (st_figure s))
              (alter (with_xlabel (format_4f x)) (ob_gax self) (axes (st_figure s)))
              (image_axes (st_figure s)) (callbacks (st_figure s))
              (S (draw_requests (st_figure s)))))
    | None => (Raise TypeError, s)
    end.
Proof.
  intros (Hnd & Hdis & _) Hself Hax Him. destruct s as [w f].
  cbn [st_world st_figure] in *. unfold Fig.motion_notify_event. cbn [st_figure].
  destruct (list_elem_of_split _ _ Hself) as (l1 & l2 & Hcbs).
  assert (Hmiss : forall ob, ob ∈ l1 ++ l2 ->
            inaxes event <> Some (ob_ax ob) /\ inaxes event <> Some (ob_gax ob)).
  { intros ob Hob. rewrite Hax. split.
    - intros [= Heq]. rewrite Hcbs, fmap_app, fmap_cons in Hnd.
      apply NoDup_app in Hnd as (_ & Hnot & Hnd2). apply NoDup_cons in Hnd2 as [Hnot2 _].
      apply elem_of_app in Hob as [Hob|Hob].
      + apply (Hnot (ob_ax ob)); [by apply list_elem_of_fmap_2 |].
        rewrite Heq. apply list_elem_of_here.
      + apply Hnot2. rewrite Heq. by apply list_elem_of_fmap_2.
    - intros [= Heq]. apply (Hdis self ob); [done | | done].
      rewrite Hcbs. apply elem_of_app in Hob as [Hob|Hob]; apply elem_of_app;
        [by left | right; by apply list_elem_of_further]. }
  rewrite Hcbs at 1. rewrite for_each_app. unfold fbind at 1.
  rewrite for_each_miss by (intros ob Hob; apply Hmiss, elem_of_app; by left).
  cbn [Fig.for_each]. unfold fbind at 1.
  rewrite (observer_call_hit self event w f im Hax Him).
  destruct (get_cursor_data im event) as [x|]; [|done].
  rewrite for_each_miss by (intros ob Hob; apply Hmiss, elem_of_app; by right).
  reflexivity.
Qed.

(** X5. The mouse off the images.  When the event falls in no axes
    that an observer watches, no exception is raised.  If it falls in
    the ghost axis of a layer, the label of that layer is cleared and
    every observer of the layer asks for a redraw; otherwise nothing
    changes at all.  So the label of a layer stays as it is when the
    mouse moves on to another layer or leaves the axes. *)
Theorem motion_off_the_images (s : stage) (event : MouseEvent) :
  (forall ob, ob ∈ callbacks (st_figure s) -> inaxes event <> Some (ob_ax ob)) ->
  Fig.motion_notify_event event s
  = (Ok tt,
     Stage (st_world s)
       (Figure (dividers (st_figure s))
          (match inaxes event, ghost_hits event (callbacks (st_figure s)) with
           | Some gax, _ :: _ => alter (with_xlabel "") gax (axes (st_figure s))
           | _, _ => axes (st_figure s)
           end)
          (image_axes (st_figure s)) (callbacks (st_figure s))
          (draw_requests (st_figure s)
           + length (ghost_hits event (callbacks (st_figure s)))))).
Proof.
  intros Hoff. destruct s as [w f]. cbn [st_world st_figure] in *.
  unfold Fig.motion_notify_event. cbn [st_figure].
  by rewrite for_each_off_images.
Qed.

End Motion.

(* ===================================================================== *)
(** * The statements on the small run log *)
(* ===================================================================== *)

(** A closed equation, settled by evaluating both sides. *)
Ltac evaluate :=
  lazymatch goal with
  | |- ?a = ?b => exact (@eq_refl _ b <: a = b)
  end.

(** From the equation [E : m w = (o, w')] of a closed run, the value of
    the outcome by evaluation. *)
Ltac outcome_of E :=
  let Hv := fresh "Hv" in
  pose proof (f_equal fst E) as Hv; vm_compute in Hv;
  first [discriminate Hv | injection Hv as <-].


(** The directory lists a.pkl, notes.txt and b.pkl.bak: two names
    contain '.pkl', and the dropdown starts on the first. *)
Lemma logs_widget_options_witness :
  exists run_widget,
    @_make_logs_widget _ Demo.env0 "logs" {| width := "100%" |} Demo.start0
      = (Ok run_widget, Demo.start0) /\
    dd_value run_widget = joinp "logs" "a.pkl".
Proof.
  assert (Hls : @listdir _ Demo.env0 (fs Demo.start0) "logs" = Ok Demo.names)
    by evaluate.
  assert (Hf : List.filter (fun filename => str_in ".pkl" filename) Demo.names
               = "a.pkl" :: ["b.pkl.bak"]) by evaluate.
  destruct (@logs_widget_options _ Demo.env0 "logs" {| width := "100%" |} Demo.start0
              Demo.names "a.pkl" ["b.pkl.bak"] Hls Hf)
    as (run_widget & Hrun & _ & _ & _ & Hvalue).
  exists run_widget. split; [exact Hrun | exact Hvalue].
Defined.

(** Two layers: two grids, and only the second has a 'targets' panel. *)
Lemma view_layers_targets_last_witness :
  match @view_layers _ Demo.env0 "logs" 0 Demo.start0 with
  | (Ok v, _) =>
      length (axes_dicts v) = length (layer_names v) /\
      forall i grid, axes_dicts v !! i = Some grid ->
        ("targets" ∈ od_keys grid <-> i = length (layer_names v) - 1)
  | (Raise _, _) => False
  end.
Proof.
  destruct (@view_layers _ Demo.env0 "logs" 0 Demo.start0) as [[v|e] w'] eqn:E.
  - apply (@view_layers_targets_last _ Demo.env0 "logs" 0%Z Demo.start0 w' v E).
    outcome_of E. discriminate.
  - outcome_of E.
Defined.

(** With the labels p0 and p1 the selector maps p0 to 0 and p1 to 1. *)
Lemma pattern_selector_indexes_witness :
  match @view_layers _ Demo.env0 "logs" 0 Demo.start0 with
  | (Ok v, _) => selector_indexes (pattern_options v) (pattern_widget v)
  | (Raise _, _) => False
  end.
Proof.
  destruct (@view_layers _ Demo.env0 "logs" 0 Demo.start0) as [[v|e] w'] eqn:E.
  - apply (@pattern_selector_indexes _ Demo.env0 "logs" 0%Z Demo.start0 w' v E).
    + outcome_of E. discriminate.
    + outcome_of E. simpl. apply (bool_decide_unpack _). vm_compute. exact I.
  - outcome_of E.
Defined.

(** With the labels a, b, b the selector is built, but the label at
    position 1 stands for the index 2: the claim of C10 as it is written,
    for every non-empty list of options, fails here. *)
Lemma pattern_selector_repeated_label :
  exists v w',
    @view_layers _ (Demo.env Demo.names [0; 1; 2]%Z Demo.repeated_options) "logs" 0
      (Demo.start Demo.names [0; 1; 2]%Z Demo.repeated_options) = (Ok v, w') /\
    pattern_options v <> [] /\
    ~ selector_indexes (pattern_options v) (pattern_widget v).
Proof.
  destruct (@view_layers _ (Demo.env Demo.names [0; 1; 2]%Z Demo.repeated_options)
              "logs" 0 (Demo.start Demo.names [0; 1; 2]%Z Demo.repeated_options))
    as [[v|e] w'] eqn:E; [|outcome_of E].
  exists v, w'. split; [reflexivity|]. outcome_of E. split; [discriminate|].
  intros [Hidx _]. specialize (Hidx 1 "b" eq_refl). vm_compute in Hidx. discriminate Hidx.
Defined.


(** C4. A log whose epochs are 5, 10 and 15: the step slider ranges over
    the positions 0..2 with step 1, but the value it is created with is
    the epoch number 5, which is no position of the slider; the host
    caps it to 2, so the snapshot drawn first is the last logged epoch,
    15, not the first. *)
Theorem step_slider_starts_at_epoch_number :
  exists v w',
    @view_layers _ (Demo.env Demo.names Demo.late_epochs ["p0"; "p1"]) "logs" 0
      (Demo.start Demo.names Demo.late_epochs ["p0"; "p1"]) = (Ok v, w') /\
    epochs v = [5; 10; 15]%Z /\
    is_min (step_widget v) = 0%Z /\
    is_max (step_widget v) = 2%Z /\
    is_step (step_widget v) = 1%Z /\
    is_value (step_widget v) = 5%Z /\
    ~ (is_min (step_widget v) <= is_value (step_widget v) <= is_max (step_widget v))%Z /\
    IntSlider_value (step_widget v) = 2%Z /\
    (stdout w').*1 = [Demo.arr [] [15%Z]].
Proof.
  assert (Hout : (stdout (@view_layers _ (Demo.env Demo.names Demo.late_epochs ["p0"; "p1"])
                            "logs" 0 (Demo.start Demo.names Demo.late_epochs ["p0"; "p1"])).2).*1
                 = [Demo.arr [] [15%Z]]) by evaluate.
  destruct (@view_layers _ (Demo.env Demo.names Demo.late_epochs ["p0"; "p1"])
              "logs" 0 (Demo.start Demo.names Demo.late_epochs ["p0"; "p1"]))
    as [[v|e] w'] eqn:E; [|outcome_of E].
  exists v, w'. split; [reflexivity|].
  outcome_of E. simpl. split_and!; try reflexivity; [lia | exact Hout].
Qed.



(** Drawing the hidden layer of the demo on three blank images: the
    image filed under 'weights' ends up showing a view of a loaded
    tensor. *)
Lemma draw_layers_only_views_witness :
  match images (@_draw_layers _ Demo.env0 "logs/a.pkl" [Demo.small_grid] ["hidden_layer"]
                  "coolwarm" (-1, 1)%Z 0 1 Demo.canvas).2 !! 0 with
  | Some im =>
      (exists im0, images Demo.canvas !! 0 = Some im0 /\ img_data im = img_data im0) \/
      (exists k d,
         tensor_at (heap (@call_load_test_data _ Demo.env0 "logs/a.pkl" Demo.canvas).2) k d /\
         view_of k 1 d (img_data im) /\
         nd_buf (img_data im) = nd_buf d /\
         forall idx x, nd_get (img_data im) idx = Some x ->
           exists idx0, nd_get d idx0 = Some x)
  | None => False
  end.
Proof.
  destruct (images (@_draw_layers _ Demo.env0 "logs/a.pkl" [Demo.small_grid]
                      ["hidden_layer"] "coolwarm" (-1, 1)%Z 0 1 Demo.canvas).2 !! 0)
    as [im|] eqn:E.
  - exact (@draw_layers_only_views _ Demo.env0 "logs/a.pkl" [Demo.small_grid]
             ["hidden_layer"] "coolwarm" (-1, 1)%Z 0%Z 1%Z Demo.canvas 0 im E).
  - vm_compute in E. discriminate E.
Defined.

(** A directory without '.pkl' names, a path that cannot be loaded, and
    a snapshot without the layer that is asked for. *)
Lemma exceptions_propagate_witness :
  (@_make_logs_widget _ (Demo.env Demo.other_names [0; 1; 2]%Z ["p0"; "p1"]) "logs"
     {| width := "100%" |} (Demo.start Demo.other_names [0; 1; 2]%Z ["p0"; "p1"])
   = (Raise IndexError, Demo.start Demo.other_names [0; 1; 2]%Z ["p0"; "p1"]) /\
   @view_layers _ (Demo.env Demo.other_names [0; 1; 2]%Z ["p0"; "p1"]) "logs" 0
     (Demo.start Demo.other_names [0; 1; 2]%Z ["p0"; "p1"])
   = (Raise IndexError, Demo.start Demo.other_names [0; 1; 2]%Z ["p0"; "p1"])) /\
  (exists w',
     @_draw_layers _ Demo.env0 "logs/gone.pkl" [Demo.small_grid] ["hidden_layer"]
       "coolwarm" (-1, 1)%Z 0 1 Demo.canvas
     = (Raise (HostError "FileNotFoundError"), w')) /\
  (exists e w',
     @_draw_layers _ Demo.short_env "short.pkl" [] ["output_layer"]
       "coolwarm" (-1, 1)%Z 0 1 Demo.short_canvas
     = (Raise e, w')).
Proof.
  assert (Hfault : @logs_fault _ (Demo.env Demo.other_names [0; 1; 2]%Z ["p0"; "p1"])
                      (Demo.start Demo.other_names [0; 1; 2]%Z ["p0"; "p1"]) "logs" IndexError).
  { apply (no_pickle _ _ Demo.other_names); evaluate. }
  split; [|split].
  - exact (proj1 (@exceptions_propagate _ (Demo.env Demo.other_names [0; 1; 2]%Z ["p0"; "p1"])
                    (Demo.start Demo.other_names [0; 1; 2]%Z ["p0"; "p1"]))
             "logs" {| width := "100%" |} 0%Z IndexError Hfault).
  - destruct (proj2 (@exceptions_propagate _ Demo.env0 Demo.canvas)
                "logs/gone.pkl" [Demo.small_grid] ["hidden_layer"] "coolwarm"
                (-1, 1)%Z 0%Z 1%Z (Raise (HostError "FileNotFoundError")) ∅)
      as (e & w' & Hrun & He).
    + evaluate.
    + by apply (load_fails _ _ _ _ (HostError "FileNotFoundError")).
    + destruct (He _ eq_refl) as [-> _]. eauto.
  - destruct (proj2 (@exceptions_propagate _ Demo.short_env Demo.short_canvas)
                "short.pkl" [] ["output_layer"] "coolwarm"
                (-1, 1)%Z 0%Z 1%Z (Ok [VRef 0]) Demo.short_heap)
      as (e & w' & Hrun & _).
    + evaluate.
    + apply (key_missing _ _ _ _ [VRef 0] 0 Demo.short_snapshot "output_layer").
      * reflexivity.
      * evaluate.
      * evaluate.
      * apply (bool_decide_unpack _). vm_compute. exact I.
      * evaluate.
    + eauto.
Defined.





(* ===================================================================== *)
(** * The further statements on the small cases *)
(* ===================================================================== *)

(** The demo log has three snapshots: step 3 is out of range. *)
Lemma draw_layers_step_out_of_range_witness :
  @_draw_layers _ Demo.env0 "logs/a.pkl" [Demo.small_grid] ["hidden_layer"]
    "coolwarm" (-1, 1)%Z 3 1 Demo.canvas
  = (Raise IndexError, with_heap Demo.loaded Demo.canvas).
Proof.
  apply (@draw_layers_step_out_of_range _ Demo.env0 "logs/a.pkl" [Demo.small_grid]
           ["hidden_layer"] "coolwarm" (-1, 1)%Z 3%Z 1%Z Demo.canvas Demo.logs3 Demo.loaded).
  - evaluate.
  - unfold index_of. simpl. lia.
Defined.

(** Step -1 of the demo log is its last snapshot, step 2. *)
Lemma draw_layers_negative_step_witness :
  @_draw_layers _ Demo.env0 "logs/a.pkl" [Demo.small_grid] ["hidden_layer"]
    "coolwarm" (-1, 1)%Z (-1) 1 Demo.canvas
  = @_draw_layers _ Demo.env0 "logs/a.pkl" [Demo.small_grid] ["hidden_layer"]
      "coolwarm" (-1, 1)%Z (Z.of_nat (length Demo.logs3) + -1) 1 Demo.canvas.
Proof.
  apply (@draw_layers_negative_step _ Demo.env0 "logs/a.pkl" [Demo.small_grid]
           ["hidden_layer"] "coolwarm" (-1, 1)%Z (-1)%Z 1%Z Demo.canvas Demo.logs3
           Demo.loaded).
  - evaluate.
  - simpl. lia.
Defined.

(** The demo log was tested on two patterns: pattern 2 is out of
    range. *)
Lemma draw_layers_pattern_out_of_range_witness :
  @_draw_layers _ Demo.env0 "logs/a.pkl" [Demo.small_grid] ["hidden_layer"]
    "coolwarm" (-1, 1)%Z 0 2 Demo.canvas
  = (Raise IndexError, with_heap Demo.loaded Demo.canvas).
Proof.
  apply (@draw_layers_pattern_out_of_range _ Demo.env0 "logs/a.pkl" [Demo.small_grid]
           ["hidden_layer"] "coolwarm" (-1, 1)%Z 0%Z 2%Z Demo.canvas Demo.logs3 Demo.loaded
           0 (Demo.snapshot 0 0) (Demo.arr [] [0%Z]) (NdArray [7; 9]%Z 0 (c_axes [2]))
           2 []).
  - evaluate.
  - evaluate.
  - evaluate.
  - evaluate.
  - evaluate.
  - reflexivity.
  - unfold index_of. simpl. lia.
Defined.

(** Drawing the hidden layer of the demo at snapshot 0, pattern 1,
    prints epoch 0 and the loss 9 of that pattern. *)
Lemma draw_layers_prints_epoch_and_loss_witness :
  match @_draw_layers _ Demo.env0 "logs/a.pkl" [Demo.small_grid] ["hidden_layer"]
          "coolwarm" (-1, 1)%Z 0 1 Demo.canvas with
  | (Ok _, w') =>
      exists (enum : @value Demo.Z_numeric) (loss : ndarray (@scalar Demo.Z_numeric)),
        stdout w' = stdout Demo.canvas ++ [(enum, VArr loss)]
  | (Raise _, _) => False
  end.
Proof.
  destruct (@_draw_layers _ Demo.env0 "logs/a.pkl" [Demo.small_grid] ["hidden_layer"]
              "coolwarm" (-1, 1)%Z 0 1 Demo.canvas) as [[[]|e] w'] eqn:E.
  - destruct (@draw_layers_prints_epoch_and_loss _ Demo.env0 "logs/a.pkl"
                [Demo.small_grid] ["hidden_layer"] "coolwarm" (-1, 1)%Z 0%Z 1%Z
                Demo.canvas w' E)
      as (logs & h1 & l & snap & enum & losses & loss & _ & _ & _ & _ & _ & _ & _ & Hout).
    by exists enum, loss.
  - outcome_of E.
Defined.

(** After that drawing the image filed under 'weights' has the colormap
    and the limits of the call. *)
Lemma draw_layers_styles_all_panels_witness :
  match @_draw_layers _ Demo.env0 "logs/a.pkl" [Demo.small_grid] ["hidden_layer"]
          "coolwarm" (-1, 1)%Z 0 1 Demo.canvas with
  | (Ok _, w') =>
      forall im, images w' !! 0 = Some im ->
        img_cmap im = Some "coolwarm" /\ img_vmin im = Some (-1)%Z /\
        img_vmax im = Some 1%Z
  | (Raise _, _) => False
  end.
Proof.
  destruct (@_draw_layers _ Demo.env0 "logs/a.pkl" [Demo.small_grid] ["hidden_layer"]
              "coolwarm" (-1, 1)%Z 0 1 Demo.canvas) as [[[]|e] w'] eqn:E.
  - intros im Him.
    apply (@draw_layers_styles_all_panels _ Demo.env0 "logs/a.pkl" [Demo.small_grid]
             ["hidden_layer"] "coolwarm" (-1, 1)%Z 0%Z 1%Z Demo.canvas w' E
             0 Demo.small_grid "hidden_layer" "weights" 0 im);
      [reflexivity | reflexivity | apply list_elem_of_here | exact Him].
  - outcome_of E.
Defined.

(** And it shows the weights of the hidden layer, transposed. *)
Lemma draw_layers_shows_each_tensor_witness :
  match @_draw_layers _ Demo.env0 "logs/a.pkl" [Demo.small_grid] ["hidden_layer"]
          "coolwarm" (-1, 1)%Z 0 1 Demo.canvas with
  | (Ok _, w') =>
      exists (ld : gmap string (@value Demo.Z_numeric)) (d d' : ndarray (@scalar Demo.Z_numeric)),
        ld !! "weights" = Some (VArr d) /\
        prepare "weights" 1 (VArr d) = Ok (VArr d') /\
        images w' !! 0 = Some (Image d' (Some "coolwarm") (Some (-1)%Z) (Some 1%Z))
  | (Raise _, _) => False
  end.
Proof.
  destruct (@_draw_layers _ Demo.env0 "logs/a.pkl" [Demo.small_grid] ["hidden_layer"]
              "coolwarm" (-1, 1)%Z 0 1 Demo.canvas) as [[[]|e] w'] eqn:E.
  - destruct (@draw_layers_shows_each_tensor _ Demo.env0 "logs/a.pkl" [Demo.small_grid]
                ["hidden_layer"] "coolwarm" (-1, 1)%Z 0%Z 1%Z Demo.canvas w'
                0 Demo.small_grid "hidden_layer" "weights" 0 E)
      as (logs & h1 & l & snap & ll & ld & d & d' & _ & _ & _ & _ & _ & Hd & Hp & Him).
    + apply (bool_decide_unpack _). vm_compute. exact I.
    + reflexivity.
    + reflexivity.
    + apply list_elem_of_here.
    + discriminate.
    + simpl. lia.
    + rewrite decide_False in Hd by discriminate. by exists ld, d, d'.
  - outcome_of E.
Defined.

(** The dropdown of the demo directory is [Cases.logs_dropdown]. *)
Lemma demo_logs_widget (logged_epochs : list Z) (options : list string) :
  @_make_logs_widget _ (Demo.env Demo.names logged_epochs options) "logs"
    {| width := "100%" |} (Demo.start Demo.names logged_epochs options)
  = (Ok Cases.logs_dropdown, Demo.start Demo.names logged_epochs options).
Proof. reflexivity. Qed.

(** On the demo log [view_layers] returns and displays its panel. *)
Lemma view_layers_returns_witness :
  exists v w',
    @view_layers _ Demo.env0 "logs" 0 Demo.start0 = (Ok v, w') /\
    displayed w' = displayed Demo.start0 ++ [controls_panel v].
Proof.
  destruct (@view_layers_returns _ Demo.env0 "logs" 0%Z Demo.start0 Cases.logs_dropdown
              0%Z [1; 2]%Z ["hidden_layer"; "output_layer"]
              (list_to_map [("hidden_layer", [2; 3]); ("output_layer", [3; 1])])
              "p0" ["p1"])
    as (v & w' & imgs & Hrun & _ & _ & _ & _ & Hdisp & _).
  - apply demo_logs_widget.
  - reflexivity.
  - reflexivity.
  - reflexivity.
  - repeat constructor; eexists _, _, _; reflexivity.
  - reflexivity.
  - apply (bool_decide_unpack _). vm_compute. exact I.
  - exists v, w'. split; [exact Hrun | exact Hdisp].
Defined.

(** A demo log without epochs: [view_layers] ends in an IndexError. *)
Lemma view_layers_without_epochs_witness :
  exists w',
    @view_layers _ (Demo.env Demo.names [] ["p0"; "p1"]) "logs" 0
      (Demo.start Demo.names [] ["p0"; "p1"]) = (Raise IndexError, w').
Proof.
  destruct (@view_layers_without_epochs _ (Demo.env Demo.names [] ["p0"; "p1"]) "logs" 0%Z
              (Demo.start Demo.names [] ["p0"; "p1"]) Cases.logs_dropdown
              ["hidden_layer"; "output_layer"]
              (list_to_map [("hidden_layer", [2; 3]); ("output_layer", [3; 1])]))
    as (imgs & Hrun).
  - apply demo_logs_widget.
  - reflexivity.
  - reflexivity.
  - reflexivity.
  - repeat constructor; eexists _, _, _; reflexivity.
  - eexists. exact Hrun.
Defined.

(** The output layer has no sizes in the sparse case: [view_layers]
    ends in the [KeyError] of that name. *)
Lemma view_layers_layer_without_sizes_witness :
  exists e w',
    @view_layers _ Cases.sparse_env "logs" 0 Cases.sparse_start = (Raise e, w') /\
    @dims_fault (list_to_map [("hidden_layer", [2; 3])]) ["hidden_layer"; "output_layer"] e.
Proof.
  destruct (@view_layers_layer_without_sizes _ Cases.sparse_env "logs" 0%Z
              Cases.sparse_start Cases.logs_dropdown [0; 1; 2]%Z
              ["hidden_layer"; "output_layer"]
              (list_to_map [("hidden_layer", [2; 3])]))
    as (e & imgs & Hrun & Hfault).
  - reflexivity.
  - reflexivity.
  - reflexivity.
  - reflexivity.
  - intros Hall. apply Forall_cons in Hall as [_ Hall].
    apply Forall_cons in Hall as [(a & b & m & Hab) _]. discriminate Hab.
  - exists e. eexists. split; [exact Hrun | exact Hfault].
Defined.

(** On the demo log the two grids file the eleven images that
    [view_layers] adds to the empty figure. *)
Lemma view_layers_grid_images_witness :
  match @view_layers _ Demo.env0 "logs" 0 Demo.start0 with
  | (Ok v, w') =>
      grid_ids (axes_dicts v) = seq 0 (length (images w') - 0) /\
      NoDup (grid_ids (axes_dicts v))
  | (Raise _, _) => False
  end.
Proof.
  destruct (@view_layers _ Demo.env0 "logs" 0 Demo.start0) as [[v|e] w'] eqn:E.
  - destruct (@view_layers_grid_images _ Demo.env0 "logs" 0%Z Demo.start0 w' v E)
      as (_ & Hids & Hnd & _).
    split; [exact Hids | exact Hnd].
  - outcome_of E.
Defined.



(** The grid of one layer on the empty figure. *)
Lemma make_axes_grid_wires_observers_witness :
  exists grid s',
    @Fig._make_axes_grid _ Demo.env0 1 0 "HIDDEN LAYER" 2 3 0 false
      (Stage Demo.start0 new_figure) = (Ok grid, s') /\
    wired s'.
Proof.
  destruct (@make_axes_grid_wires_observers _ Demo.env0 1 0 "HIDDEN LAYER" 2 3 0%Z false
              (Stage Demo.start0 new_figure) (wired_new_figure Demo.start0))
    as (grid & s' & Hrun & Hwired & _).
  exists grid, s'. split; [exact Hrun | exact Hwired].
Defined.

(** The observers of that figure, in the order of the panels. *)
Lemma hover_stage_callbacks :
  callbacks (st_figure Cases.hover_stage)
  = [ Cases.input_observer;
      {| ob_ax := 2; ob_img := 1; ob_gax := 0 |};
      {| ob_ax := 3; ob_img := 2; ob_gax := 0 |};
      {| ob_ax := 4; ob_img := 3; ob_gax := 0 |};
      {| ob_ax := 5; ob_img := 4; ob_gax := 0 |} ].
Proof. evaluate. Qed.

Lemma hover_stage_wired : wired Cases.hover_stage.
Proof. apply make_axes_grid_wired, wired_new_figure. Qed.

(** The mouse over the second cell of the 'input_' image: the label of
    the layer shows the zero of the fresh image. *)
Lemma motion_over_image_witness :
  exists s',
    @Fig.motion_notify_event _ Demo.env0 Cases.pointer (Some 1, (0, 1)) Cases.hover_stage
      = (Ok tt, s') /\
    ax_xlabel <$> axes (st_figure s') !! 0 = Some "0.0000".
Proof.
  assert (Him : images (st_world Cases.hover_stage) !! ob_img Cases.input_observer
                = Some Cases.input_image) by evaluate.
  assert (Hin : Cases.input_observer ∈ callbacks (st_figure Cases.hover_stage)).
  { rewrite hover_stage_callbacks. apply list_elem_of_here. }
  pose proof (@motion_over_image _ Demo.env0 Cases.pointer Cases.hover_stage (Some 1, (0, 1))
                Cases.input_observer _ hover_stage_wired Hin eq_refl Him) as Hrun.
  change (@get_cursor_data _ Cases.pointer Cases.input_image (Some 1, (0, 1)))
    with (Some 0%Z) in Hrun.
  eexists. split; [exact Hrun|]. cbn [st_figure axes]. evaluate.
Defined.

(** The mouse over the ghost axis of the layer: the label is cleared
    and the five observers ask for a redraw each. *)
Lemma motion_off_the_images_witness :
  (@Fig.motion_notify_event _ Demo.env0 Cases.pointer (Some 0, (0, 0)) Cases.hover_stage).1
    = Ok tt /\
  draw_requests
    (st_figure
       (@Fig.motion_notify_event _ Demo.env0 Cases.pointer (Some 0, (0, 0))
          Cases.hover_stage).2) = 5.
Proof.
  rewrite (@motion_off_the_images _ Demo.env0 Cases.pointer Cases.hover_stage
             (Some 0, (0, 0))).
  - split; [reflexivity|]. cbn [snd st_figure draw_requests]. evaluate.
  - rewrite hover_stage_callbacks. intros ob Hob.
    repeat (apply elem_of_cons in Hob as [->|Hob]; [discriminate|]).
    by apply elem_of_nil in Hob.
Defined.
